(** * Tabletop session manager: a shallow embedding of the REST controllers

    The development follows the TypeScript sources:
    - [prisma/schema.prisma] and the initial migration give the tables, the
      serial primary keys, the unique indexes and the foreign keys with
      their referential actions;
    - [middleware] gives [extractUserFromToken] and [isAuthenticated];
    - the controllers ([userController], [characterController],
      [sessionController], [sessionParticipantsController],
      [diceRollController]) are written in a small state-and-exception
      monad over the database, one definition per handler;
    - the routers say which middleware guards which handler.

    Numbers are exact integers ([Z]), which is what the doubles of
    JavaScript are below [2^53]; a request body field is either
    absent, [null] or a value of the type the schema gives the column it
    feeds.  A route parameter is given by the value [parseInt] yields for
    it ([None] for [NaN]). *)

From Stdlib Require Import ZArith List String Ascii Bool QArith Qround Lia.
From Stdlib Require Import DecimalString Permutation Sorted Lqa.
Import ListNotations.
Local Open Scope string_scope.
Local Open Scope Z_scope.

Set Implicit Arguments.

(** ** JavaScript values *)

(** A field of a JSON request body. *)
Inductive field (A : Type) : Type :=
| Undefined
| Null
| Val (a : A).
Arguments Undefined {A}.
Arguments Null {A}.
Arguments Val {A} a.

(** JavaScript truthiness: [0], the empty string and [false] are falsy. *)
Class Truthy (A : Type) := truthy : A -> bool.

#[global] Instance truthy_Z : Truthy Z := fun z => negb (z =? 0).
#[global] Instance truthy_string : Truthy string :=
  fun s => match s with EmptyString => false | String _ _ => true end.
#[global] Instance truthy_bool : Truthy bool := fun b => b.
#[global] Instance truthy_option {A} : Truthy (option A) :=
  fun o => match o with Some _ => true | None => false end.
#[global] Instance truthy_field {A} `{Truthy A} : Truthy (field A) :=
  fun f => match f with Val a => truthy a | _ => false end.

(** [x !== undefined] *)
Definition defined {A} (f : field A) : bool :=
  match f with Undefined => false | _ => true end.

(** What Prisma writes in a nullable column for a body field. *)
Definition nullable {A} (f : field A) : option A :=
  match f with Val a => Some a | _ => None end.

(** [x || d] on a string field. *)
Definition or_default (f : field string) (d : string) : string :=
  match f with
  | Val s => if truthy s then s else d
  | _ => d
  end.

Definition eq_opt (o : option Z) (z : Z) : bool :=
  match o with Some x => x =? z | None => false end.

(** ** The data model ([prisma/schema.prisma]) *)

Definition Json := string.

(** [bcrypt.hash] is kept symbolic: a hash remembers what it hashes, and
    [bcrypt.compare] checks it. *)
Inductive Password : Type := Hashed (plain : string).

Module User.
Record t : Type := mk {
  id : Z;
  username : string;
  email : string;
  password : Password
}.
End User.

Module Character.
Record t : Type := mk {
  id : Z;
  name : string;
  race : string;
  class : string;
  level : Z;
  background : option string;
  inventory : option Json;
  stats : option Json;
  isAlive : bool;
  userId : Z;
  sessionId : option Z
}.
End Character.

Module Session.
Record t : Type := mk {
  id : Z;
  title : string;
  description : option string;
  scheduledAt : option Z;
  status : string;
  gmId : Z
}.
End Session.

Module SessionParticipants.
Record t : Type := mk {
  id : Z;
  sessionId : Z;
  userId : Z;
  characterId : option Z;
  role : string
}.
End SessionParticipants.

(** The [details] object of [calculateDiceRoll], stored as [metadata]. *)
Module Details.
Record t : Type := mk {
  expression : string;
  rolls : list Z;
  modifier : Z;
  total : Z
}.
End Details.

Module DiceRoll.
Record t : Type := mk {
  id : Z;
  rollExpression : string;
  result : Z;
  userId : Z;
  characterId : option Z;
  sessionId : Z;
  metadata : option Details.t
}.
End DiceRoll.

(** The database: the five tables in insertion order and the five serial
    sequences. *)
Record Store : Type := mkStore {
  users : list User.t;
  characters : list Character.t;
  sessions : list Session.t;
  participants : list SessionParticipants.t;
  diceRolls : list DiceRoll.t;
  user_seq : Z;
  character_seq : Z;
  session_seq : Z;
  participant_seq : Z;
  diceRoll_seq : Z
}.

Definition empty_store : Store := mkStore [] [] [] [] [] 1 1 1 1 1.

(** ** Responses *)

(** The [session] object [getSessionById] returns: the row with its
    included relations. *)
Record SessionView : Type := mkSessionView {
  sv_session : Session.t;
  sv_gm : option User.t;
  sv_participants : list SessionParticipants.t;
  sv_characters : list Character.t;
  sv_diceRolls : list DiceRoll.t
}.

Inductive Payload : Type :=
| NoPayload
| PUser (u : User.t)
| PCharacter (c : Character.t)
| PSession (s : Session.t)
| PSessionView (v : SessionView)
| PParticipant (p : SessionParticipants.t)
| PDiceRoll (d : DiceRoll.t)
| PError (e : string).

Record Response : Type := mkResponse {
  status : Z;
  success : bool;
  message : string;
  payload : Payload
}.

Definition fail (code : Z) (msg : string) : Response :=
  mkResponse code false msg NoPayload.

(** What a handler that only reads answers: [res.json({ success: true,
    ... })] with what it read (status 200), or an error response. *)
Inductive Reply (A : Type) : Type :=
| Found (a : A)
| Refused (r : Response).
Arguments Found {A} a.
Arguments Refused {A} r.

(** [{ success: true, count: rows.length, rows }] *)
Record Listing (A : Type) : Type := mkListing {
  count : Z;
  rows : list A
}.

Definition listing {A} (l : list A) : Listing A :=
  mkListing (Z.of_nat (List.length l)) l.

(** The columns a [select] keeps of a related row. *)
Record UserName : Type := mkUserName {
  un_id : Z;
  un_username : string
}.
Record UserContact : Type := mkUserContact {
  uc_id : Z;
  uc_username : string;
  uc_email : string
}.
Record SessionStatus : Type := mkSessionStatus {
  ss_id : Z;
  ss_title : string;
  ss_status : string
}.
Record SessionGm : Type := mkSessionGm {
  sg_id : Z;
  sg_title : string;
  sg_gmId : Z
}.
Record CharacterLevel : Type := mkCharacterLevel {
  cl_id : Z;
  cl_name : string;
  cl_class : string;
  cl_level : Z
}.
Record CharacterSheet : Type := mkCharacterSheet {
  cs_id : Z;
  cs_name : string;
  cs_race : string;
  cs_class : string;
  cs_level : Z
}.

Definition select_name (u : User.t) : UserName :=
  mkUserName (User.id u) (User.username u).
Definition select_contact (u : User.t) : UserContact :=
  mkUserContact (User.id u) (User.username u) (User.email u).
Definition select_status (s : Session.t) : SessionStatus :=
  mkSessionStatus (Session.id s) (Session.title s) (Session.status s).
Definition select_gm (s : Session.t) : SessionGm :=
  mkSessionGm (Session.id s) (Session.title s) (Session.gmId s).
Definition select_level (c : Character.t) : CharacterLevel :=
  mkCharacterLevel (Character.id c) (Character.name c) (Character.class c)
    (Character.level c).
Definition select_sheet (c : Character.t) : CharacterSheet :=
  mkCharacterSheet (Character.id c) (Character.name c) (Character.race c)
    (Character.class c) (Character.level c).

(** A user of [getAllUsers]: the selected columns and the [_count] of
    three relations. *)
Record UserCount : Type := mkUserCount {
  uk_id : Z;
  uk_username : string;
  uk_email : string;
  uk_characters : Z;
  uk_sessionsAsGM : Z;
  uk_participations : Z
}.

(** The [character] object of [getCharacterById]. *)
Record CharacterView : Type := mkCharacterView {
  cv_character : Character.t;
  cv_user : option UserContact;
  cv_session : option Session.t;
  cv_diceRolls : list DiceRoll.t;
  cv_sessionParticipants : list SessionParticipants.t
}.

(** A character of [getCharacters] and of [getCharactersBySession]. *)
Record CharacterInSession : Type := mkCharacterInSession {
  ci_character : Character.t;
  ci_session : option SessionStatus
}.
Record CharacterOfUser : Type := mkCharacterOfUser {
  cu_character : Character.t;
  cu_user : option UserName
}.

(** A participant of [getParticipants]. *)
Record ParticipantView : Type := mkParticipantView {
  pv_participant : SessionParticipants.t;
  pv_user : option UserContact;
  pv_character : option CharacterSheet
}.

(** The [diceRoll] object of [getDiceRollById]. *)
Record DiceRollView : Type := mkDiceRollView {
  dv_diceRoll : DiceRoll.t;
  dv_user : option UserName;
  dv_character : option CharacterLevel;
  dv_session : option SessionGm
}.

(** ** The handler monad

    A handler reads and writes the database, may answer early
    ([res.status(..).json(..); return]) and may throw; nothing is rolled
    back when it throws. *)

Inductive outcome (A : Type) : Type :=
| Next (a : A)
| Sent (r : Response)
| Thrown (e : string).
Arguments Next {A} a.
Arguments Sent {A} r.
Arguments Thrown {A} e.

Definition M (A : Type) : Type := Store -> outcome A * Store.

Definition ret {A} (a : A) : M A := fun st => (Next a, st).

Definition bind {A B} (m : M A) (k : A -> M B) : M B :=
  fun st =>
    match m st with
    | (Next a, st') => k a st'
    | (Sent r, st') => (Sent r, st')
    | (Thrown e, st') => (Thrown e, st')
    end.

Definition send {A} (r : Response) : M A := fun st => (Sent r, st).
Definition throw {A} (e : string) : M A := fun st => (Thrown e, st).
Definition get : M Store := fun st => (Next st, st).
Definition put (st : Store) : M unit := fun _ => (Next tt, st).

Declare Scope handler_scope.
Delimit Scope handler_scope with handler.
Notation "x <- m ;; k" := (bind m (fun x => k))
  (at level 61, m at next level, right associativity) : handler_scope.
Notation "m ;; k" := (bind m (fun _ => k))
  (at level 61, right associativity) : handler_scope.
Local Open Scope handler_scope.

(** [if (c) { res.status(code).json(..); return; }] *)
Definition reject_if (c : bool) (r : Response) : M unit :=
  if c then send r else ret tt.

(** [try { body } catch (error) { res.status(500).json(..) }] *)
Definition try_catch (body : M Response) (msg : string)
  : Store -> Response * Store :=
  fun st =>
    match body st with
    | (Next r, st') => (r, st')
    | (Sent r, st') => (r, st')
    | (Thrown e, st') => (mkResponse 500 false msg (PError e), st')
    end.

(** The same around a handler that only reads. *)
Definition try_catch_read {A} (body : M A) (msg : string)
  : Store -> Reply A * Store :=
  fun st =>
    match body st with
    | (Next a, st') => (Found a, st')
    | (Sent r, st') => (Refused r, st')
    | (Thrown e, st') => (Refused (mkResponse 500 false msg (PError e)), st')
    end.

(** ** The Prisma client

    Each call is one SQL statement.  The referential actions are those of
    the migration: a foreign key of a required relation is [ON DELETE
    RESTRICT], one of an optional relation [ON DELETE SET NULL].  A
    statement that violates a constraint throws and leaves the tables as
    they were; an [INSERT] has drawn its serial number by then. *)

Definition mem (z : Z) (l : list Z) : bool := existsb (Z.eqb z) l.

Definition mem_opt (o : option Z) (l : list Z) : bool :=
  match o with Some z => mem z l | None => false end.

Definition set_users (v : list User.t) (st : Store) : Store :=
  mkStore v (characters st) (sessions st) (participants st) (diceRolls st)
    (user_seq st) (character_seq st) (session_seq st) (participant_seq st)
    (diceRoll_seq st).
Definition set_characters (v : list Character.t) (st : Store) : Store :=
  mkStore (users st) v (sessions st) (participants st) (diceRolls st)
    (user_seq st) (character_seq st) (session_seq st) (participant_seq st)
    (diceRoll_seq st).
Definition set_sessions (v : list Session.t) (st : Store) : Store :=
  mkStore (users st) (characters st) v (participants st) (diceRolls st)
    (user_seq st) (character_seq st) (session_seq st) (participant_seq st)
    (diceRoll_seq st).
Definition set_participants (v : list SessionParticipants.t) (st : Store)
  : Store :=
  mkStore (users st) (characters st) (sessions st) v (diceRolls st)
    (user_seq st) (character_seq st) (session_seq st) (participant_seq st)
    (diceRoll_seq st).
Definition set_diceRolls (v : list DiceRoll.t) (st : Store) : Store :=
  mkStore (users st) (characters st) (sessions st) (participants st) v
    (user_seq st) (character_seq st) (session_seq st) (participant_seq st)
    (diceRoll_seq st).
Definition next_user_seq (st : Store) : Store :=
  mkStore (users st) (characters st) (sessions st) (participants st)
    (diceRolls st) (user_seq st + 1) (character_seq st) (session_seq st)
    (participant_seq st) (diceRoll_seq st).
Definition next_character_seq (st : Store) : Store :=
  mkStore (users st) (characters st) (sessions st) (participants st)
    (diceRolls st) (user_seq st) (character_seq st + 1) (session_seq st)
    (participant_seq st) (diceRoll_seq st).
Definition next_session_seq (st : Store) : Store :=
  mkStore (users st) (characters st) (sessions st) (participants st)
    (diceRolls st) (user_seq st) (character_seq st) (session_seq st + 1)
    (participant_seq st) (diceRoll_seq st).
Definition next_participant_seq (st : Store) : Store :=
  mkStore (users st) (characters st) (sessions st) (participants st)
    (diceRolls st) (user_seq st) (character_seq st) (session_seq st)
    (participant_seq st + 1) (diceRoll_seq st).
Definition next_diceRoll_seq (st : Store) : Store :=
  mkStore (users st) (characters st) (sessions st) (participants st)
    (diceRolls st) (user_seq st) (character_seq st) (session_seq st)
    (participant_seq st) (diceRoll_seq st + 1).

Definition has_user (st : Store) (id : Z) : bool :=
  existsb (fun u => User.id u =? id) (users st).
Definition has_character (st : Store) (id : Z) : bool :=
  existsb (fun c => Character.id c =? id) (characters st).
Definition has_session (st : Store) (id : Z) : bool :=
  existsb (fun s => Session.id s =? id) (sessions st).
Definition has_participant (st : Store) (id : Z) : bool :=
  existsb (fun p => SessionParticipants.id p =? id) (participants st).

(** A nullable foreign key is satisfied by [NULL]. *)
Definition fk_opt (has : Z -> bool) (o : option Z) : bool :=
  match o with Some z => has z | None => true end.

(** An [UPDATE] checks the foreign keys and the unique indexes of the
    columns it sets. *)
Definition fk_set (has : Z -> bool) (o : option (option Z)) : bool :=
  match o with Some v => fk_opt has v | None => true end.

Definition taken (o : option string) (s : string) : bool :=
  match o with Some v => (s =? v)%string | None => false end.

(** [ON DELETE SET NULL]. *)
Definition character_detach (gone : list Z) (c : Character.t) : Character.t :=
  if mem_opt (Character.sessionId c) gone
  then Character.mk (Character.id c) (Character.name c) (Character.race c)
         (Character.class c) (Character.level c) (Character.background c)
         (Character.inventory c) (Character.stats c) (Character.isAlive c)
         (Character.userId c) None
  else c.
Definition participant_detach (gone : list Z) (p : SessionParticipants.t)
  : SessionParticipants.t :=
  if mem_opt (SessionParticipants.characterId p) gone
  then SessionParticipants.mk (SessionParticipants.id p)
         (SessionParticipants.sessionId p) (SessionParticipants.userId p)
         None (SessionParticipants.role p)
  else p.
Definition diceRoll_detach (gone : list Z) (d : DiceRoll.t) : DiceRoll.t :=
  if mem_opt (DiceRoll.characterId d) gone
  then DiceRoll.mk (DiceRoll.id d) (DiceRoll.rollExpression d)
         (DiceRoll.result d) (DiceRoll.userId d) None (DiceRoll.sessionId d)
         (DiceRoll.metadata d)
  else d.

(** [UPDATE ... WHERE key = id]. *)
Definition replace {A} (key : A -> Z) (id : Z) (f : A -> A) (l : list A)
  : list A :=
  map (fun x => if key x =? id then f x else x) l.

Definition P2002 := "Unique constraint failed".
Definition P2003 := "Foreign key constraint failed".
Definition P2025 := "Record not found".

(** The [data] of the partial updates. *)
Record UserData : Type := mkUserData {
  ud_username : option string;
  ud_email : option string;
  ud_password : option Password
}.
Record CharacterData : Type := mkCharacterData {
  cd_name : option string;
  cd_race : option string;
  cd_class : option string;
  cd_level : option Z;
  cd_background : option (option string);
  cd_inventory : option (option Json);
  cd_stats : option (option Json);
  cd_isAlive : option bool;
  cd_sessionId : option (option Z)
}.
Record SessionData : Type := mkSessionData {
  sd_title : option string;
  sd_description : option (option string);
  sd_scheduledAt : option (option Z);
  sd_status : option string
}.
Record ParticipantData : Type := mkParticipantData {
  pd_role : option string;
  pd_characterId : option (option Z)
}.

Definition upd {A} (o : option A) (old : A) : A :=
  match o with Some v => v | None => old end.

Definition apply_UserData (d : UserData) (u : User.t) : User.t :=
  User.mk (User.id u) (upd (ud_username d) (User.username u))
    (upd (ud_email d) (User.email u)) (upd (ud_password d) (User.password u)).
Definition apply_CharacterData (d : CharacterData) (c : Character.t)
  : Character.t :=
  Character.mk (Character.id c) (upd (cd_name d) (Character.name c))
    (upd (cd_race d) (Character.race c)) (upd (cd_class d) (Character.class c))
    (upd (cd_level d) (Character.level c))
    (upd (cd_background d) (Character.background c))
    (upd (cd_inventory d) (Character.inventory c))
    (upd (cd_stats d) (Character.stats c))
    (upd (cd_isAlive d) (Character.isAlive c)) (Character.userId c)
    (upd (cd_sessionId d) (Character.sessionId c)).
Definition apply_SessionData (d : SessionData) (s : Session.t) : Session.t :=
  Session.mk (Session.id s) (upd (sd_title d) (Session.title s))
    (upd (sd_description d) (Session.description s))
    (upd (sd_scheduledAt d) (Session.scheduledAt s))
    (upd (sd_status d) (Session.status s)) (Session.gmId s).
Definition apply_ParticipantData (d : ParticipantData)
  (p : SessionParticipants.t) : SessionParticipants.t :=
  SessionParticipants.mk (SessionParticipants.id p)
    (SessionParticipants.sessionId p) (SessionParticipants.userId p)
    (upd (pd_characterId d) (SessionParticipants.characterId p))
    (upd (pd_role d) (SessionParticipants.role p)).

(** A read-only query. *)
Definition query {A} (f : Store -> A) : M A := fun st => (Next (f st), st).

Module prisma.

Module user.
Definition findUnique (id : Z) : M (option User.t) :=
  query (fun st => find (fun u => User.id u =? id) (users st)).
Definition findFirst (where_ : User.t -> bool) : M (option User.t) :=
  query (fun st => find where_ (users st)).
Definition create (username email : string) (password : Password)
  : M User.t :=
  fun st =>
    let u := User.mk (user_seq st) username email password in
    let st1 := next_user_seq st in
    if existsb (fun v => (User.username v =? username)%string
                         || (User.email v =? email)%string) (users st)
    then (Thrown P2002, st1)
    else (Next u, set_users (users st ++ [u]) st1).
Definition update (id : Z) (data : UserData) : M User.t :=
  fun st =>
    match find (fun u => User.id u =? id) (users st) with
    | None => (Thrown P2025, st)
    | Some u =>
      let u' := apply_UserData data u in
      if existsb (fun v => negb (User.id v =? id)
                           && (taken (ud_username data) (User.username v)
                               || taken (ud_email data) (User.email v)))
           (users st)
      then (Thrown P2002, st)
      else (Next u',
            set_users (replace User.id id (apply_UserData data) (users st))
              st)
    end.
Definition delete (id : Z) : M unit :=
  fun st =>
    if negb (has_user st id) then (Thrown P2025, st)
    else if existsb (fun c => Character.userId c =? id) (characters st)
         || existsb (fun s => Session.gmId s =? id) (sessions st)
         || existsb (fun p => SessionParticipants.userId p =? id)
              (participants st)
         || existsb (fun d => DiceRoll.userId d =? id) (diceRolls st)
    then (Thrown P2003, st)
    else (Next tt,
          set_users (filter (fun u => negb (User.id u =? id)) (users st)) st).
Definition findMany : M (list User.t) :=
  query (fun st => users st).
End user.

Module character.
Definition findUnique (id : Z) : M (option Character.t) :=
  query (fun st => find (fun c => Character.id c =? id) (characters st)).
Definition findFirst (where_ : Character.t -> bool)
  : M (option Character.t) :=
  query (fun st => find where_ (characters st)).
Definition create (name race class : string) (level : Z)
  (background : option string) (inventory stats : option Json) (userId : Z)
  : M Character.t :=
  fun st =>
    let c := Character.mk (character_seq st) name race class level background
               inventory stats true userId None in
    let st1 := next_character_seq st in
    if has_user st userId
    then (Next c, set_characters (characters st ++ [c]) st1)
    else (Thrown P2003, st1).
Definition update (id : Z) (data : CharacterData) : M Character.t :=
  fun st =>
    match find (fun c => Character.id c =? id) (characters st) with
    | None => (Thrown P2025, st)
    | Some c =>
      let c' := apply_CharacterData data c in
      if fk_set (has_session st) (cd_sessionId data)
      then (Next c',
            set_characters
              (replace Character.id id (apply_CharacterData data)
                 (characters st)) st)
      else (Thrown P2003, st)
    end.
(** [updateMany({ where, data: { sessionId: null } })] *)
Definition updateMany_detach (where_ : Character.t -> bool) : M unit :=
  fun st =>
    (Next tt,
     set_characters
       (map (fun c => if where_ c
                      then apply_CharacterData
                             (mkCharacterData None None None None None None
                                None None (Some None)) c
                      else c) (characters st)) st).
Definition deleteMany (where_ : Character.t -> bool) : M unit :=
  fun st =>
    let gone := map Character.id (filter where_ (characters st)) in
    (Next tt,
     set_characters (filter (fun c => negb (where_ c)) (characters st))
       (set_participants (map (participant_detach gone) (participants st))
          (set_diceRolls (map (diceRoll_detach gone) (diceRolls st)) st))).
Definition delete (id : Z) : M unit :=
  fun st =>
    if has_character st id
    then deleteMany (fun c => Character.id c =? id) st
    else (Thrown P2025, st).
Definition findMany (where_ : Character.t -> bool) : M (list Character.t) :=
  query (fun st => filter where_ (characters st)).
End character.

Module session.
Definition findUnique (id : Z) : M (option Session.t) :=
  query (fun st => find (fun s => Session.id s =? id) (sessions st)).
Definition create (title : string) (description : option string)
  (scheduledAt : option Z) (status : string) (gmId : Z) : M Session.t :=
  fun st =>
    let s := Session.mk (session_seq st) title description scheduledAt status
               gmId in
    let st1 := next_session_seq st in
    if has_user st gmId
    then (Next s, set_sessions (sessions st ++ [s]) st1)
    else (Thrown P2003, st1).
Definition update (id : Z) (data : SessionData) : M Session.t :=
  fun st =>
    match find (fun s => Session.id s =? id) (sessions st) with
    | None => (Thrown P2025, st)
    | Some s =>
      let s' := apply_SessionData data s in
      (Next s',
       set_sessions
         (replace Session.id id (apply_SessionData data) (sessions st)) st)
    end.
Definition deleteMany (where_ : Session.t -> bool) : M unit :=
  fun st =>
    let gone := map Session.id (filter where_ (sessions st)) in
    if existsb (fun p => mem (SessionParticipants.sessionId p) gone)
         (participants st)
       || existsb (fun d => mem (DiceRoll.sessionId d) gone) (diceRolls st)
    then (Thrown P2003, st)
    else (Next tt,
          set_sessions (filter (fun s => negb (where_ s)) (sessions st))
            (set_characters (map (character_detach gone) (characters st)) st)).
Definition delete (id : Z) : M unit :=
  fun st =>
    if has_session st id
    then deleteMany (fun s => Session.id s =? id) st
    else (Thrown P2025, st).
End session.

Module sessionParticipants.
Definition findUnique (id : Z) : M (option SessionParticipants.t) :=
  query (fun st =>
           find (fun p => SessionParticipants.id p =? id) (participants st)).
Definition findFirst (where_ : SessionParticipants.t -> bool)
  : M (option SessionParticipants.t) :=
  query (fun st => find where_ (participants st)).
Definition findMany (where_ : SessionParticipants.t -> bool)
  : M (list SessionParticipants.t) :=
  query (fun st => filter where_ (participants st)).
Definition create (sessionId userId : Z) (characterId : option Z)
  (role : string) : M SessionParticipants.t :=
  fun st =>
    let p := SessionParticipants.mk (participant_seq st) sessionId userId
               characterId role in
    let st1 := next_participant_seq st in
    if has_session st sessionId && has_user st userId
       && fk_opt (has_character st) characterId
    then (Next p, set_participants (participants st ++ [p]) st1)
    else (Thrown P2003, st1).
Definition update (id : Z) (data : ParticipantData)
  : M SessionParticipants.t :=
  fun st =>
    match find (fun p => SessionParticipants.id p =? id) (participants st) with
    | None => (Thrown P2025, st)
    | Some p =>
      let p' := apply_ParticipantData data p in
      if fk_set (has_character st) (pd_characterId data)
      then (Next p',
            set_participants
              (replace SessionParticipants.id id (apply_ParticipantData data)
                 (participants st)) st)
      else (Thrown P2003, st)
    end.
Definition deleteMany (where_ : SessionParticipants.t -> bool) : M unit :=
  fun st =>
    (Next tt,
     set_participants (filter (fun p => negb (where_ p)) (participants st)) st).
Definition delete (id : Z) : M unit :=
  fun st =>
    if has_participant st id
    then deleteMany (fun p => SessionParticipants.id p =? id) st
    else (Thrown P2025, st).
End sessionParticipants.

Module diceRoll.
Definition create (rollExpression : string) (result userId sessionId : Z)
  (characterId : option Z) (metadata : Details.t) : M DiceRoll.t :=
  fun st =>
    let d := DiceRoll.mk (diceRoll_seq st) rollExpression result userId
               characterId sessionId (Some metadata) in
    let st1 := next_diceRoll_seq st in
    if has_user st userId && has_session st sessionId
       && fk_opt (has_character st) characterId
    then (Next d, set_diceRolls (diceRolls st ++ [d]) st1)
    else (Thrown P2003, st1).
Definition deleteMany (where_ : DiceRoll.t -> bool) : M unit :=
  fun st =>
    (Next tt,
     set_diceRolls (filter (fun d => negb (where_ d)) (diceRolls st)) st).
Definition findUnique (id : Z) : M (option DiceRoll.t) :=
  query (fun st => find (fun d => DiceRoll.id d =? id) (diceRolls st)).
End diceRoll.

End prisma.

(** ** Middleware *)

(** A request carries the user id its token decodes to, if it has a valid
    token at all. *)
Definition Token := option Z.

Module middleware.

(** [extractUserFromToken]: [req.user] is the row of the token's user, and
    stays undefined without a token or when the user is gone. *)
Definition extractUserFromToken (token : Token) (st : Store)
  : option User.t :=
  match token with
  | Some id => find (fun u => User.id u =? id) (users st)
  | None => None
  end.

(** [isAuthenticated] *)
Definition isAuthenticated (req_user : option User.t)
  (next : Store -> Response * Store) : Store -> Response * Store :=
  fun st =>
    match req_user with
    | None => (fail 401 "Accès non autorisé. Veuillez vous connecter.", st)
    | Some _ => next st
    end.

End middleware.

(** [req.user.id]; a [TypeError] when [req.user] is undefined. *)
Definition req_user_id (req_user : option User.t) : M Z :=
  match req_user with
  | Some u => ret (User.id u)
  | None => throw "Cannot read properties of undefined (reading 'id')"
  end.

(** The value of a field that a truthiness test has let through. *)
Definition str (f : field string) : string :=
  match f with Val s => s | _ => "" end.
Definition num (f : field Z) : Z :=
  match f with Val z => z | _ => 0 end.

(** [if (x) data.x = x] *)
Definition if_truthy {A} `{Truthy A} (f : field A) : option A :=
  match f with
  | Val a => if truthy a then Some a else None
  | _ => None
  end.

(** [if (x !== undefined) data.x = x] on a nullable column. *)
Definition if_defined {A} (f : field A) : option (option A) :=
  match f with
  | Undefined => None
  | Null => Some None
  | Val a => Some (Some a)
  end.

(** [if (x !== undefined) data.x = x] on a required column: Prisma refuses
    [null] there. *)
Definition if_defined_required {A} (f : field A) : M (option A) :=
  match f with
  | Undefined => ret None
  | Null => throw "Argument must not be null"
  | Val a => ret (Some a)
  end.

(** ** userController *)

Record UserBody : Type := mkUserBody {
  ub_username : field string;
  ub_email : field string;
  ub_password : field string
}.

Definition is_admin_row (uid : Z) (p : SessionParticipants.t) : bool :=
  (SessionParticipants.userId p =? uid)
  && (SessionParticipants.role p =? "admin")%string.

(** [_count: { select: { characters, sessionsAsGM, participations } }] *)
Definition count_rows {A} (p : A -> bool) (l : list A) : Z :=
  Z.of_nat (List.length (filter p l)).

Definition user_count (st : Store) (u : User.t) : UserCount :=
  mkUserCount (User.id u) (User.username u) (User.email u)
    (count_rows (fun c => Character.userId c =? User.id u) (characters st))
    (count_rows (fun s => Session.gmId s =? User.id u) (sessions st))
    (count_rows (fun p => SessionParticipants.userId p =? User.id u)
       (participants st)).

Module userController.

(** [POST /users/register] *)
Definition register (body : UserBody) : Store -> Response * Store :=
  try_catch (
    let username := ub_username body in
    let email := ub_email body in
    let password := ub_password body in
    reject_if (negb (truthy username) || negb (truthy email)
               || negb (truthy password))
      (fail 400
         "Tous les champs sont obligatoires (username, email, password)") ;;
    existingUser <- prisma.user.findFirst
      (fun u => (User.email u =? str email)%string
                || (User.username u =? str username)%string) ;;
    reject_if (truthy existingUser)
      (fail 400
         "Un utilisateur avec cet email ou ce nom d'utilisateur existe déjà") ;;
    let hashedPassword := Hashed (str password) in
    user <- prisma.user.create (str username) (str email) hashedPassword ;;
    ret (mkResponse 201 true "Utilisateur créé avec succès" (PUser user)))
  "Erreur lors de la création de l'utilisateur".

(** [POST /users/login] *)
Definition login (email password : field string)
  : Store -> Response * Store :=
  try_catch (
    reject_if (negb (truthy email) || negb (truthy password))
      (fail 400 "Email et mot de passe requis") ;;
    user <- prisma.user.findFirst
      (fun u => (User.email u =? str email)%string) ;;
    match user with
    | Some u =>
      match User.password u with
      | Hashed plain =>
        if (plain =? str password)%string
        then ret (mkResponse 200 true "Connexion réussie" (PUser u))
        else send (fail 401 "Email ou mot de passe incorrect")
      end
    | None => send (fail 401 "Email ou mot de passe incorrect")
    end)
  "Erreur lors de la connexion".

(** [GET /users/:id] *)
Definition getUserById (id : option Z) : Store -> Response * Store :=
  try_catch (
    match id with
    | None => send (fail 400 "ID d'utilisateur invalide")
    | Some userId =>
      user <- prisma.user.findUnique userId ;;
      match user with
      | None => send (fail 404 "Utilisateur non trouvé")
      | Some u => ret (mkResponse 200 true "" (PUser u))
      end
    end)
  "Erreur lors de la récupération de l'utilisateur".

(** [PUT /users/:id] *)
Definition updateUser (req_user : option User.t) (id : option Z)
  (body : UserBody) : Store -> Response * Store :=
  try_catch (
    match id with
    | None => send (fail 400 "ID d'utilisateur invalide")
    | Some userId =>
      existingUser <- prisma.user.findUnique userId ;;
      reject_if (negb (truthy existingUser))
        (fail 404 "Utilisateur non trouvé") ;;
      me <- req_user_id req_user ;;
      (if negb (me =? userId)
       then
         isSystemAdmin <- prisma.sessionParticipants.findFirst
           (is_admin_row me) ;;
         reject_if (negb (truthy isSystemAdmin))
           (fail 403 "Vous n'êtes pas autorisé à modifier cet utilisateur")
       else ret tt) ;;
      let updateData :=
        mkUserData (if_truthy (ub_username body)) (if_truthy (ub_email body))
          (option_map Hashed (if_truthy (ub_password body))) in
      updatedUser <- prisma.user.update userId updateData ;;
      ret (mkResponse 200 true "Utilisateur mis à jour avec succès"
             (PUser updatedUser))
    end)
  "Erreur lors de la mise à jour de l'utilisateur".

(** [DELETE /users/:id]; the five deletes are five statements, outside
    any transaction. *)
Definition deleteUser (req_user : option User.t) (id : option Z)
  : Store -> Response * Store :=
  try_catch (
    match id with
    | None => send (fail 400 "ID d'utilisateur invalide")
    | Some userId =>
      existingUser <- prisma.user.findUnique userId ;;
      reject_if (negb (truthy existingUser))
        (fail 404 "Utilisateur non trouvé") ;;
      me <- req_user_id req_user ;;
      (if negb (me =? userId)
       then
         isSystemAdmin <- prisma.sessionParticipants.findFirst
           (is_admin_row me) ;;
         reject_if (negb (truthy isSystemAdmin))
           (fail 403 "Vous n'êtes pas autorisé à supprimer cet utilisateur")
       else ret tt) ;;
      prisma.sessionParticipants.deleteMany
        (fun p => SessionParticipants.userId p =? userId) ;;
      prisma.diceRoll.deleteMany (fun d => DiceRoll.userId d =? userId) ;;
      prisma.character.deleteMany (fun c => Character.userId c =? userId) ;;
      prisma.session.deleteMany (fun s => Session.gmId s =? userId) ;;
      prisma.user.delete userId ;;
      ret (mkResponse 200 true "Utilisateur supprimé avec succès" NoPayload)
    end)
  "Erreur lors de la suppression de l'utilisateur".

(** [GET /users]; no order is asked for, the rows come as the table has
    them. *)
Definition getAllUsers (req_user : option User.t)
  : Store -> Reply (Listing UserCount) * Store :=
  try_catch_read (
    me <- req_user_id req_user ;;
    isSystemAdmin <- prisma.sessionParticipants.findFirst (is_admin_row me) ;;
    reject_if (negb (truthy isSystemAdmin))
      (fail 403 "Vous n'êtes pas autorisé à accéder à cette ressource") ;;
    users <- prisma.user.findMany ;;
    counted <- query (fun st => map (user_count st) users) ;;
    ret (listing counted))
  "Erreur lors de la récupération des utilisateurs".

End userController.

(** ** characterController *)

Record CharacterBody : Type := mkCharacterBody {
  cb_name : field string;
  cb_race : field string;
  cb_class : field string;
  cb_level : field Z;
  cb_background : field string;
  cb_inventory : field Json;
  cb_stats : field Json;
  cb_isAlive : field bool;
  cb_sessionId : field Z
}.

(** The rows [include: { participants: true }] attaches to a session. *)
Definition participants_of (st : Store) (sessionId : Z)
  : list SessionParticipants.t :=
  filter (fun p => SessionParticipants.sessionId p =? sessionId)
    (participants st).

(** [include: { session: true }] on a character. *)
Definition session_of (st : Store) (c : Character.t) : option Session.t :=
  match Character.sessionId c with
  | Some sid => find (fun s => Session.id s =? sid) (sessions st)
  | None => None
  end.

(** [where: { sessionId, userId, role: 'admin' }] *)
Definition admin_in (sessionId userId : Z) (p : SessionParticipants.t)
  : bool :=
  (SessionParticipants.sessionId p =? sessionId)
  && (SessionParticipants.userId p =? userId)
  && (SessionParticipants.role p =? "admin")%string.

(** [where: { sessionId, userId }] *)
Definition member_of (sessionId userId : Z) (p : SessionParticipants.t)
  : bool :=
  (SessionParticipants.sessionId p =? sessionId)
  && (SessionParticipants.userId p =? userId).

(** [where: { id, userId }] on characters. *)
Definition owned_character (id userId : Z) (c : Character.t) : bool :=
  (Character.id c =? id) && (Character.userId c =? userId).

(** [include: { user: { select: .. }, session: true, diceRolls: true,
    sessionParticipants: true }] on a character. *)
Definition character_view (st : Store) (c : Character.t) : CharacterView :=
  mkCharacterView c
    (option_map select_contact
       (find (fun u => User.id u =? Character.userId c) (users st)))
    (session_of st c)
    (filter (fun d => eq_opt (DiceRoll.characterId d) (Character.id c))
       (diceRolls st))
    (filter (fun p => eq_opt (SessionParticipants.characterId p)
                        (Character.id c)) (participants st)).

(** [include: { session: { select: { id, title, status } } }] *)
Definition character_in_session (st : Store) (c : Character.t)
  : CharacterInSession :=
  mkCharacterInSession c (option_map select_status (session_of st c)).

(** [include: { user: { select: { id, username } } }] *)
Definition character_of_user (st : Store) (c : Character.t)
  : CharacterOfUser :=
  mkCharacterOfUser c
    (option_map select_name
       (find (fun u => User.id u =? Character.userId c) (users st))).

Module characterController.

(** [POST /characters] *)
Definition createCharacter (req_user : option User.t) (body : CharacterBody)
  : Store -> Response * Store :=
  try_catch (
    userId <- req_user_id req_user ;;
    reject_if (negb (truthy (cb_name body)) || negb (truthy (cb_race body))
               || negb (truthy (cb_class body))
               || negb (truthy (cb_level body)))
      (fail 400 "Les champs name, race, class et level sont obligatoires") ;;
    character <- prisma.character.create (str (cb_name body))
      (str (cb_race body)) (str (cb_class body)) (num (cb_level body))
      (nullable (cb_background body)) (nullable (cb_inventory body))
      (nullable (cb_stats body)) userId ;;
    ret (mkResponse 201 true "Personnage créé avec succès"
           (PCharacter character)))
  "Erreur lors de la création du personnage".

(** [GET /characters/:id] *)
Definition getCharacterById (req_user : option User.t) (id : option Z)
  : Store -> Reply CharacterView * Store :=
  try_catch_read (
    match id with
    | None => send (fail 400 "ID de personnage invalide")
    | Some characterId =>
      found <- prisma.character.findUnique characterId ;;
      match found with
      | None => send (fail 404 "Personnage non trouvé")
      | Some character =>
        view <- query (fun st => character_view st character) ;;
        me <- req_user_id req_user ;;
        let isOwner := Character.userId character =? me in
        let isGM :=
          match cv_session view with
          | Some s => Session.gmId s =? me
          | None => false
          end in
        isAdmin <-
          match cv_session view with
          | Some s =>
            participantData <- prisma.sessionParticipants.findFirst
              (admin_in (Session.id s) me) ;;
            ret (truthy participantData)
          | None => ret false
          end ;;
        reject_if (negb isOwner && negb isGM && negb isAdmin)
          (fail 403 "Vous n'êtes pas autorisé à accéder à ce personnage") ;;
        ret view
      end
    end)
  "Erreur lors de la récupération du personnage".

(** [GET /characters?userId=..]; [userId] is [None] without the query
    parameter (or with an empty one), and otherwise what [parseInt] makes of
    it.  No order is asked for. *)
Definition getCharacters (req_user : option User.t)
  (userId : option (option Z))
  : Store -> Reply (list CharacterInSession) * Store :=
  try_catch_read (
    userIdParam <-
      match userId with
      | None => ret None
      | Some None => send (fail 400 "ID d'utilisateur invalide")
      | Some (Some n) => ret (Some n)
      end ;;
    let wanted :=
      match userIdParam with
      | Some n => if truthy n then Some n else None
      | None => None
      end in
    match wanted with
    | Some n =>
      me <- req_user_id req_user ;;
      if negb (n =? me)
      then
        adminStatus <- prisma.sessionParticipants.findFirst
          (is_admin_row me) ;;
        reject_if (negb (truthy adminStatus))
          (fail 403
             "Vous n'êtes pas autorisé à voir les personnages de cet utilisateur")
      else ret tt
    | None => ret tt
    end ;;
    targetUserId <-
      match wanted with
      | Some n => ret n
      | None => req_user_id req_user
      end ;;
    characters <- prisma.character.findMany
      (fun c => Character.userId c =? targetUserId) ;;
    included <- query (fun st => map (character_in_session st) characters) ;;
    ret included)
  "Erreur lors de la récupération des personnages".

(** [PUT /characters/:id] *)
Definition updateCharacter (req_user : option User.t) (id : option Z)
  (body : CharacterBody) : Store -> Response * Store :=
  try_catch (
    match id with
    | None => send (fail 400 "ID de personnage invalide")
    | Some characterId =>
      found <- prisma.character.findUnique characterId ;;
      match found with
      | None => send (fail 404 "Personnage non trouvé")
      | Some character =>
        session <- query (fun st => session_of st character) ;;
        me <- req_user_id req_user ;;
        let isOwner := Character.userId character =? me in
        let isGM :=
          match session with
          | Some s => Session.gmId s =? me
          | None => false
          end in
        isAdmin <-
          match session with
          | Some s =>
            participantData <- prisma.sessionParticipants.findFirst
              (admin_in (Session.id s) me) ;;
            ret (truthy participantData)
          | None => ret false
          end ;;
        reject_if (negb isOwner && negb isGM && negb isAdmin)
          (fail 403 "Vous n'êtes pas autorisé à modifier ce personnage") ;;
        reject_if (negb isOwner && negb isAdmin
                   && (truthy (cb_name body) || truthy (cb_race body)
                       || truthy (cb_class body)))
          (fail 403
             "Seul le propriétaire ou un administrateur peut modifier ces attributs du personnage") ;;
        level <- if_defined_required (cb_level body) ;;
        isAlive <- if_defined_required (cb_isAlive body) ;;
        let updateData :=
          mkCharacterData (if_truthy (cb_name body)) (if_truthy (cb_race body))
            (if_truthy (cb_class body)) level
            (if_defined (cb_background body))
            (if_defined (cb_inventory body)) (if_defined (cb_stats body))
            isAlive
            (if defined (cb_sessionId body)
             then Some (if_truthy (cb_sessionId body))
             else None) in
        updatedCharacter <- prisma.character.update characterId updateData ;;
        ret (mkResponse 200 true "Personnage mis à jour avec succès"
               (PCharacter updatedCharacter))
      end
    end)
  "Erreur lors de la mise à jour du personnage".

(** [DELETE /characters/:id] *)
Definition deleteCharacter (req_user : option User.t) (id : option Z)
  : Store -> Response * Store :=
  try_catch (
    match id with
    | None => send (fail 400 "ID de personnage invalide")
    | Some characterId =>
      found <- prisma.character.findUnique characterId ;;
      match found with
      | None => send (fail 404 "Personnage non trouvé")
      | Some character =>
        me <- req_user_id req_user ;;
        let isOwner := Character.userId character =? me in
        adminStatus <- prisma.sessionParticipants.findFirst
          (is_admin_row me) ;;
        let isAdmin := truthy adminStatus in
        reject_if (negb isOwner && negb isAdmin)
          (fail 403 "Vous n'êtes pas autorisé à supprimer ce personnage") ;;
        prisma.sessionParticipants.deleteMany
          (fun p => eq_opt (SessionParticipants.characterId p) characterId) ;;
        prisma.diceRoll.deleteMany
          (fun d => eq_opt (DiceRoll.characterId d) characterId) ;;
        prisma.character.delete characterId ;;
        ret (mkResponse 200 true "Personnage supprimé avec succès" NoPayload)
      end
    end)
  "Erreur lors de la suppression du personnage".

(** [GET /characters/session/:sessionId]; no order is asked for. *)
Definition getCharactersBySession (req_user : option User.t)
  (sessionId : option Z)
  : Store -> Reply (Listing CharacterOfUser) * Store :=
  try_catch_read (
    userId <- req_user_id req_user ;;
    match sessionId with
    | None => send (fail 400 "ID de session invalide")
    | Some sessionIdNum =>
      session <- prisma.session.findUnique sessionIdNum ;;
      match session with
      | None => send (fail 404 "Session non trouvée")
      | Some s =>
        ps <- query (fun st => participants_of st sessionIdNum) ;;
        let isGM := Session.gmId s =? userId in
        let participant :=
          find (fun p => SessionParticipants.userId p =? userId) ps in
        let isParticipant := truthy participant in
        let isAdmin :=
          match participant with
          | Some p => (SessionParticipants.role p =? "admin")%string
          | None => false
          end in
        reject_if (negb isGM && negb isParticipant && negb isAdmin)
          (fail 403
             "Vous n'êtes pas autorisé à voir les personnages de cette session") ;;
        characters <- prisma.character.findMany
          (fun c => eq_opt (Character.sessionId c) sessionIdNum) ;;
        included <- query (fun st => map (character_of_user st) characters) ;;
        ret (listing included)
      end
    end)
  "Erreur lors de la récupération des personnages".

(** [PUT /characters/:id/assign-session] *)
Definition associateWithSession (req_user : option User.t) (id : option Z)
  (sessionId : field Z) : Store -> Response * Store :=
  try_catch (
    userId <- req_user_id req_user ;;
    match id with
    | None => send (fail 400 "ID de personnage invalide")
    | Some characterId =>
      reject_if (negb (defined sessionId))
        (fail 400
           "Le paramètre sessionId est requis dans le corps de la requête") ;;
      let sessionIdNum := if_truthy sessionId in
      character <- prisma.character.findFirst
        (owned_character characterId userId) ;;
      reject_if (negb (truthy character))
        (fail 404 "Personnage non trouvé ou n'appartient pas à l'utilisateur") ;;
      match sessionIdNum with
      | Some sid =>
        session <- prisma.session.findUnique sid ;;
        match session with
        | None => send (fail 404 "Session non trouvée")
        | Some s =>
          ps <- query (fun st => participants_of st sid) ;;
          let isParticipant :=
            existsb (fun p => SessionParticipants.userId p =? userId) ps in
          reject_if (negb isParticipant && negb (Session.gmId s =? userId))
            (fail 403
               "Vous devez être participant ou GM de cette session pour y associer un personnage")
        end
      | None => ret tt
      end ;;
      updatedCharacter <- prisma.character.update characterId
        (mkCharacterData None None None None None None None None
           (Some sessionIdNum)) ;;
      match sessionIdNum with
      | Some sid =>
        existingParticipant <- prisma.sessionParticipants.findFirst
          (member_of sid userId) ;;
        match existingParticipant with
        | Some p =>
          prisma.sessionParticipants.update (SessionParticipants.id p)
            (mkParticipantData None (Some (Some characterId))) ;;
          ret tt
        | None =>
          prisma.sessionParticipants.create sid userId (Some characterId)
            "joueur" ;;
          ret tt
        end
      | None => ret tt
      end ;;
      ret (mkResponse 200 true
             (if truthy sessionIdNum
              then "Personnage associé à la session avec succès"
              else "Personnage dissocié de la session avec succès")
             (PCharacter updatedCharacter))
    end)
  "Erreur lors de l'opération".

End characterController.

(** ** sessionController *)

Record SessionBody : Type := mkSessionBody {
  sb_title : field string;
  sb_description : field string;
  sb_scheduledAt : field Z;
  sb_status : field string
}.

Record ParticipantBody : Type := mkParticipantBody {
  pb_sessionId : field Z;
  pb_userId : field Z;
  pb_characterId : field Z;
  pb_role : field string
}.

(** [participants.find(p => p.userId === userId)?.role === 'admin'] *)
Definition first_row_is_admin (ps : list SessionParticipants.t) (userId : Z)
  : bool :=
  match find (fun p => SessionParticipants.userId p =? userId) ps with
  | Some p => (SessionParticipants.role p =? "admin")%string
  | None => false
  end.

Module sessionController.

(** [POST /sessions] *)
Definition createSession (req_user : option User.t) (body : SessionBody)
  : Store -> Response * Store :=
  try_catch (
    userId <- req_user_id req_user ;;
    reject_if (negb (truthy (sb_title body)))
      (fail 400 "Le titre de la session est obligatoire") ;;
    session <- prisma.session.create (str (sb_title body))
      (nullable (sb_description body)) (if_truthy (sb_scheduledAt body))
      (or_default (sb_status body) "planifiée") userId ;;
    prisma.sessionParticipants.create (Session.id session) userId None "mj" ;;
    ret (mkResponse 201 true "Session créée avec succès" (PSession session)))
  "Erreur lors de la création de la session".

(** The twenty most recent rolls of a session; rows are stamped [now()]
    when inserted, so the most recent come last in the table. *)
Definition recent_diceRolls (st : Store) (sessionId : Z) : list DiceRoll.t :=
  firstn 20
    (rev (filter (fun d => DiceRoll.sessionId d =? sessionId) (diceRolls st))).

(** [GET /sessions/:id]; the permission check of the handler is commented
    out in the source. *)
Definition getSessionById (req_user : option User.t) (id : option Z)
  : Store -> Response * Store :=
  try_catch (
    let userId := option_map User.id req_user in
    match id with
    | None => send (fail 400 "ID de session invalide")
    | Some sessionId =>
      session <- prisma.session.findUnique sessionId ;;
      match session with
      | None => send (fail 404 "Session non trouvée")
      | Some s =>
        view <- query (fun st =>
          mkSessionView s
            (find (fun u => User.id u =? Session.gmId s) (users st))
            (participants_of st sessionId)
            (filter (fun c => eq_opt (Character.sessionId c) sessionId)
               (characters st))
            (recent_diceRolls st sessionId)) ;;
        ret (mkResponse 200 true "" (PSessionView view))
      end
    end)
  "Erreur lors de la récupération de la session".

(** [PUT /sessions/:id] *)
Definition updateSession (req_user : option User.t) (id : option Z)
  (body : SessionBody) : Store -> Response * Store :=
  try_catch (
    userId <- req_user_id req_user ;;
    match id with
    | None => send (fail 400 "ID de session invalide")
    | Some sessionId =>
      session <- prisma.session.findUnique sessionId ;;
      match session with
      | None => send (fail 404 "Session non trouvée")
      | Some s =>
        ps <- query (fun st => participants_of st sessionId) ;;
        let isGM := Session.gmId s =? userId in
        let isAdmin := first_row_is_admin ps userId in
        reject_if (negb isGM && negb isAdmin)
          (fail 403 "Vous n'êtes pas autorisé à modifier cette session") ;;
        let updateData :=
          mkSessionData (if_truthy (sb_title body))
            (if_defined (sb_description body))
            (if defined (sb_scheduledAt body)
             then Some (if_truthy (sb_scheduledAt body))
             else None)
            (if_truthy (sb_status body)) in
        updatedSession <- prisma.session.update sessionId updateData ;;
        ret (mkResponse 200 true "Session mise à jour avec succès"
               (PSession updatedSession))
      end
    end)
  "Erreur lors de la mise à jour de la session".

(** [POST /sessions/:id/participants] *)
Definition addParticipant (req_user : option User.t) (id : option Z)
  (body : ParticipantBody) : Store -> Response * Store :=
  try_catch (
    let userId := pb_userId body in
    let characterId := pb_characterId body in
    let role := pb_role body in
    currentUserId <- req_user_id req_user ;;
    match id with
    | None => send (fail 400 "ID de session invalide")
    | Some sessionId =>
      reject_if (negb (truthy userId) || negb (truthy role))
        (fail 400 "userId et role sont obligatoires") ;;
      session <- prisma.session.findUnique sessionId ;;
      match session with
      | None => send (fail 404 "Session non trouvée")
      | Some s =>
        ps <- query (fun st => participants_of st sessionId) ;;
        let isGM := Session.gmId s =? currentUserId in
        let isSelf := num userId =? currentUserId in
        let isAdmin := first_row_is_admin ps currentUserId in
        reject_if (negb isSelf && negb isGM && negb isAdmin)
          (fail 403 "Vous n'êtes pas autorisé à ajouter ce participant") ;;
        userExists <- prisma.user.findUnique (num userId) ;;
        reject_if (negb (truthy userExists))
          (fail 404 "Utilisateur non trouvé") ;;
        (if truthy characterId
         then
           characterExists <- prisma.character.findFirst
             (owned_character (num characterId) (num userId)) ;;
           reject_if (negb (truthy characterExists))
             (fail 404
                "Personnage non trouvé ou n'appartient pas à l'utilisateur spécifié")
         else ret tt) ;;
        existingParticipant <- prisma.sessionParticipants.findFirst
          (member_of sessionId (num userId)) ;;
        reject_if (truthy existingParticipant)
          (fail 400 "L'utilisateur est déjà participant à cette session") ;;
        participant <- prisma.sessionParticipants.create sessionId
          (num userId) (nullable characterId)
          (if isSelf && negb isGM then "joueur" else str role) ;;
        ret (mkResponse 201 true "Participant ajouté avec succès"
               (PParticipant participant))
      end
    end)
  "Erreur lors de l'ajout du participant".

(** [DELETE /sessions/:id] *)
Definition deleteSession (req_user : option User.t) (id : option Z)
  : Store -> Response * Store :=
  try_catch (
    userId <- req_user_id req_user ;;
    match id with
    | None => send (fail 400 "ID de session invalide")
    | Some sessionId =>
      session <- prisma.session.findUnique sessionId ;;
      match session with
      | None => send (fail 404 "Session non trouvée")
      | Some s =>
        ps <- query (fun st => participants_of st sessionId) ;;
        let isGM := Session.gmId s =? userId in
        let isAdmin := first_row_is_admin ps userId in
        reject_if (negb isGM && negb isAdmin)
          (fail 403 "Vous n'êtes pas autorisé à supprimer cette session") ;;
        prisma.sessionParticipants.deleteMany
          (fun p => SessionParticipants.sessionId p =? sessionId) ;;
        prisma.diceRoll.deleteMany
          (fun d => DiceRoll.sessionId d =? sessionId) ;;
        prisma.character.updateMany_detach
          (fun c => eq_opt (Character.sessionId c) sessionId) ;;
        prisma.session.delete sessionId ;;
        ret (mkResponse 200 true "Session supprimée avec succès" NoPayload)
      end
    end)
  "Erreur lors de la suppression de la session".

(** [DELETE /sessions/:id/participants/:participantId] *)
Definition removeParticipant (req_user : option User.t)
  (id participantId : option Z) : Store -> Response * Store :=
  try_catch (
    userId <- req_user_id req_user ;;
    match id, participantId with
    | Some sessionId, Some participantIdNum =>
      session <- prisma.session.findUnique sessionId ;;
      match session with
      | None => send (fail 404 "Session non trouvée")
      | Some s =>
        ps <- query (fun st => participants_of st sessionId) ;;
        found <- prisma.sessionParticipants.findUnique participantIdNum ;;
        match found with
        | None => send (fail 404 "Participant non trouvé dans cette session")
        | Some participant =>
          reject_if
            (negb (SessionParticipants.sessionId participant =? sessionId))
            (fail 404 "Participant non trouvé dans cette session") ;;
          let isGM := Session.gmId s =? userId in
          let isAdmin := first_row_is_admin ps userId in
          let isSelf := SessionParticipants.userId participant =? userId in
          reject_if (negb isGM && negb isAdmin && negb isSelf)
            (fail 403 "Vous n'êtes pas autorisé à retirer ce participant") ;;
          prisma.sessionParticipants.delete participantIdNum ;;
          ret (mkResponse 200 true "Participant retiré avec succès" NoPayload)
        end
      end
    | _, _ => send (fail 400 "IDs invalides")
    end)
  "Erreur lors du retrait du participant".

End sessionController.

(** ** sessionParticipantsController *)

(** [include: { user: { select: .. }, character: { select: .. } }] on a
    participant. *)
Definition participant_view (st : Store) (p : SessionParticipants.t)
  : ParticipantView :=
  mkParticipantView p
    (option_map select_contact
       (find (fun u => User.id u =? SessionParticipants.userId p) (users st)))
    (match SessionParticipants.characterId p with
     | Some cid =>
       option_map select_sheet
         (find (fun c => Character.id c =? cid) (characters st))
     | None => None
     end).

(** [orderBy: { id: 'asc' }] *)
Fixpoint insert_by_id (p : SessionParticipants.t)
  (l : list SessionParticipants.t) : list SessionParticipants.t :=
  match l with
  | [] => [p]
  | q :: l' =>
    if SessionParticipants.id p <=? SessionParticipants.id q
    then p :: l
    else q :: insert_by_id p l'
  end.

Definition order_by_id (l : list SessionParticipants.t)
  : list SessionParticipants.t :=
  fold_right insert_by_id [] l.

(** Two rows in the order of their keys. *)
Definition by_id (p q : SessionParticipants.t) : Prop :=
  SessionParticipants.id p <= SessionParticipants.id q.

Module sessionParticipantsController.

(** [POST /session-participants] *)
Definition addParticipant (req_user : option User.t) (body : ParticipantBody)
  : Store -> Response * Store :=
  try_catch (
    let sessionId := pb_sessionId body in
    let userId := pb_userId body in
    let characterId := pb_characterId body in
    let role := pb_role body in
    reject_if (negb (truthy sessionId) || negb (truthy userId)
               || negb (truthy role))
      (fail 400 "Les champs sessionId, userId et role sont obligatoires") ;;
    session <- prisma.session.findUnique (num sessionId) ;;
    match session with
    | None => send (fail 404 "Session non trouvée")
    | Some s =>
      me <- req_user_id req_user ;;
      let isGM := Session.gmId s =? me in
      let isSelf := num userId =? me in
      participantData <- prisma.sessionParticipants.findFirst
        (admin_in (num sessionId) me) ;;
      let isAdmin := truthy participantData in
      reject_if (negb isGM && negb isSelf && negb isAdmin)
        (fail 403 "Vous n'êtes pas autorisé à ajouter ce participant") ;;
      userExists <- prisma.user.findUnique (num userId) ;;
      reject_if (negb (truthy userExists))
        (fail 404 "Utilisateur non trouvé") ;;
      (if truthy characterId
       then
         characterExists <- prisma.character.findFirst
           (owned_character (num characterId) (num userId)) ;;
         reject_if (negb (truthy characterExists))
           (fail 404
              "Personnage non trouvé ou n'appartient pas à l'utilisateur spécifié")
       else ret tt) ;;
      existingParticipant <- prisma.sessionParticipants.findFirst
        (member_of (num sessionId) (num userId)) ;;
      reject_if (truthy existingParticipant)
        (fail 400 "L'utilisateur est déjà participant à cette session") ;;
      participant <- prisma.sessionParticipants.create (num sessionId)
        (num userId) (nullable characterId) (str role) ;;
      ret (mkResponse 201 true "Participant ajouté avec succès"
             (PParticipant participant))
    end)
  "Erreur lors de l'ajout du participant".

(** [GET /session-participants?sessionId=..]; [sessionId] is [None]
    without the query parameter (or with an empty one), and otherwise what
    [parseInt] makes of it. *)
Definition getParticipants (req_user : option User.t)
  (sessionId : option (option Z))
  : Store -> Reply (Listing ParticipantView) * Store :=
  try_catch_read (
    match sessionId with
    | None => send (fail 400 "Le paramètre sessionId est requis")
    | Some None => send (fail 400 "ID de session invalide")
    | Some (Some sessionIdNum) =>
      session <- prisma.session.findUnique sessionIdNum ;;
      match session with
      | None => send (fail 404 "Session non trouvée")
      | Some s =>
        ps <- query (fun st => participants_of st sessionIdNum) ;;
        me <- req_user_id req_user ;;
        let isGM := Session.gmId s =? me in
        let participantData :=
          find (fun p => SessionParticipants.userId p =? me) ps in
        let isParticipant := truthy participantData in
        let isAdmin :=
          match participantData with
          | Some p => (SessionParticipants.role p =? "admin")%string
          | None => false
          end in
        reject_if (negb isGM && negb isParticipant && negb isAdmin)
          (fail 403
             "Vous n'êtes pas autorisé à voir les participants de cette session") ;;
        participants <- prisma.sessionParticipants.findMany
          (fun p => SessionParticipants.sessionId p =? sessionIdNum) ;;
        included <- query (fun st =>
          map (participant_view st) (order_by_id participants)) ;;
        ret (listing included)
      end
    end)
  "Erreur lors de la récupération des participants".

(** [include: { session: { include: { participants: true } } }]; the
    relation is required, so reading [participant.session.gmId] throws if
    the session row is missing. *)
Definition session_with_participants (p : SessionParticipants.t)
  : M (Session.t * list SessionParticipants.t) :=
  session <- prisma.session.findUnique (SessionParticipants.sessionId p) ;;
  match session with
  | None => throw "Cannot read properties of null (reading 'gmId')"
  | Some s =>
    ps <- query (fun st =>
                   participants_of st (SessionParticipants.sessionId p)) ;;
    ret (s, ps)
  end.

(** [DELETE /session-participants/:id] *)
Definition removeParticipant (req_user : option User.t) (id : option Z)
  : Store -> Response * Store :=
  try_catch (
    match id with
    | None => send (fail 400 "ID de participant invalide")
    | Some participantId =>
      found <- prisma.sessionParticipants.findUnique participantId ;;
      match found with
      | None => send (fail 404 "Participant non trouvé")
      | Some participant =>
        sp <- session_with_participants participant ;;
        me <- req_user_id req_user ;;
        let isGM := Session.gmId (fst sp) =? me in
        let isSelf := SessionParticipants.userId participant =? me in
        let isAdmin := first_row_is_admin (snd sp) me in
        reject_if (negb isGM && negb isSelf && negb isAdmin)
          (fail 403 "Vous n'êtes pas autorisé à retirer ce participant") ;;
        prisma.sessionParticipants.delete participantId ;;
        ret (mkResponse 200 true "Participant retiré avec succès" NoPayload)
      end
    end)
  "Erreur lors du retrait du participant".

(** [PUT /session-participants/:id] *)
Definition updateParticipant (req_user : option User.t) (id : option Z)
  (role : field string) (characterId : field Z)
  : Store -> Response * Store :=
  try_catch (
    match id with
    | None => send (fail 400 "ID de participant invalide")
    | Some participantId =>
      reject_if (negb (defined role) && negb (defined characterId))
        (fail 400
           "Au moins un champ à mettre à jour doit être fourni (role ou characterId)") ;;
      found <- prisma.sessionParticipants.findUnique participantId ;;
      match found with
      | None => send (fail 404 "Participant non trouvé")
      | Some participant =>
        sp <- session_with_participants participant ;;
        me <- req_user_id req_user ;;
        let isGM := Session.gmId (fst sp) =? me in
        let isSelf := SessionParticipants.userId participant =? me in
        let isAdmin := first_row_is_admin (snd sp) me in
        reject_if (negb isGM && negb isSelf && negb isAdmin)
          (fail 403 "Vous n'êtes pas autorisé à modifier ce participant") ;;
        match characterId with
        | Val cid =>
          characterExists <- prisma.character.findFirst
            (owned_character cid (SessionParticipants.userId participant)) ;;
          reject_if (negb (truthy characterExists))
            (fail 404
               "Personnage non trouvé ou n'appartient pas à l'utilisateur spécifié")
        | _ => ret tt
        end ;;
        newRole <- if_defined_required role ;;
        let updateData := mkParticipantData newRole (if_defined characterId) in
        updatedParticipant <- prisma.sessionParticipants.update participantId
          updateData ;;
        ret (mkResponse 200 true "Participant mis à jour avec succès"
               (PParticipant updatedParticipant))
      end
    end)
  "Erreur lors de la mise à jour du participant".

End sessionParticipantsController.

(** ** diceRollController *)

Definition is_digit (c : ascii) : bool :=
  ((48 <=? nat_of_ascii c) && (nat_of_ascii c <=? 57))%nat.

(** The longest prefix of digits, and what follows it. *)
Fixpoint span_digits (s : string) : string * string :=
  match s with
  | String c s' =>
    if is_digit c
    then let (d, r) := span_digits s' in (String c d, r)
    else (EmptyString, s)
  | EmptyString => (EmptyString, EmptyString)
  end.

(** [\d+]: greedy, at least one digit. *)
Definition digits1 (s : string) : option (string * string) :=
  match span_digits s with
  | (EmptyString, _) => None
  | (d, r) => Some (d, r)
  end.

Definition is_d (c : ascii) : bool := (nat_of_ascii c =? 100)%nat.

Definition is_sign (c : ascii) : bool :=
  (nat_of_ascii c =? 43)%nat || (nat_of_ascii c =? 45)%nat.

(** [([+-]\d+)?]: the group if it matches here, nothing otherwise. *)
Definition opt_modifier (s : string) : option string * string :=
  match s with
  | String c s' =>
    if is_sign c
    then match digits1 s' with
         | Some (d, r) => (Some (String c d), r)
         | None => (None, s)
         end
    else (None, s)
  | EmptyString => (None, s)
  end.

(** The capture groups of a match. *)
Record Groups : Type := mkGroups {
  g1 : string;
  g2 : string;
  g3 : option string
}.

(** [(\d+)d(\d+)([+-]\d+)?] matched at the start of [s]: the groups and
    the unread rest.  Every quantifier is greedy and is followed by a
    character outside its class, so the first attempt is the only one. *)
Definition match_here (s : string) : option (Groups * string) :=
  match digits1 s with
  | Some (n, String c r) =>
    if is_d c
    then match digits1 r with
         | Some (m, r') =>
           let (k, rest) := opt_modifier r' in Some (mkGroups n m k, rest)
         | None => None
         end
    else None
  | _ => None
  end.

(** [/^\d+d\d+([+-]\d+)?$/.test(s)] *)
Definition test_format (s : string) : bool :=
  match match_here s with
  | Some (_, EmptyString) => true
  | _ => false
  end.

(** [s.match(/(\d+)d(\d+)([+-]\d+)?/)]: the leftmost match. *)
Fixpoint match_anywhere (s : string) : option Groups :=
  match match_here s with
  | Some (g, _) => Some g
  | None =>
    match s with
    | String _ s' => match_anywhere s'
    | EmptyString => None
    end
  end.

Definition digit_value (c : ascii) : Z := Z.of_nat (nat_of_ascii c) - 48.

Fixpoint parse_digits (acc : Z) (s : string) : Z :=
  match s with
  | String c s' => parse_digits (10 * acc + digit_value c) s'
  | EmptyString => acc
  end.

(** [parseInt] on a run of digits with an optional sign in front: the
    integer itself, which is the double the code has as long as it is
    below [2^53]. *)
Definition parseInt (s : string) : Z :=
  match s with
  | String c s' =>
    if (nat_of_ascii c =? 45)%nat then - parse_digits 0 s'
    else if (nat_of_ascii c =? 43)%nat then parse_digits 0 s'
    else parse_digits 0 s
  | EmptyString => 0
  end.

(** A number inside a template literal. *)
Definition show (z : Z) : string := NilZero.string_of_int (Z.to_int z).

(** The integer nearest to [q], the even one of two. *)
Definition round_half_even (q : Q) : Z :=
  let f := Qfloor q in
  match Qcompare (q - inject_Z f) (1 # 2) with
  | Lt => f
  | Gt => f + 1
  | Eq => if Z.even f then f else f + 1
  end.

(** A product of two numbers is a double: the binary64 value nearest to
    the exact product [x >= 0], ties to even.  Counted in units of
    [2^-1074], the least positive double, a double is an integer of at
    most 53 bits times a power of two.  (No product here comes near the
    largest double.) *)
Definition double (x : Q) : Q :=
  let y := (x * inject_Z (2 ^ 1074))%Q in
  let s := Z.max 0 (Z.log2 (Qfloor y) + 1 - 53) in
  (inject_Z (round_half_even (y / inject_Z (2 ^ s)) * 2 ^ s)
   / inject_Z (2 ^ 1074))%Q.

(** The [for] loop of [calculateDiceRoll]; [rnd i] is what the [i]-th call
    of [Math.random()] returns. *)
Fixpoint roll_loop (rnd : nat -> Q) (diceSides : Z) (todo i : nat)
  (rolls : list Z) (sum : Z) : list Z * Z :=
  match todo with
  | O => (rolls, sum)
  | S todo' =>
    let roll := Qfloor (double (rnd i * inject_Z diceSides)) + 1 in
    roll_loop rnd diceSides todo' (S i) (rolls ++ [roll]) (sum + roll)
  end.

Definition calculateDiceRoll (rnd : nat -> Q) (expression : string)
  : M (Z * Details.t) :=
  match match_anywhere expression with
  | None => throw ("Expression de dés invalide: " ++ expression)
  | Some g =>
    let numberOfDice := parseInt (g1 g) in
    let diceSides := parseInt (g2 g) in
    let modifier := match g3 g with Some k => parseInt k | None => 0 end in
    if (numberOfDice <=? 0) || (diceSides <=? 0)
    then throw ("Paramètres de dés invalides: " ++ show numberOfDice ++ "d"
                ++ show diceSides)
    else
      let (rolls, sum) :=
        roll_loop rnd diceSides (Z.to_nat numberOfDice) 0 [] 0 in
      let total := sum + modifier in
      ret (total, Details.mk expression rolls modifier total)
  end.

Record RollBody : Type := mkRollBody {
  rb_expression : field string;
  rb_sessionId : field Z;
  rb_characterId : field Z
}.

(** [include: { user: { select: .. }, character: { select: .. }, session:
    { select: .. } }] on a roll. *)
Definition diceRoll_view (st : Store) (d : DiceRoll.t) : DiceRollView :=
  mkDiceRollView d
    (option_map select_name
       (find (fun u => User.id u =? DiceRoll.userId d) (users st)))
    (match DiceRoll.characterId d with
     | Some cid =>
       option_map select_level
         (find (fun c => Character.id c =? cid) (characters st))
     | None => None
     end)
    (option_map select_gm
       (find (fun s => Session.id s =? DiceRoll.sessionId d) (sessions st))).

Module diceRollController.

(** [POST /dice-rolls] *)
Definition rollDice (rnd : nat -> Q) (req_user : option User.t)
  (body : RollBody) : Store -> Response * Store :=
  try_catch (
    let expression := rb_expression body in
    let sessionId := rb_sessionId body in
    let characterId := rb_characterId body in
    userId <- req_user_id req_user ;;
    reject_if (negb (truthy expression) || negb (truthy sessionId))
      (fail 400 "L'expression de dés et l'ID de session sont requis") ;;
    reject_if (negb (test_format (str expression)))
      (fail 400
         "Format d'expression invalide. Utilisez le format XdY+Z (ex: 2d6+3)") ;;
    session <- prisma.session.findUnique (num sessionId) ;;
    match session with
    | None => send (fail 404 "Session non trouvée")
    | Some s =>
      let isGM := Session.gmId s =? userId in
      isParticipant <- prisma.sessionParticipants.findFirst
        (member_of (num sessionId) userId) ;;
      reject_if (negb isGM && negb (truthy isParticipant))
        (fail 403 "Vous devez être GM de cette session pour lancer les dés") ;;
      (if truthy characterId
       then
         character <- prisma.character.findFirst
           (owned_character (num characterId) userId) ;;
         reject_if (negb (truthy character))
           (fail 404
              "Personnage non trouvé ou n'appartient pas à l'utilisateur")
       else ret tt) ;;
      rd <- calculateDiceRoll rnd (str expression) ;;
      diceRoll <- prisma.diceRoll.create (str expression) (fst rd) userId
        (num sessionId) (nullable characterId) (snd rd) ;;
      ret (mkResponse 201 true "Jet de dés effectué avec succès"
             (PDiceRoll diceRoll))
    end)
  "Erreur lors du jet de dés".

(** [GET /dice-rolls/:id]; the session of a roll is a required relation,
    so reading [diceRoll.session.gmId] throws if the session row is
    missing. *)
Definition getDiceRollById (req_user : option User.t) (id : option Z)
  : Store -> Reply DiceRollView * Store :=
  try_catch_read (
    match id with
    | None => send (fail 400 "ID de jet de dés invalide")
    | Some diceRollId =>
      found <- prisma.diceRoll.findUnique diceRollId ;;
      match found with
      | None => send (fail 404 "Jet de dés non trouvé")
      | Some diceRoll =>
        view <- query (fun st => diceRoll_view st diceRoll) ;;
        userId <- req_user_id req_user ;;
        match dv_session view with
        | None => throw "Cannot read properties of null (reading 'gmId')"
        | Some session =>
          let isGM := sg_gmId session =? userId in
          participantInfo <- prisma.sessionParticipants.findFirst
            (member_of (DiceRoll.sessionId diceRoll) userId) ;;
          let isAdmin :=
            match participantInfo with
            | Some p => (SessionParticipants.role p =? "admin")%string
            | None => false
            end in
          let isParticipant := truthy participantInfo in
          let isRoller := DiceRoll.userId diceRoll =? userId in
          reject_if (negb isGM && negb isParticipant && negb isAdmin
                     && negb isRoller)
            (fail 403 "Vous n'êtes pas autorisé à voir ce jet de dés") ;;
          ret view
        end
      end
    end)
  "Erreur lors de la récupération du jet de dés".

End diceRollController.

(** ** The routers

    The handlers that only read leave the database as it is; of them
    [getUserById] and [getSessionById] are routed here, next to every
    handler that writes.  [getAllUsers], [getCharacterById],
    [getCharacters], [getCharactersBySession], [getParticipants] and
    [getDiceRollById] answer with rows rather than with a [Response] and
    are used as they are, with the [req.user] the middleware leaves.
    [getSessions] (a case-insensitive [contains] on the title, left to the
    collation of the database) and [getDiceRollsBySession] (a [take] of
    whatever [parseInt] makes of the query) are not embedded. *)

Inductive Request : Type :=
| POST_users_register (body : UserBody)
| POST_users_login (email password : field string)
| GET_users_id (id : option Z)
| PUT_users_id (id : option Z) (body : UserBody)
| DELETE_users_id (id : option Z)
| POST_characters (body : CharacterBody)
| PUT_characters_id (id : option Z) (body : CharacterBody)
| DELETE_characters_id (id : option Z)
| PUT_characters_id_assign_session (id : option Z) (sessionId : field Z)
| POST_sessions (body : SessionBody)
| GET_sessions_id (id : option Z)
| PUT_sessions_id (id : option Z) (body : SessionBody)
| DELETE_sessions_id (id : option Z)
| POST_sessions_id_participants (id : option Z) (body : ParticipantBody)
| DELETE_sessions_id_participants_id (id participantId : option Z)
| POST_dice_rolls (rnd : nat -> Q) (body : RollBody)
| POST_session_participants (body : ParticipantBody)
| DELETE_session_participants_id (id : option Z)
| PUT_session_participants_id (id : option Z) (role : field string)
    (characterId : field Z).

(** Modelled from the spec: the router file that mounts
    [sessionParticipantsController] is not among the sources; its routes
    are taken to be guarded like every other protected route ("401
    unauthenticated where required"). *)
Definition sessionParticipantsRoutes_guard (req_user : option User.t)
  (next : Store -> Response * Store) : Store -> Response * Store :=
  middleware.isAuthenticated req_user next.

(** [userRoutes], [charactereRoutes], [sessionRoutes] and
    [diceRollRoutes], behind the application-wide
    [extractUserFromToken]. *)
Definition router (token : Token) (req : Request)
  : Store -> Response * Store :=
  fun st =>
    let req_user := middleware.extractUserFromToken token st in
    let guarded := middleware.isAuthenticated req_user in
    let guarded' := sessionParticipantsRoutes_guard req_user in
    match req with
    | POST_users_register body => userController.register body st
    | POST_users_login email password =>
      userController.login email password st
    | GET_users_id id => guarded (userController.getUserById id) st
    | PUT_users_id id body =>
      guarded (userController.updateUser req_user id body) st
    | DELETE_users_id id => guarded (userController.deleteUser req_user id) st
    | POST_characters body =>
      guarded (characterController.createCharacter req_user body) st
    | PUT_characters_id id body =>
      guarded (characterController.updateCharacter req_user id body) st
    | DELETE_characters_id id =>
      guarded (characterController.deleteCharacter req_user id) st
    | PUT_characters_id_assign_session id sessionId =>
      guarded (characterController.associateWithSession req_user id sessionId)
        st
    | POST_sessions body =>
      guarded (sessionController.createSession req_user body) st
    | GET_sessions_id id =>
      guarded (sessionController.getSessionById req_user id) st
    | PUT_sessions_id id body =>
      guarded (sessionController.updateSession req_user id body) st
    | DELETE_sessions_id id =>
      guarded (sessionController.deleteSession req_user id) st
    | POST_sessions_id_participants id body =>
      guarded (sessionController.addParticipant req_user id body) st
    | DELETE_sessions_id_participants_id id participantId =>
      guarded (sessionController.removeParticipant req_user id participantId)
        st
    | POST_dice_rolls rnd body =>
      guarded (diceRollController.rollDice rnd req_user body) st
    | POST_session_participants body =>
      guarded' (sessionParticipantsController.addParticipant req_user body) st
    | DELETE_session_participants_id id =>
      guarded' (sessionParticipantsController.removeParticipant req_user id)
        st
    | PUT_session_participants_id id role characterId =>
      guarded' (sessionParticipantsController.updateParticipant req_user id
                  role characterId) st
    end.

(** Requests served one after the other. *)
Fixpoint serve (reqs : list (Token * Request)) (st : Store) : Store :=
  match reqs with
  | [] => st
  | (token, req) :: reqs' => serve reqs' (snd (router token req st))
  end.

(** ** Predicates of the specification *)

(** The six flags of the permission table. *)
Definition isGM (s : Session.t) (u : User.t) : Prop :=
  User.id u = Session.gmId s.

Definition isSessionAdmin (st : Store) (s : Session.t) (u : User.t) : Prop :=
  exists p, In p (participants st)
            /\ SessionParticipants.sessionId p = Session.id s
            /\ SessionParticipants.userId p = User.id u
            /\ SessionParticipants.role p = "admin".

Definition isSystemAdmin (st : Store) (u : User.t) : Prop :=
  exists p, In p (participants st)
            /\ SessionParticipants.userId p = User.id u
            /\ SessionParticipants.role p = "admin".

Definition isParticipant (st : Store) (sessionId userId : Z) : Prop :=
  exists p, In p (participants st)
            /\ SessionParticipants.sessionId p = sessionId
            /\ SessionParticipants.userId p = userId.

(** The request comes with a valid token of user [u]. *)
Definition authenticated (st : Store) (token : Token) (u : User.t) : Prop :=
  middleware.extractUserFromToken token st = Some u.

(** The session row with primary key [id]. *)
Definition session_row (st : Store) (id : Z) (s : Session.t) : Prop :=
  find (fun x => Session.id x =? id) (sessions st) = Some s.
Definition user_row (st : Store) (id : Z) (u : User.t) : Prop :=
  find (fun x => User.id x =? id) (users st) = Some u.
Definition character_row (st : Store) (id : Z) (c : Character.t) : Prop :=
  find (fun x => Character.id x =? id) (characters st) = Some c.
Definition participant_row (st : Store) (id : Z)
  (p : SessionParticipants.t) : Prop :=
  find (fun x => SessionParticipants.id x =? id) (participants st) = Some p.

(** At most one participant row per (session, user). *)
Definition membership (p : SessionParticipants.t) : Z * Z :=
  (SessionParticipants.sessionId p, SessionParticipants.userId p).

Definition unique_participants (st : Store) : Prop :=
  NoDup (map membership (participants st)).

(** What the database itself guarantees about sessions: their serial keys
    are below the sequence, and the foreign key of a participant row names
    a session row. *)
Definition session_keys_ok (st : Store) : Prop :=
  (forall s, In s (sessions st) -> Session.id s < session_seq st)
  /\ (forall p, In p (participants st) ->
        has_session st (SessionParticipants.sessionId p) = true).

(** Serial keys start at 1. *)
Definition character_keys_ok (st : Store) : Prop :=
  0 < character_seq st
  /\ forall c, In c (characters st) -> 0 < Character.id c.

(** The user owns the character with this key. *)
Definition owned_by (l : list Character.t) (id userId : Z) : Prop :=
  exists ch, In ch l /\ Character.id ch = id /\ Character.userId ch = userId.

(** Every roll made with a character was made by the character's owner. *)
Definition rolls_by_owner (st : Store) : Prop :=
  forall d c, In d (diceRolls st) -> DiceRoll.characterId d = Some c ->
    owned_by (characters st) c (DiceRoll.userId d).

(** No row refers to the user, session or character with this key. *)
Definition user_unreferenced (st : Store) (id : Z) : Prop :=
  (forall c, In c (characters st) -> Character.userId c <> id)
  /\ (forall s, In s (sessions st) -> Session.gmId s <> id)
  /\ (forall p, In p (participants st) -> SessionParticipants.userId p <> id)
  /\ (forall d, In d (diceRolls st) -> DiceRoll.userId d <> id).

Definition session_unreferenced (st : Store) (id : Z) : Prop :=
  (forall c, In c (characters st) -> Character.sessionId c <> Some id)
  /\ (forall p, In p (participants st) ->
        SessionParticipants.sessionId p <> id)
  /\ (forall d, In d (diceRolls st) -> DiceRoll.sessionId d <> id).

Definition character_unreferenced (st : Store) (id : Z) : Prop :=
  (forall p, In p (participants st) ->
     SessionParticipants.characterId p <> Some id)
  /\ (forall d, In d (diceRolls st) -> DiceRoll.characterId d <> Some id).

(** A user, session or character row of [st] that [st'] no longer has. *)
Definition user_deleted (st st' : Store) (id : Z) : Prop :=
  has_user st id = true /\ has_user st' id = false.
Definition session_deleted (st st' : Store) (id : Z) : Prop :=
  has_session st id = true /\ has_session st' id = false.
Definition character_deleted (st st' : Store) (id : Z) : Prop :=
  has_character st id = true /\ has_character st' id = false.

(** The three delete requests. *)
Definition is_delete (req : Request) : Prop :=
  match req with
  | DELETE_users_id _ | DELETE_sessions_id _ | DELETE_characters_id _ => True
  | _ => False
  end.

(** The row that a delete request names was there and is gone, and
    nothing refers to its key. *)
Definition target_deleted (req : Request) (st st' : Store) : Prop :=
  match req with
  | DELETE_users_id (Some id) => user_deleted st st' id
  | DELETE_sessions_id (Some id) => session_deleted st st' id
  | DELETE_characters_id (Some id) => character_deleted st st' id
  | _ => False
  end.

Definition target_unreferenced (req : Request) (st' : Store) : Prop :=
  match req with
  | DELETE_users_id (Some id) => user_unreferenced st' id
  | DELETE_sessions_id (Some id) => session_unreferenced st' id
  | DELETE_characters_id (Some id) => character_unreferenced st' id
  | _ => False
  end.


(** Every session key in use is below the sequence. *)
Definition session_bound (st : Store) : Prop :=
  (forall s, In s (sessions st) -> Session.id s < session_seq st)
  /\ (forall p, In p (participants st) ->
        SessionParticipants.sessionId p < session_seq st).

(** What the request asks for the session of the character is absent,
    [null], [0] or the key of a session. *)
Definition session_target_ok (st : Store) (f : field Z) : Prop :=
  match f with
  | Val z => z = 0 \/ has_session st z = true
  | _ => True
  end.

(** The roll is made without a character or with one of the principal's
    own. *)
Definition character_choice_ok (st : Store) (u : User.t) (f : field Z)
  : Prop :=
  match f with
  | Val c => c <> 0 /\ owned_by (characters st) c (User.id u)
  | _ => True
  end.

(** The roll request passes the checks that come before the one on the
    character: an expression in the format, an existing session, and a
    principal who runs it or takes part in it. *)
Definition reaches_character_check (st : Store) (u : User.t)
  (body : RollBody) : Prop :=
  truthy (rb_expression body) = true
  /\ test_format (str (rb_expression body)) = true
  /\ exists sid s,
       rb_sessionId body = Val sid /\ sid <> 0 /\ session_row st sid s
       /\ (isGM s u \/ isParticipant st sid (User.id u)).

(** ** The dice format, as a regular expression *)

Inductive regex : Type :=
| Chr (p : ascii -> bool)
| Cat (r1 r2 : regex)
| Plus (r : regex)
| Opt (r : regex).

Inductive matches : regex -> string -> Prop :=
| matches_chr p c : p c = true -> matches (Chr p) (String c EmptyString)
| matches_cat r1 r2 s1 s2 :
    matches r1 s1 -> matches r2 s2 -> matches (Cat r1 r2) (s1 ++ s2)
| matches_plus_one r s : matches r s -> matches (Plus r) s
| matches_plus_more r s1 s2 :
    matches r s1 -> matches (Plus r) s2 -> matches (Plus r) (s1 ++ s2)
| matches_opt_none r : matches (Opt r) EmptyString
| matches_opt_some r s : matches r s -> matches (Opt r) s.

(** [^\d+d\d+([+-]\d+)?$] *)
Definition dice_format : regex :=
  Cat (Plus (Chr is_digit))
    (Cat (Chr is_d)
       (Cat (Plus (Chr is_digit))
          (Opt (Cat (Chr is_sign) (Plus (Chr is_digit)))))).

(** A non-empty run of digits. *)
Definition numeral (s : string) : Prop := matches (Plus (Chr is_digit)) s.

(** The same, as a test. *)
Fixpoint all_digits (s : string) : bool :=
  match s with
  | String c s' => is_digit c && all_digits s'
  | EmptyString => true
  end.

Definition starts_with_digit (s : string) : bool :=
  match s with String c _ => is_digit c | EmptyString => false end.

(** The text of the modifier group and its value. *)
Definition modifier_text (k : option (ascii * string)) : string :=
  match k with Some (c, d) => String c d | None => EmptyString end.

Definition modifier_value (k : option (ascii * string)) : Z :=
  match k with
  | Some (c, d) =>
    if (nat_of_ascii c =? 45)%nat then - parse_digits 0 d
    else parse_digits 0 d
  | None => 0
  end.

Definition modifier_ok (k : option (ascii * string)) : Prop :=
  match k with
  | Some (c, d) => is_sign c = true /\ numeral d
  | None => True
  end.

Definition sum_list (l : list Z) : Z := fold_right Z.add 0 l.

(** Every value of [Math.random()] is a double of [0, 1): the largest of
    them is [1 - 2^-53]. *)
Definition unit_interval (rnd : nat -> Q) : Prop :=
  forall i, (0 <= rnd i)%Q /\ (rnd i <= 1 - (1 # 9007199254740992))%Q.

(** ** What the database guarantees *)

(** A serial primary key: the keys in use are distinct, positive and below
    the sequence. *)
Definition serial {A} (key : A -> Z) (l : list A) (seq : Z) : Prop :=
  NoDup (map key l) /\ 0 < seq /\ Forall (fun x => 0 < key x < seq) l.

Definition keys_ok (st : Store) : Prop :=
  serial User.id (users st) (user_seq st)
  /\ serial Character.id (characters st) (character_seq st)
  /\ serial Session.id (sessions st) (session_seq st)
  /\ serial SessionParticipants.id (participants st) (participant_seq st)
  /\ serial DiceRoll.id (diceRolls st) (diceRoll_seq st).

(** The nine foreign keys of the migration: every reference names a row. *)
Definition references_ok (st : Store) : Prop :=
  Forall (fun c => has_user st (Character.userId c) = true
                   /\ fk_opt (has_session st) (Character.sessionId c) = true)
    (characters st)
  /\ Forall (fun s => has_user st (Session.gmId s) = true) (sessions st)
  /\ Forall (fun p => has_session st (SessionParticipants.sessionId p) = true
                      /\ has_user st (SessionParticipants.userId p) = true
                      /\ fk_opt (has_character st)
                           (SessionParticipants.characterId p) = true)
       (participants st)
  /\ Forall (fun d => has_user st (DiceRoll.userId d) = true
                      /\ has_session st (DiceRoll.sessionId d) = true
                      /\ fk_opt (has_character st) (DiceRoll.characterId d)
                         = true)
       (diceRolls st).

(** The two unique indexes of [User]. *)
Definition unique_accounts (st : Store) : Prop :=
  NoDup (map User.username (users st)) /\ NoDup (map User.email (users st)).

(** A participant row that names a character names one of its own user. *)
Definition seats_with_own_characters (st : Store) : Prop :=
  forall p c, In p (participants st) ->
    SessionParticipants.characterId p = Some c ->
    owned_by (characters st) c (SessionParticipants.userId p).

(** The routes of [userRoutes], [charactereRoutes], [sessionRoutes] and
    [diceRollRoutes] that sit behind [isAuthenticated]. *)
Definition behind_isAuthenticated (req : Request) : Prop :=
  match req with
  | POST_users_register _ | POST_users_login _ _ => False
  | POST_session_participants _ | DELETE_session_participants_id _
  | PUT_session_participants_id _ _ _ => False
  | _ => True
  end.

(** ** What the database takes

    The statements of [prisma] are total here: they take every integer
    and every string.  The driver and the database do not: an [Int]
    argument or column holds 32 bits, a text holds no zero byte, a
    timestamp has a range, a [Json] column does not take a plain [null],
    and [bcrypt] reads the first 72 bytes of a password.  The predicates
    below name values that are taken; they are the hypotheses under which
    a theorem says that a value of a request is written, or looked up as
    a key. *)

(** A value of an [Int] column or argument. *)
Definition int32 (z : Z) : bool :=
  (-2147483648 <=? z) && (z <=? 2147483647).

(** A value of a [String] column: no zero byte. *)
Fixpoint text_ok (s : string) : bool :=
  match s with
  | EmptyString => true
  | String c s' => negb (Ascii.eqb c Ascii.zero) && text_ok s'
  end.

(** Milliseconds that [new Date] turns into a date of the years 1970 to
    9999. *)
Definition timestamp_ok (z : Z) : bool :=
  (0 <=? z) && (z <=? 253402300799999).

(** A password that [bcrypt] reads whole. *)
Definition password_ok (s : string) : bool :=
  text_ok s && (String.length s <=? 72)%nat.

(** The same for a field of a request, when it has a value. *)
Definition field_ok {A} (ok : A -> bool) (f : field A) : bool :=
  match f with
  | Val a => ok a
  | _ => true
  end.

(** A [Json] field with a value, or absent. *)
Definition json_ok (f : field Json) : bool :=
  match f with
  | Val j => text_ok j
  | Undefined => true
  | Null => false
  end.

(** The values of a session body that reach the database. *)
Definition session_body_ok (b : SessionBody) : bool :=
  field_ok text_ok (sb_title b) && field_ok text_ok (sb_description b)
  && field_ok timestamp_ok (sb_scheduledAt b)
  && field_ok text_ok (sb_status b).

(** [participants.find(p => p.userId === userId)?.role === 'admin'] reads
    one row: of the participant rows of the user in the session, the one
    the database returns first has the role "admin". *)
Definition isFirstRowAdmin (st : Store) (s : Session.t) (u : User.t) : Prop :=
  exists p,
    find (member_of (Session.id s) (User.id u)) (participants st) = Some p
    /\ SessionParticipants.role p = "admin".

(** The values of a character body that reach the database. *)
Definition character_body_ok (b : CharacterBody) : bool :=
  field_ok text_ok (cb_name b) && field_ok text_ok (cb_race b)
  && field_ok text_ok (cb_class b) && field_ok int32 (cb_level b)
  && field_ok text_ok (cb_background b)
  && json_ok (cb_inventory b) && json_ok (cb_stats b).

(** The username and the email of a user body. *)
Definition user_body_ok (b : UserBody) : bool :=
  field_ok text_ok (ub_username b) && field_ok text_ok (ub_email b).


(** ** A running example

    Alice, Bob and Carol register; Alice creates the session "Dragon Hunt"
    and becomes its game-master. *)

Definition registration (name : string) : Token * Request :=
  (None, POST_users_register
           (mkUserBody (Val name) (Val (name ++ "@example.org"))
              (Val "secret"))).

Definition alice : Token := Some 1.
Definition bob : Token := Some 2.
Definition carol : Token := Some 3.

Definition dragon_hunt : Store :=
  serve [registration "alice"; registration "bob"; registration "carol";
         (alice, POST_sessions
                   (mkSessionBody (Val "Dragon Hunt") Undefined Undefined
                      Undefined))]
    empty_store.

(** Bob enrolls himself through [POST /sessions/1/participants]. *)
Definition join (userId : Z) (role : string) : ParticipantBody :=
  mkParticipantBody Undefined (Val userId) Undefined (Val role).

(** The same request for [POST /session-participants]. *)
Definition join_session (sessionId userId : Z) (role : string)
  : ParticipantBody :=
  mkParticipantBody (Val sessionId) (Val userId) Undefined (Val role).

Definition with_bob : Store :=
  snd (router bob (POST_sessions_id_participants (Some 1) (join 2 "admin"))
         dragon_hunt).

Definition new_character (name : string) : CharacterBody :=
  mkCharacterBody (Val name) (Val "elf") (Val "ranger") (Val 1) Undefined
    Undefined Undefined Undefined Undefined.

(** Bob creates the character "Legolas" and brings it to the session. *)
Definition with_legolas : Store :=
  serve [(bob, POST_characters (new_character "Legolas"));
         (bob, PUT_characters_id_assign_session (Some 1) (Val 1))]
    with_bob.

Definition half : nat -> Q := fun _ => (1 # 2)%Q.

(** The rows of the example. *)
Definition bob_row : User.t :=
  User.mk 2 "bob" "bob@example.org" (Hashed "secret").
Definition carol_row : User.t :=
  User.mk 3 "carol" "carol@example.org" (Hashed "secret").
Definition alice_row : User.t :=
  User.mk 1 "alice" "alice@example.org" (Hashed "secret").
Definition hunt_row : Session.t :=
  Session.mk 1 "Dragon Hunt" None None "planifiée" 1.
Definition bob_seat : SessionParticipants.t :=
  SessionParticipants.mk 2 1 2 None "joueur".

(** Alice makes Bob an admin of the session. *)
Definition with_admin_bob : Store :=
  snd (sessionParticipantsController.updateParticipant (Some alice_row)
         (Some 2) (Val "admin") Undefined with_bob).

(** Two updates of a character: a new name, and a death. *)
Definition rename_body : CharacterBody :=
  mkCharacterBody (Val "Gimli") Undefined Undefined Undefined Undefined
    Undefined Undefined Undefined Undefined.
Definition bury_body : CharacterBody :=
  mkCharacterBody Undefined Undefined Undefined Undefined Undefined
    Undefined Undefined (Val false) Undefined.

(** Bob rolls two dice for Legolas. *)
Definition with_roll : Store :=
  snd (router bob
         (POST_dice_rolls half (mkRollBody (Val "2d6+3") (Val 1) (Val 1)))
         with_legolas).

(** ** Invariants, statement by statement *)

(** A statement, or a handler body, that keeps the invariant [I] whatever
    it answers, also when it throws. *)
Definition preserves {A} (I : Store -> Prop) (m : M A) : Prop :=
  forall st, I st -> I (snd (m st)).

(** What [PUT /characters/:id/assign-session] writes in the character and
    in the participant row of its owner. *)
Definition to_session (sessionId : option Z) : Character.t -> Character.t :=
  apply_CharacterData
    (mkCharacterData None None None None None None None None (Some sessionId)).

Definition with_character (characterId : Z)
  : SessionParticipants.t -> SessionParticipants.t :=
  apply_ParticipantData (mkParticipantData None (Some (Some characterId))).

(** A database with two participant rows for Bob in the session, the
    second one with the role "admin"; no unique index keeps two requests
    that run side by side from leaving such rows. *)
Definition with_second_row : Store :=
  set_participants
    (participants with_bob ++ [SessionParticipants.mk 3 1 2 None "admin"])%list
    (next_participant_seq with_bob).

(** * Verification *)

Unset Implicit Arguments.

(** ** Symbolic execution of a handler *)

Ltac run_monad :=
  cbv beta iota zeta delta
    [try_catch bind ret send throw get put query reject_if req_user_id
     if_defined_required
     prisma.user.findUnique prisma.user.findFirst prisma.user.create
     prisma.user.update prisma.user.delete
     prisma.character.findUnique prisma.character.findFirst
     prisma.character.create prisma.character.update
     prisma.character.updateMany_detach prisma.character.deleteMany
     prisma.character.delete
     prisma.session.findUnique prisma.session.create prisma.session.update
     prisma.session.deleteMany prisma.session.delete
     prisma.sessionParticipants.findUnique
     prisma.sessionParticipants.findFirst
     prisma.sessionParticipants.findMany prisma.sessionParticipants.create
     prisma.sessionParticipants.update prisma.sessionParticipants.deleteMany
     prisma.sessionParticipants.delete
     prisma.diceRoll.create prisma.diceRoll.deleteMany].

Ltac store_simpl :=
  cbn [fst snd status success message payload fail
       users characters sessions participants diceRolls
       user_seq character_seq session_seq participant_seq diceRoll_seq
       set_users set_characters set_sessions set_participants set_diceRolls
       next_user_seq next_character_seq next_session_seq
       next_participant_seq next_diceRoll_seq] in *.

(** Case analysis on the innermost scrutinee of the goal. *)
Ltac case_step :=
  match goal with
  | |- context [match ?x with _ => _ end] =>
    match x with
    | context [match _ with _ => _ end] => fail 1
    | _ => destruct x eqn:?; cbv beta iota zeta
    end
  end.

(** Through the router, past [isAuthenticated], with the token of [H]. *)
Ltac enter_route H :=
  unfold router, sessionParticipantsRoutes_guard,
    middleware.isAuthenticated; cbv zeta;
  let H' := fresh in
  pose proof H as H'; unfold authenticated in H'; rewrite !H'; clear H'.

Ltac store_simpl_goal :=
  unfold has_user, has_session, has_character, has_participant;
  cbn [fst snd users characters sessions participants diceRolls
       user_seq character_seq session_seq participant_seq diceRoll_seq
       set_users set_characters set_sessions set_participants set_diceRolls
       next_user_seq next_character_seq next_session_seq
       next_participant_seq next_diceRoll_seq].

Ltac run_handler :=
  run_monad; store_simpl_goal; repeat (case_step; store_simpl_goal);
  store_simpl.

(** Boolean tests back to propositions. *)
Ltac bool_facts :=
  repeat match goal with
  | H : _ && _ = true |- _ => apply andb_true_iff in H; destruct H
  | H : _ || _ = false |- _ => apply orb_false_iff in H; destruct H
  | H : negb _ = true |- _ => apply negb_true_iff in H
  | H : negb _ = false |- _ => apply negb_false_iff in H
  | H : (_ =? _) = true |- _ => apply Z.eqb_eq in H
  | H : (_ =? _) = false |- _ => apply Z.eqb_neq in H
  | H : (_ =? _)%string = true |- _ => apply String.eqb_eq in H
  | H : (_ =? _)%string = false |- _ => apply String.eqb_neq in H
  end.

(** ** Lists and keys *)

Section Lists.
Context {A : Type}.
Implicit Types (l : list A) (p : A -> bool) (key : A -> Z).

Lemma find_In p l x : find p l = Some x -> In x l /\ p x = true.
Proof. apply find_some. Qed.

Lemma find_None_all p l x : find p l = None -> In x l -> p x = false.
Proof. intros H Hin. exact (find_none p l H x Hin). Qed.

Lemma find_exists p l : (exists x, In x l /\ p x = true) -> find p l <> None.
Proof.
  intros [x [Hin Hp]] Hnone.
  rewrite (find_None_all p l x Hnone Hin) in Hp. discriminate.
Qed.

Lemma existsb_false_all p l x : existsb p l = false -> In x l -> p x = false.
Proof.
  intros H Hin. destruct (p x) eqn:Hp; [|reflexivity].
  assert (existsb p l = true) by (apply existsb_exists; eauto). congruence.
Qed.

Lemma existsb_find p l : existsb p l = truthy (find p l).
Proof.
  induction l as [|a l IH]; cbn; [reflexivity|].
  destruct (p a); cbn; [reflexivity|exact IH].
Qed.

Lemma existsb_filter_neg p l :
  existsb p (filter (fun x => negb (p x)) l) = false.
Proof.
  induction l as [|a l IH]; cbn; [reflexivity|].
  destruct (p a) eqn:Hp; cbn; [exact IH|]. rewrite Hp. exact IH.
Qed.

Lemma existsb_map_key key (f : A -> A) l id :
  (forall x, key (f x) = key x) ->
  existsb (fun x => key x =? id) (map f l) = existsb (fun x => key x =? id) l.
Proof.
  intros Hk. induction l as [|a l IH]; cbn; [reflexivity|].
  rewrite Hk, IH. reflexivity.
Qed.

Lemma find_replace key id (f : A -> A) l x :
  (forall y, key (f y) = key y) ->
  find (fun y => key y =? id) l = Some x ->
  find (fun y => key y =? id) (replace key id f l) = Some (f x).
Proof.
  intros Hk. unfold replace. induction l as [|a l IH]; cbn; [discriminate|].
  destruct (key a =? id) eqn:Ha.
  - intros [= ->]. rewrite Hk, Ha. reflexivity.
  - rewrite Ha. exact IH.
Qed.

Lemma NoDup_map_eq {B} (f : A -> B) l x y :
  NoDup (map f l) -> In x l -> In y l -> f x = f y -> x = y.
Proof.
  induction l as [|a l IH]; cbn; [contradiction|].
  intros Hnd Hx Hy Hf. inversion Hnd as [|? ? Hnotin Hnd']; subst.
  destruct Hx as [->|Hx], Hy as [->|Hy]; auto.
  - exfalso. apply Hnotin. rewrite Hf. apply in_map. exact Hy.
  - exfalso. apply Hnotin. rewrite <- Hf. apply in_map. exact Hx.
Qed.

End Lists.

Lemma mem_In z l : mem z l = true <-> In z l.
Proof.
  unfold mem. rewrite existsb_exists. split.
  - intros [x [Hin Heq]]. apply Z.eqb_eq in Heq. subst. exact Hin.
  - intros Hin. exists z. split; [exact Hin|apply Z.eqb_refl].
Qed.

Lemma eq_opt_true o z : eq_opt o z = true <-> o = Some z.
Proof.
  destruct o as [x|]; cbn; [|split; discriminate].
  rewrite Z.eqb_eq. split; [intros ->; reflexivity|intros [= ->]; reflexivity].
Qed.

Lemma authenticated_row st token u :
  authenticated st token u ->
  In u (users st) /\ has_user st (User.id u) = true.
Proof.
  unfold authenticated, middleware.extractUserFromToken.
  destruct token as [id|]; [|discriminate]. intros H.
  apply find_In in H. destruct H as [Hin Hid]. split; [exact Hin|].
  unfold has_user. apply existsb_exists. exists u. split; [exact Hin|].
  apply Z.eqb_refl.
Qed.

Lemma session_row_id st id s :
  session_row st id s -> In s (sessions st) /\ Session.id s = id.
Proof.
  intros H. apply find_In in H. destruct H as [Hin Hid].
  apply Z.eqb_eq in Hid. auto.
Qed.

Lemma session_row_has st id s : session_row st id s -> has_session st id = true.
Proof.
  intros H. unfold has_session. rewrite existsb_find.
  unfold session_row in H. rewrite H. reflexivity.
Qed.

(** ** The flags of the permission table, as the handlers compute them *)

Lemma admin_in_iff st s u :
  truthy (find (admin_in (Session.id s) (User.id u)) (participants st)) = true
  <-> isSessionAdmin st s u.
Proof.
  rewrite <- existsb_find, existsb_exists. unfold isSessionAdmin, admin_in.
  split; intros [p [Hin H]]; exists p; split; auto.
  - bool_facts. auto.
  - destruct H as [-> [-> ->]]. rewrite !Z.eqb_refl, String.eqb_refl.
    reflexivity.
Qed.

Lemma is_admin_row_iff st u :
  truthy (find (is_admin_row (User.id u)) (participants st)) = true
  <-> isSystemAdmin st u.
Proof.
  rewrite <- existsb_find, existsb_exists. unfold isSystemAdmin, is_admin_row.
  split; intros [p [Hin H]]; exists p; split; auto.
  - bool_facts. auto.
  - destruct H as [-> ->]. rewrite Z.eqb_refl, String.eqb_refl. reflexivity.
Qed.

Lemma member_of_iff st sessionId userId :
  truthy (find (member_of sessionId userId) (participants st)) = true
  <-> isParticipant st sessionId userId.
Proof.
  rewrite <- existsb_find, existsb_exists. unfold isParticipant, member_of.
  split; intros [p [Hin H]]; exists p; split; auto.
  - bool_facts. auto.
  - destruct H as [-> ->]. rewrite !Z.eqb_refl. reflexivity.
Qed.

Lemma first_row_is_admin_sound st s u :
  first_row_is_admin (participants_of st (Session.id s)) (User.id u) = true ->
  isSessionAdmin st s u.
Proof.
  unfold first_row_is_admin, participants_of.
  destruct (find _ _) as [p|] eqn:Hfind; [|discriminate].
  intros Hrole. apply find_In in Hfind. destruct Hfind as [Hin Hu].
  apply filter_In in Hin. destruct Hin as [Hin Hs]. bool_facts.
  exists p. auto.
Qed.

(** With at most one row per (session, user), the first row of the user
    is the only one. *)
Lemma first_row_is_admin_complete st s u :
  unique_participants st ->
  isSessionAdmin st s u ->
  first_row_is_admin (participants_of st (Session.id s)) (User.id u) = true.
Proof.
  intros Huniq [p [Hin [Hs [Hu Hrole]]]].
  unfold first_row_is_admin, participants_of.
  destruct (find _ _) as [q|] eqn:Hfind.
  - apply find_In in Hfind. destruct Hfind as [Hq Hqu].
    apply filter_In in Hq. destruct Hq as [Hq Hqs]. bool_facts.
    assert (q = p) as ->.
    { apply (NoDup_map_eq membership (participants st)); auto.
      unfold membership. congruence. }
    rewrite Hrole. reflexivity.
  - exfalso. revert Hfind. apply find_exists. exists p. split.
    + apply filter_In. split; [exact Hin|]. apply Z.eqb_eq. exact Hs.
    + apply Z.eqb_eq. exact Hu.
Qed.

(** ** Self-enrollment (C1) *)

(** Through [POST /sessions/:id/participants] a principal who enrols
    themselves in a session they do not run is stored as "joueur",
    whatever role the request asks for. *)
Lemma sessionController_self_enrollment st u sid body :
  pb_userId body = Val (User.id u) ->
  (forall s, session_row st sid s -> Session.gmId s <> User.id u) ->
  let r := sessionController.addParticipant (Some u) (Some sid) body st in
  (status (fst r) = 201 ->
   exists p, participants (snd r) = (participants st ++ [p])%list
             /\ membership p = (sid, User.id u)
             /\ SessionParticipants.role p = "joueur")
  /\ (status (fst r) <> 201 -> participants (snd r) = participants st).
Proof.
  intros Hself Hgm. unfold sessionController.addParticipant.
  run_monad. rewrite Hself. cbn [num truthy truthy_field].
  repeat case_step; store_simpl.
  all: try (split; intros; try discriminate; try congruence; reflexivity).
  all: split; [intros _|congruence].
  all: try (eexists; split; [reflexivity|split; reflexivity]).
  all: exfalso; rewrite Z.eqb_refl in *; cbn in *; bool_facts.
  all: eapply Hgm; eauto.
Qed.

(** Through [POST /session-participants] the same request keeps the role
    it asks for. *)
Lemma sessionParticipants_addParticipant_role st u body :
  let r := sessionParticipantsController.addParticipant (Some u) body st in
  status (fst r) = 201 ->
  exists p, participants (snd r) = (participants st ++ [p])%list
            /\ membership p = (num (pb_sessionId body), num (pb_userId body))
            /\ SessionParticipants.role p = str (pb_role body).
Proof.
  unfold sessionParticipantsController.addParticipant.
  run_handler; intros; try discriminate.
  all: eexists; split; [reflexivity|split; reflexivity].
Qed.

(** C1.  Self-enrollment must store the role "joueur" on every
    add-participant entry point.  Bob, who is not the game-master of
    "Dragon Hunt", enrols himself asking for "admin": the handler of
    [sessionController] stores "joueur", the handler of
    [sessionParticipantsController] stores "admin". *)
Theorem self_enrollment_as_admin :
  let nested :=
    router bob (POST_sessions_id_participants (Some 1) (join 2 "admin"))
      dragon_hunt in
  let direct :=
    sessionParticipantsController.addParticipant (Some bob_row)
      (join_session 1 2 "admin") dragon_hunt in
  (status (fst nested) = 201
   /\ map SessionParticipants.role (participants_of (snd nested) 1)
      = ["mj"; "joueur"])
  /\ (status (fst direct) = 201
      /\ map SessionParticipants.role (participants_of (snd direct) 1)
         = ["mj"; "admin"]).
Proof. vm_compute. repeat split. Qed.

(** ** Updating a participant (C2) *)




(** ** User accounts (C3) *)




(** ** Sessions (C4) *)

Lemma mem_map_filter_key {A} (key : A -> Z) id (l : list A) z :
  mem z (map key (filter (fun x => key x =? id) l)) = true -> z = id.
Proof.
  rewrite mem_In, in_map_iff. intros [x [Hk Hin]].
  apply filter_In in Hin. destruct Hin as [_ Hid]. bool_facts. congruence.
Qed.

Lemma In_map_filter_key {A} (key : A -> Z) id (l : list A) z :
  In z (map key (filter (fun x => key x =? id) l)) -> z = id.
Proof. intros H. apply mem_In in H. exact (mem_map_filter_key _ _ _ _ H). Qed.

(** Once the rows of a session are gone, nothing restricts its deletion. *)
Lemma restrict_after_cleanup {A B} (key : A -> Z) (ref : B -> Z) id
  (l : list A) (rows : list B) :
  existsb (fun r => mem (ref r) (map key (filter (fun x => key x =? id) l)))
    (filter (fun r => negb (ref r =? id)) rows) = false.
Proof.
  destruct (existsb _ _) eqn:H; [|reflexivity].
  apply existsb_exists in H. destruct H as [r [Hin Hmem]].
  apply filter_In in Hin. destruct Hin as [_ Hneq].
  apply mem_map_filter_key in Hmem. bool_facts. contradiction.
Qed.

Lemma has_after_delete {A} (key : A -> Z) id (l : list A) :
  existsb (fun x => key x =? id) (filter (fun x => negb (key x =? id)) l)
  = false.
Proof. apply (existsb_filter_neg (fun x => key x =? id)). Qed.

Lemma find_filter {A} (p q : A -> bool) l :
  find p (filter q l) = find (fun x => q x && p x) l.
Proof.
  induction l as [|a l IH]; cbn; [reflexivity|].
  destruct (q a); cbn; [destruct (p a); [reflexivity|exact IH]|exact IH].
Qed.

Lemma first_row_is_admin_iff st s u :
  first_row_is_admin (participants_of st (Session.id s)) (User.id u) = true
  <-> isFirstRowAdmin st s u.
Proof.
  unfold first_row_is_admin, participants_of, isFirstRowAdmin.
  rewrite find_filter.
  change (fun x => (SessionParticipants.sessionId x =? Session.id s)
                   && (SessionParticipants.userId x =? User.id u))
    with (member_of (Session.id s) (User.id u)).
  destruct (find _ _) as [p|]; split.
  - intros H. exists p. split; [reflexivity|]. apply String.eqb_eq. exact H.
  - intros [q [[= <-] ->]]. reflexivity.
  - discriminate.
  - intros [q [[=] _]].
Qed.

(** C4 fails as stated: Bob has two participant rows in the session, and
    the second one has the role "admin".  The handlers read the first row
    only: his update and his delete are answered 403. *)
Lemma second_admin_row_is_not_read :
  let st := with_second_row in
  let body := mkSessionBody (Val "Dragon Feast") Undefined Undefined
                Undefined in
  authenticated st bob bob_row
  /\ session_row st 1 hunt_row
  /\ isSessionAdmin st hunt_row bob_row
  /\ status (fst (router bob (PUT_sessions_id (Some 1) body) st)) = 403
  /\ status (fst (router bob (DELETE_sessions_id (Some 1)) st)) = 403.
Proof.
  cbv zeta. split; [reflexivity|]. split; [reflexivity|]. split.
  - exists (SessionParticipants.mk 3 1 2 None "admin").
    split; [vm_compute; tauto|]. split; [reflexivity|]. split; reflexivity.
  - split; reflexivity.
Qed.

(** C4, amended.  For an existing session and an authenticated principal,
    update and delete are allowed exactly when the principal is the
    game-master or their participant row of the session has the role
    "admin" (the first row, should the database hold several; with at
    most one row per session and user that is: when they hold an "admin"
    row of the session).  Allowed, a delete is answered 200 and the
    session is gone, so an admin who is not the game-master may delete
    it; an update is never answered 403, and is answered 200 when its
    values are ones the database takes.  Everybody else is answered 403,
    with the database untouched. *)
Theorem session_update_delete_authorization st token u id s body :
  authenticated st token u ->
  session_row st id s ->
  let update := router token (PUT_sessions_id (Some id) body) st in
  let delete := router token (DELETE_sessions_id (Some id)) st in
  (isGM s u \/ isFirstRowAdmin st s u ->
   status (fst update) <> 403
   /\ (session_body_ok body = true -> status (fst update) = 200)
   /\ status (fst delete) = 200 /\ has_session (snd delete) id = false)
  /\ (~ (isGM s u \/ isFirstRowAdmin st s u) ->
      (status (fst update) = 403 /\ snd update = st)
      /\ (status (fst delete) = 403 /\ snd delete = st))
  /\ (unique_participants st ->
      (isFirstRowAdmin st s u <-> isSessionAdmin st s u)).
Proof.
  intros Hauth Hs. cbv zeta.
  destruct (session_row_id _ _ _ Hs) as [_ Hid].
  pose proof (session_row_has _ _ _ Hs) as Hhas.
  split; [|split].
  3: { intros Huniq. rewrite <- first_row_is_admin_iff. split.
       - apply first_row_is_admin_sound.
       - apply first_row_is_admin_complete. exact Huniq. }
  all: rewrite <- first_row_is_admin_iff, Hid.
  all: enter_route Hauth.
  all: unfold sessionController.updateSession, sessionController.deleteSession.
  all: unfold session_row in Hs; run_monad; rewrite !Hs.
  all: destruct (negb (Session.gmId s =? User.id u)
                 && negb (first_row_is_admin (participants_of st id)
                            (User.id u))) eqn:Hcheck.
  - intros Hallowed. exfalso. bool_facts. destruct Hallowed as [Hgm|Hadm].
    + unfold isGM in Hgm. congruence.
    + congruence.
  - intros _. unfold has_session in *. store_simpl. rewrite Hs, Hhas.
    unfold has_session. store_simpl.
    rewrite !restrict_after_cleanup. cbn [orb]. store_simpl.
    rewrite has_after_delete. repeat split; auto. discriminate.
  - intros _. cbn. auto.
  - intros Hdenied. exfalso. apply Hdenied.
    apply andb_false_iff in Hcheck. destruct Hcheck as [H|H]; bool_facts.
    + left. unfold isGM. congruence.
    + right. exact H.
Qed.

Lemma session_update_delete_authorization_witness :
  let delete := router bob (DELETE_sessions_id (Some 1)) with_admin_bob in
  User.id bob_row <> Session.gmId hunt_row
  /\ status (fst delete) = 200 /\ has_session (snd delete) 1 = false.
Proof.
  split; [discriminate|].
  refine (proj2 (proj2 (proj1 (session_update_delete_authorization
                                 with_admin_bob bob bob_row 1 hunt_row
                                 (mkSessionBody Undefined Undefined Undefined
                                    Undefined) eq_refl eq_refl) _))).
  right. exists (SessionParticipants.mk 2 1 2 None "admin").
  split; reflexivity.
Defined.

(** ** Viewing a session (C9) *)

(** C9.  Anybody may view a session: the handler [getSessionById] reads
    [req.user?.id] "car l'utilisateur pourrait ne pas être connecté" and
    returns an existing session to a request without a user.  The route
    of [sessionRoutes] still has [isAuthenticated] in front of it, so
    that request never reaches the handler and is answered 401.  (The
    second session router, which the sources append to [Router/index.ts],
    replaces that guard by [extractUserFromToken], "même si non
    authentifié".) *)
Theorem anonymous_view_is_refused :
  has_session dragon_hunt 1 = true
  /\ status (fst (sessionController.getSessionById None (Some 1)
                    dragon_hunt)) = 200
  /\ fst (router None (GET_sessions_id (Some 1)) dragon_hunt)
     = fail 401 "Accès non autorisé. Veuillez vous connecter.".
Proof. vm_compute. auto. Qed.

(** The handler itself returns an existing session to whoever asks,
    authenticated or not, and never answers 401 or 403; through the
    router of [sessionRoutes], every authenticated principal gets the
    session, member of it or not, and a request without a valid token is
    stopped with 401 by [isAuthenticated]. *)
Lemma getSessionById_open_to_authenticated st id s :
  session_row st id s ->
  (forall req_user,
     exists view,
       sessionController.getSessionById req_user (Some id) st
       = (mkResponse 200 true "" (PSessionView view), st)
       /\ sv_session view = s)
  /\ (forall token u,
        authenticated st token u ->
        status (fst (router token (GET_sessions_id (Some id)) st)) = 200)
  /\ (forall token,
        middleware.extractUserFromToken token st = None ->
        status (fst (router token (GET_sessions_id (Some id)) st)) = 401).
Proof.
  intros Hs. unfold session_row in Hs.
  assert (forall req_user,
            exists view,
              sessionController.getSessionById req_user (Some id) st
              = (mkResponse 200 true "" (PSessionView view), st)
              /\ sv_session view = s) as Hopen.
  { intros req_user. unfold sessionController.getSessionById. run_monad.
    rewrite Hs. eexists. split; reflexivity. }
  split; [exact Hopen|]. split.
  - intros token u Hauth. enter_route Hauth.
    destruct (Hopen (Some u)) as [view [-> _]]. reflexivity.
  - intros token Hnone. unfold router, sessionParticipantsRoutes_guard,
    middleware.isAuthenticated. cbv zeta.
    rewrite Hnone. reflexivity.
Qed.

Example getSessionById_for_carol :
  status (fst (router carol (GET_sessions_id (Some 1)) dragon_hunt)) = 200.
Proof.
  exact (proj1 (proj2 (getSessionById_open_to_authenticated dragon_hunt 1
                         hunt_row eq_refl)) carol carol_row eq_refl).
Qed.

(** ** The identity fields of a character (C7) *)

(** C7 fails as stated: Alice, game-master of the session Legolas is
    attached to, neither his owner nor an admin, sends an update that
    supplies the field [name] with the empty string; it is answered 200,
    not 403. *)
Lemma empty_name_is_not_rejected :
  let body :=
    mkCharacterBody (Val "") Undefined Undefined Undefined Undefined
      Undefined Undefined Undefined Undefined in
  let r := router alice (PUT_characters_id (Some 1) body) with_legolas in
  map Character.userId (characters with_legolas) = [2]
  /\ map Character.sessionId (characters with_legolas) = [Some 1]
  /\ map Session.gmId (sessions with_legolas) = [1]
  /\ map SessionParticipants.role (participants with_legolas)
     = ["mj"; "joueur"]
  /\ defined (cb_name body) = true
  /\ status (fst r) <> 403
  /\ status (fst r) = 200.
Proof. vm_compute. repeat split; discriminate. Qed.

(** C7, amended.  A game-master of the character's session who is neither
    its owner nor an admin of the session is answered 403, the database
    untouched, whenever the request carries a non-empty name, race or
    class.  A request of theirs that carries none (no value or the empty
    string), no [null] for [level] or [isAlive], for [sessionId] nothing,
    [null], [0] or the key of a session, and otherwise values the
    database takes (a level of 32 bits, texts without a zero byte, no
    plain [null] for a [Json] column), is answered 200: name, race,
    class and owner stay, [isAlive] and [sessionId] are set as asked. *)
Theorem updateCharacter_identity_lock st token u id c sid s body :
  authenticated st token u ->
  character_row st id c ->
  Character.sessionId c = Some sid ->
  session_row st sid s ->
  isGM s u ->
  Character.userId c <> User.id u ->
  ~ isSessionAdmin st s u ->
  let r := router token (PUT_characters_id (Some id) body) st in
  let identity :=
    truthy (cb_name body) || truthy (cb_race body) || truthy (cb_class body) in
  (identity = true -> status (fst r) = 403 /\ snd r = st)
  /\ (identity = false ->
      cb_level body <> Null -> cb_isAlive body <> Null ->
      session_target_ok st (cb_sessionId body) ->
      character_body_ok body = true ->
      status (fst r) = 200
      /\ exists c',
           character_row (snd r) id c'
           /\ Character.name c' = Character.name c
           /\ Character.race c' = Character.race c
           /\ Character.class c' = Character.class c
           /\ Character.userId c' = Character.userId c
           /\ (forall b, cb_isAlive body = Val b -> Character.isAlive c' = b)
           /\ (forall z, cb_sessionId body = Val z -> z <> 0 ->
                 Character.sessionId c' = Some z)).
Proof.
  intros Hauth Hc Hsid Hs Hgm Howner Hadmin. cbv zeta.
  destruct (session_row_id _ _ _ Hs) as [_ Hid].
  pose proof (admin_in_iff st s u) as Hflag.
  destruct (truthy (find (admin_in (Session.id s) (User.id u))
                      (participants st))) eqn:Hadm;
    [exfalso; apply Hadmin, Hflag; reflexivity|clear Hflag].
  enter_route Hauth. unfold characterController.updateCharacter, session_of.
  unfold character_row in Hc. unfold session_row in Hs. unfold isGM in Hgm.
  run_monad. rewrite Hc, Hsid, Hs, Hadm.
  rewrite (proj2 (Z.eqb_neq _ _) Howner).
  rewrite (proj2 (Z.eqb_eq (Session.gmId s) (User.id u)) (eq_sym Hgm)).
  cbn [negb andb].
  split; intros Hidentity; rewrite Hidentity; [cbn; auto|].
  intros Hlevel Halive Htarget _.
  apply orb_false_iff in Hidentity. destruct Hidentity as [Hnr Hclass].
  apply orb_false_iff in Hnr. destruct Hnr as [Hname Hrace].
  assert (forall f : field string, truthy f = false -> if_truthy f = None)
    as Hfalsy.
  { intros [| |a]; cbn; try reflexivity. intros ->. reflexivity. }
  rewrite (Hfalsy _ Hname), (Hfalsy _ Hrace), (Hfalsy _ Hclass).
  destruct (cb_level body) as [| |lv] eqn:El; [|congruence|];
    destruct (cb_isAlive body) as [| |al] eqn:Ea; try congruence;
    rewrite Hc; cbn [fk_set cd_sessionId].
  all: assert (fk_set (has_session st)
                 (if defined (cb_sessionId body)
                  then Some (if_truthy (cb_sessionId body)) else None) = true)
         as Hfk
         by (destruct (cb_sessionId body) as [| |z]; cbn; auto;
             unfold truthy, truthy_Z; destruct Htarget as [->|Hz]; cbn; auto;
             destruct (z =? 0); cbn; auto).
  all: cbn [fk_set] in Hfk; rewrite Hfk; store_simpl.
  all: split; [reflexivity|].
  all: apply find_In in Hc as Hc'; destruct Hc' as [_ Hkey]; bool_facts.
  all: eexists; split;
    [unfold character_row; store_simpl;
     apply (find_replace Character.id id _ _ c); [reflexivity|exact Hc]|].
  all: cbn.
  all: repeat split; try reflexivity; try (intros; congruence).
  all: intros z Hz Hnz; rewrite Hz; cbn; unfold truthy, truthy_Z;
    rewrite (proj2 (Z.eqb_neq _ _) Hnz); reflexivity.
Qed.

Lemma updateCharacter_identity_lock_witness :
  status (fst (router alice (PUT_characters_id (Some 1) rename_body)
                 with_legolas)) = 403
  /\ status (fst (router alice (PUT_characters_id (Some 1) bury_body)
                    with_legolas)) = 200.
Proof.
  assert (~ isSessionAdmin with_legolas hunt_row alice_row) as Hno.
  { intros [p [Hin [_ [_ Hrole]]]]. vm_compute in Hin.
    destruct Hin as [<-|[<-|[]]]; discriminate. }
  split.
  - refine (proj1 (proj1 (updateCharacter_identity_lock with_legolas alice
                            alice_row 1 _ 1 hunt_row rename_body eq_refl
                            eq_refl eq_refl eq_refl eq_refl _ Hno) eq_refl)).
    discriminate.
  - refine (proj1 (proj2 (updateCharacter_identity_lock with_legolas alice
                            alice_row 1 _ 1 hunt_row bury_body eq_refl
                            eq_refl eq_refl eq_refl eq_refl _ Hno)
                     eq_refl _ _ I eq_refl)).
    all: discriminate.
Defined.

(** ** Cascading deletes (C5) *)

Section Cascade.
Context {A : Type}.
Implicit Types (l : list A) (key : A -> Z).

(** A key that [l] has and [l] without the rows satisfying [p] has not is
    the key of a deleted row. *)
Lemma deleted_key key (p : A -> bool) l id :
  existsb (fun x => key x =? id) l = true ->
  existsb (fun x => key x =? id) (filter (fun x => negb (p x)) l) = false ->
  In id (map key (filter p l)).
Proof.
  intros Hbefore Hafter. apply existsb_exists in Hbefore.
  destruct Hbefore as [x [Hin Hk]]. bool_facts.
  destruct (p x) eqn:Hp.
  - apply in_map_iff. exists x. split; [exact Hk|].
    apply filter_In. auto.
  - exfalso.
    assert (existsb (fun x => key x =? id)
              (filter (fun x => negb (p x)) l) = true) as H.
    { apply existsb_exists. exists x. split.
      - apply filter_In. rewrite Hp. auto.
      - apply Z.eqb_eq. exact Hk. }
    congruence.
Qed.

(** [ON DELETE RESTRICT] let the statement through: no row refers to a
    deleted key. *)
Lemma restrict_passed (ref : A -> Z) (gone : list Z) l id x :
  existsb (fun r => mem (ref r) gone) l = false ->
  In id gone -> In x l -> ref x <> id.
Proof.
  intros Hcheck Hgone Hin Href.
  pose proof (existsb_false_all _ _ x Hcheck Hin) as H. cbn in H.
  apply mem_In in Hgone. congruence.
Qed.

Lemma restrict_passed_eq (ref : A -> Z) l id x :
  existsb (fun r => ref r =? id) l = false -> In x l -> ref x <> id.
Proof.
  intros Hcheck Hin. pose proof (existsb_false_all _ _ x Hcheck Hin) as H.
  cbn in H. apply Z.eqb_neq. exact H.
Qed.

(** [ON DELETE SET NULL] left no reference to a deleted key. *)
Lemma set_null_done (ref : A -> option Z) (detach : A -> A) (gone : list Z)
  l id x :
  (forall y, ref (detach y) = if mem_opt (ref y) gone then None else ref y) ->
  In id gone -> In x (map detach l) -> ref x <> Some id.
Proof.
  intros Hdetach Hgone Hin. apply in_map_iff in Hin.
  destruct Hin as [y [<- _]]. rewrite Hdetach.
  destruct (mem_opt (ref y) gone) eqn:Hmem; [discriminate|].
  intros Href. rewrite Href in Hmem. cbn in Hmem.
  apply mem_In in Hgone. congruence.
Qed.

Lemma filtered_out (ref : A -> Z) l id x :
  In x (filter (fun r => negb (ref r =? id)) l) -> ref x <> id.
Proof. intros H. apply filter_In in H. destruct H. bool_facts. auto. Qed.

Lemma filtered_out_opt (ref : A -> option Z) l id x :
  In x (filter (fun r => negb (eq_opt (ref r) id)) l) -> ref x <> Some id.
Proof.
  intros H. apply filter_In in H. destruct H as [_ H]. bool_facts.
  intros Href. apply eq_opt_true in Href. congruence.
Qed.

End Cascade.

Lemma character_detach_ref gone c :
  Character.sessionId (character_detach gone c)
  = if mem_opt (Character.sessionId c) gone then None
    else Character.sessionId c.
Proof. unfold character_detach. destruct (mem_opt _ _); reflexivity. Qed.

Lemma participant_detach_ref gone p :
  SessionParticipants.characterId (participant_detach gone p)
  = if mem_opt (SessionParticipants.characterId p) gone then None
    else SessionParticipants.characterId p.
Proof. unfold participant_detach. destruct (mem_opt _ _); reflexivity. Qed.

Lemma diceRoll_detach_ref gone d :
  DiceRoll.characterId (diceRoll_detach gone d)
  = if mem_opt (DiceRoll.characterId d) gone then None
    else DiceRoll.characterId d.
Proof. unfold diceRoll_detach. destruct (mem_opt _ _); reflexivity. Qed.

Lemma character_detach_id gone c :
  Character.id (character_detach gone c) = Character.id c.
Proof. unfold character_detach. destruct (mem_opt _ _); reflexivity. Qed.

Lemma character_detach_userId gone c :
  Character.userId (character_detach gone c) = Character.userId c.
Proof. unfold character_detach. destruct (mem_opt _ _); reflexivity. Qed.

Lemma participant_detach_membership gone p :
  membership (participant_detach gone p) = membership p.
Proof. unfold participant_detach. destruct (mem_opt _ _); reflexivity. Qed.

Lemma participant_detach_userId gone p :
  SessionParticipants.userId (participant_detach gone p)
  = SessionParticipants.userId p.
Proof. unfold participant_detach. destruct (mem_opt _ _); reflexivity. Qed.

Lemma diceRoll_detach_userId gone d :
  DiceRoll.userId (diceRoll_detach gone d) = DiceRoll.userId d.
Proof. unfold diceRoll_detach. destruct (mem_opt _ _); reflexivity. Qed.

Lemma diceRoll_detach_sessionId gone d :
  DiceRoll.sessionId (diceRoll_detach gone d) = DiceRoll.sessionId d.
Proof. unfold diceRoll_detach. destruct (mem_opt _ _); reflexivity. Qed.

Ltac unfold_references :=
  unfold user_deleted, session_deleted, character_deleted, user_unreferenced,
    session_unreferenced, character_unreferenced, has_user, has_session,
    has_character in *;
  store_simpl.

Ltac no_reference :=
  let x := fresh "x" in
  let Hin := fresh "Hin" in
  intros x Hin;
  first
    [ eapply restrict_passed_eq; eassumption
    | eapply restrict_passed; eassumption
    | eapply set_null_done;
      [first [apply character_detach_ref | apply participant_detach_ref
             | apply diceRoll_detach_ref]
      | eassumption | eassumption] ].

(** After a delete that is answered 200, nothing refers to a row that the
    request removed. *)
Lemma deleted_rows_unreferenced st token req :
  is_delete req ->
  status (fst (router token req st)) = 200 ->
  let st' := snd (router token req st) in
  (forall id, user_deleted st st' id -> user_unreferenced st' id)
  /\ (forall id, session_deleted st st' id -> session_unreferenced st' id)
  /\ (forall id, character_deleted st st' id ->
        character_unreferenced st' id).
Proof.
  intros Hdel. cbv zeta.
  unfold router, sessionParticipantsRoutes_guard,
    middleware.isAuthenticated. cbv zeta.
  destruct (middleware.extractUserFromToken token st) as [u|];
    destruct req; try contradiction; try (cbn; discriminate).
  - unfold userController.deleteUser.
    run_handler; intros Hok; try discriminate.
    all: unfold_references; bool_facts.
    all: split; [|split]; intros key [Hbefore Hafter].
    all: try (rewrite (existsb_map_key Character.id) in Hafter
                by apply character_detach_id).
    all: apply deleted_key in Hafter; [|exact Hbefore].
    all: try (apply (In_map_filter_key User.id) in Hafter; subst key).
    all: repeat split; no_reference.
  - unfold characterController.deleteCharacter.
    run_handler; intros Hok; try discriminate.
    all: unfold_references; bool_facts.
    all: split; [|split]; intros key [Hbefore Hafter]; try congruence.
    all: apply deleted_key in Hafter; [|exact Hbefore].
    all: repeat split; no_reference.
  - unfold sessionController.deleteSession.
    run_handler; intros Hok; try discriminate.
    all: unfold_references; bool_facts.
    all: split; [|split]; intros key [Hbefore Hafter]; try congruence.
    all: try (rewrite !(existsb_map_key Character.id) in Hafter;
              [congruence
              |intros x; destruct (eq_opt _ _); reflexivity
              |apply character_detach_id]).
    all: apply deleted_key in Hafter; [|exact Hbefore].
    all: repeat split; no_reference.
Qed.

(** A delete that is answered 200 has removed the row it names. *)
Lemma delete_target_gone st token req :
  is_delete req ->
  status (fst (router token req st)) = 200 ->
  target_deleted req st (snd (router token req st)).
Proof.
  intros Hdel.
  unfold router, sessionParticipantsRoutes_guard,
    middleware.isAuthenticated. cbv zeta.
  destruct (middleware.extractUserFromToken token st) as [u|];
    destruct req as [| | |? ?|[id|]| | |[id|]| | | | |[id|]| | | | | |];
    try contradiction; try (cbn; discriminate).
  - unfold userController.deleteUser.
    run_handler; intros Hok; try discriminate.
    all: unfold target_deleted; unfold_references; bool_facts.
    all: split; [rewrite existsb_find; assumption|apply has_after_delete].
  - unfold characterController.deleteCharacter.
    run_handler; intros Hok; try discriminate.
    all: unfold target_deleted; unfold_references; bool_facts.
    all: split; [assumption|apply has_after_delete].
  - unfold sessionController.deleteSession.
    run_handler; intros Hok; try discriminate.
    all: unfold target_deleted; unfold_references; bool_facts.
    all: split; [assumption|apply has_after_delete].
Qed.

(** C5.  After a delete of a user, a session or a character that is
    answered 200, the row is gone and no row refers to it: no participant
    row, no dice roll, and for a session no character either.  The same
    holds of every row that went with it (with a user their characters
    and the sessions they ran; nothing refers to a deleted user, so none
    of these is left). *)
Theorem cascade_complete st token req :
  is_delete req ->
  status (fst (router token req st)) = 200 ->
  let st' := snd (router token req st) in
  target_deleted req st st'
  /\ target_unreferenced req st'
  /\ (forall id, user_deleted st st' id -> user_unreferenced st' id)
  /\ (forall id, session_deleted st st' id -> session_unreferenced st' id)
  /\ (forall id, character_deleted st st' id ->
        character_unreferenced st' id).
Proof.
  intros Hdel Hok. cbv zeta.
  pose proof (delete_target_gone st token req Hdel Hok) as Hgone.
  pose proof (deleted_rows_unreferenced st token req Hdel Hok)
    as [Husers [Hsessions Hcharacters]].
  split; [exact Hgone|]. split; [|auto].
  destruct req as [| | |? ?|[id|]| | |[id|]| | | | |[id|]| | | | | |];
    try contradiction; unfold target_deleted in Hgone;
    unfold target_unreferenced; auto.
Qed.

Lemma cascade_complete_witness :
  let st1 := snd (router alice (DELETE_sessions_id (Some 1)) with_roll) in
  let st2 := snd (router bob (DELETE_characters_id (Some 1)) with_roll) in
  let st3 := snd (router alice (DELETE_users_id (Some 1)) dragon_hunt) in
  map SessionParticipants.sessionId (participants with_roll) = [1; 1]
  /\ map SessionParticipants.characterId (participants with_roll)
     = [None; Some 1]
  /\ map DiceRoll.sessionId (diceRolls with_roll) = [1]
  /\ map DiceRoll.characterId (diceRolls with_roll) = [Some 1]
  /\ map Character.sessionId (characters with_roll) = [Some 1]
  /\ (session_deleted with_roll st1 1 /\ session_unreferenced st1 1)
  /\ (character_deleted with_roll st2 1 /\ character_unreferenced st2 1)
  /\ (user_deleted dragon_hunt st3 1 /\ user_unreferenced st3 1
      /\ session_deleted dragon_hunt st3 1 /\ session_unreferenced st3 1).
Proof.
  cbv zeta. do 5 (split; [reflexivity|]).
  destruct (cascade_complete with_roll alice (DELETE_sessions_id (Some 1))
              I eq_refl) as [Hgone1 [Hfree1 _]].
  destruct (cascade_complete with_roll bob (DELETE_characters_id (Some 1))
              I eq_refl) as [Hgone2 [Hfree2 _]].
  destruct (cascade_complete dragon_hunt alice (DELETE_users_id (Some 1))
              I eq_refl) as [Hgone3 [Hfree3 [_ [Hsessions _]]]].
  split; [exact (conj Hgone1 Hfree1)|].
  split; [exact (conj Hgone2 Hfree2)|].
  split; [exact Hgone3|]. split; [exact Hfree3|].
  assert (session_deleted dragon_hunt
            (snd (router alice (DELETE_users_id (Some 1)) dragon_hunt)) 1)
    as Hs by (split; reflexivity).
  split; [exact Hs|exact (Hsessions 1 Hs)].
Defined.

(** A game-master alone in their session can delete their account: the
    session goes with it. *)
Example deleteUser_game_master_alone :
  let r := router alice (DELETE_users_id (Some 1)) dragon_hunt in
  status (fst r) = 200
  /\ sessions (snd r) = [] /\ participants (snd r) = []
  /\ map User.id (users (snd r)) = [2; 3].
Proof. vm_compute. auto. Qed.

(** Once Bob has joined, the foreign key of his row restricts the deletion
    of Alice's session: her request ends in 500, after her own participant
    row was removed. *)
Example deleteUser_game_master_restricted :
  let r := router alice (DELETE_users_id (Some 1)) with_bob in
  fst r = mkResponse 500 false "Erreur lors de la suppression de l'utilisateur"
            (PError P2003)
  /\ map User.id (users (snd r)) = [1; 2; 3]
  /\ map Session.id (sessions (snd r)) = [1]
  /\ map membership (participants (snd r)) = [(1, 2)].
Proof. vm_compute. auto. Qed.

(** ** One participant row per session and user (C6) *)

Lemma session_keys_bound st : session_keys_ok st -> session_bound st.
Proof.
  intros [Hs Hp]. split; [exact Hs|].
  intros p Hin. specialize (Hp p Hin). unfold has_session in Hp.
  apply existsb_exists in Hp. destruct Hp as [s [Hin' Hid]]. bool_facts.
  rewrite <- Hid. apply Hs. exact Hin'.
Qed.

Section Unique.
Implicit Types (l : list SessionParticipants.t) (p q : SessionParticipants.t).

Lemma unique_filter (f : SessionParticipants.t -> bool) l :
  NoDup (map membership l) -> NoDup (map membership (filter f l)).
Proof.
  induction l as [|a l IH]; cbn; [auto|].
  intros H. inversion H as [|? ? Hnotin Hnd]; subst.
  destruct (f a); cbn; [|auto]. constructor; [|auto].
  intros Hin. apply Hnotin. apply in_map_iff in Hin.
  destruct Hin as [x [Hx Hin]]. apply filter_In in Hin.
  apply in_map_iff. exists x. tauto.
Qed.

Lemma unique_map (f : SessionParticipants.t -> SessionParticipants.t) l :
  (forall x, membership (f x) = membership x) ->
  NoDup (map membership l) -> NoDup (map membership (map f l)).
Proof.
  intros Hf Hnd. rewrite map_map.
  rewrite (map_ext (fun x => membership (f x)) membership Hf). exact Hnd.
Qed.

Lemma unique_replace id (f : SessionParticipants.t -> SessionParticipants.t)
  l :
  (forall x, membership (f x) = membership x) ->
  NoDup (map membership l) ->
  NoDup (map membership (replace SessionParticipants.id id f l)).
Proof.
  intros Hf. unfold replace. apply unique_map.
  intros x. destruct (_ =? _); auto.
Qed.

Lemma unique_snoc l p :
  NoDup (map membership l) ->
  (forall q, In q l -> membership q <> membership p) ->
  NoDup (map membership (l ++ [p])).
Proof.
  intros Hnd Hnew. rewrite map_app. cbn.
  apply NoDup_app.
  - exact Hnd.
  - repeat constructor. intros [].
  - intros x Hin [<-|[]]. apply in_map_iff in Hin.
    destruct Hin as [q [Hq Hin]]. exact (Hnew q Hin Hq).
Qed.

Lemma not_a_member l sid uid q :
  truthy (find (member_of sid uid) l) = false ->
  In q l -> membership q <> (sid, uid).
Proof.
  rewrite <- existsb_find. intros Hnone Hin Heq.
  pose proof (existsb_false_all _ _ q Hnone Hin) as H.
  unfold member_of, membership in *. injection Heq as Hs Hu.
  rewrite Hs, Hu, !Z.eqb_refl in H. discriminate.
Qed.

End Unique.

Ltac unfold_handlers :=
  unfold userController.register, userController.login,
    userController.getUserById, userController.updateUser,
    userController.deleteUser,
    characterController.createCharacter, characterController.updateCharacter,
    characterController.deleteCharacter,
    characterController.associateWithSession,
    sessionController.createSession, sessionController.getSessionById,
    sessionController.updateSession, sessionController.addParticipant,
    sessionController.deleteSession, sessionController.removeParticipant,
    sessionParticipantsController.addParticipant,
    sessionParticipantsController.removeParticipant,
    sessionParticipantsController.updateParticipant,
    sessionParticipantsController.session_with_participants,
    diceRollController.rollDice, calculateDiceRoll, session_of.

(** Which row of which table an [In] hypothesis speaks of. *)
Ltac in_cases :=
  repeat match goal with
  | H : In _ (_ ++ _) |- _ => apply in_app_iff in H; destruct H as [H|H]
  | H : In _ (filter _ _) |- _ => apply filter_In in H; destruct H as [H _]
  | H : In _ (replace _ _ _ _) |- _ => unfold replace in H
  | H : In _ (map _ _) |- _ =>
    let y := fresh "y" in
    apply in_map_iff in H; destruct H as [y [<- H]]
  | H : In _ [_] |- _ => destruct H as [<-|[]]
  end.

Ltac keep_key :=
  repeat match goal with
  | |- context [if ?b then _ else _] => destruct b
  end;
  rewrite ?participant_detach_membership, ?participant_detach_userId,
    ?character_detach_id, ?character_detach_userId, ?diceRoll_detach_userId,
    ?diceRoll_detach_sessionId;
  cbn.

Lemma participant_detach_sessionId gone p :
  SessionParticipants.sessionId (participant_detach gone p)
  = SessionParticipants.sessionId p.
Proof. unfold participant_detach. destruct (mem_opt _ _); reflexivity. Qed.

Ltac solve_bound Hb :=
  let x := fresh "x" in
  let Hin := fresh "Hin" in
  intros x Hin; in_cases;
  repeat match goal with
  | |- context [if ?b then _ else _] => destruct b
  end;
  rewrite ?participant_detach_sessionId; cbn;
  try match goal with
  | H : In ?y _ |- _ =>
    first [pose proof (proj1 Hb y H) | pose proof (proj2 Hb y H)]
  end;
  try lia.

Ltac solve_unique Hb Hu :=
  repeat first
    [ exact Hu
    | apply unique_filter
    | apply unique_map; [apply participant_detach_membership|]
    | apply unique_replace; [reflexivity|]
    | apply unique_snoc ].

Lemma not_a_member_found l sid uid q :
  find (member_of sid uid) l = None ->
  In q l -> membership q <> (sid, uid).
Proof. intros H. apply not_a_member. rewrite H. reflexivity. Qed.

Ltac solve_new Hb :=
  let q := fresh "q" in
  let Hin := fresh "Hin" in
  intros q Hin;
  first
    [ eapply not_a_member; eassumption
    | eapply not_a_member_found; eassumption
    | pose proof (proj2 Hb q Hin); unfold membership; cbn;
      intros [= ? ?]; lia ].

Lemma router_keeps_unique token req st :
  session_bound st -> unique_participants st ->
  let st' := snd (router token req st) in
  session_bound st' /\ unique_participants st'.
Proof.
  intros Hb Hu. cbv zeta.
  unfold router, sessionParticipantsRoutes_guard,
    middleware.isAuthenticated. cbv zeta.
  destruct (middleware.extractUserFromToken token st) as [u|];
    destruct req; try (split; assumption).
  all: unfold_handlers; run_handler.
  all: try (split; assumption).
  all: unfold session_bound, unique_participants in *; store_simpl.
  all: split; [split; solve_bound Hb|solve_unique Hb Hu].
  all: try solve_new Hb.
  all: match goal with
       | H : find _ (sessions _) = Some ?t |- _ =>
         apply find_In in H; destruct H as [Hin Hid]; bool_facts;
         pose proof (proj1 Hb t Hin); lia
       end.
Qed.

Lemma serve_keeps_unique reqs st :
  session_bound st -> unique_participants st ->
  session_bound (serve reqs st) /\ unique_participants (serve reqs st).
Proof.
  revert st. induction reqs as [|[token req] reqs IH]; intros st Hb Hu.
  - auto.
  - cbn [serve]. destruct (router_keeps_unique token req st Hb Hu).
    apply IH; assumption.
Qed.

(** C6.  Starting from a database without duplicate participants, after
    any sequence of requests served one after the other no two participant
    rows share a session and a user; in particular after each single
    request, whichever handler it reaches (session creation, the two
    add-participant handlers and character association included). *)
Theorem participants_stay_unique reqs st :
  session_keys_ok st ->
  unique_participants st ->
  unique_participants (serve reqs st)
  /\ (forall token req, unique_participants (snd (router token req st))).
Proof.
  intros Hk Hu. apply session_keys_bound in Hk. split.
  - apply serve_keeps_unique; assumption.
  - intros token req. apply router_keeps_unique; assumption.
Qed.

Lemma participants_stay_unique_witness :
  unique_participants
    (serve [(bob, POST_sessions_id_participants (Some 1) (join 2 "joueur"));
            (bob, POST_session_participants (join_session 1 2 "admin"));
            (carol, POST_session_participants (join_session 1 3 "joueur"));
            (carol, POST_characters (new_character "Arwen"));
            (carol, PUT_characters_id_assign_session (Some 1) (Val 1))]
       dragon_hunt).
Proof.
  refine (proj1 (participants_stay_unique _ dragon_hunt _ _)).
  - split.
    + intros s Hin. vm_compute in Hin. destruct Hin as [<-|[]]. reflexivity.
    + intros p Hin. vm_compute in Hin. destruct Hin as [<-|[]]. reflexivity.
  - unfold unique_participants. vm_compute.
    repeat constructor; cbn; intuition discriminate.
Defined.

(** ** Dice (C8) *)

(** *** The format *)

Lemma append_assoc (a b c : string) :
  ((a ++ b) ++ c = a ++ (b ++ c))%string.
Proof.
  induction a as [|x a IH]; cbn; [reflexivity|]. rewrite IH. reflexivity.
Qed.

Lemma append_nil_r (a : string) : (a ++ "")%string = a.
Proof.
  induction a as [|x a IH]; cbn; [reflexivity|]. rewrite IH. reflexivity.
Qed.

Lemma all_digits_app a b :
  all_digits (a ++ b) = all_digits a && all_digits b.
Proof.
  induction a as [|x a IH]; cbn [append all_digits]; [reflexivity|].
  rewrite IH, andb_assoc. reflexivity.
Qed.

Lemma numeral_digits s :
  numeral s <-> all_digits s = true /\ s <> EmptyString.
Proof.
  unfold numeral. split.
  - intros H. remember (Plus (Chr is_digit)) as r eqn:Er.
    induction H as [| | r0 s0 H _| r0 s1 s2 H1 _ H2 IH | |];
      try discriminate; injection Er as ->.
    + inversion H as [p c Hc| | | | |]; subst. cbn [all_digits]. rewrite Hc.
      split; [reflexivity|discriminate].
    + inversion H1 as [p c Hc| | | | |]; subst.
      destruct (IH eq_refl) as [Hd _]. cbn [append all_digits].
      rewrite Hc, Hd. split; [reflexivity|discriminate].
  - intros [Hd Hne]. induction s as [|c s IH]; [contradiction|].
    cbn [all_digits] in Hd. apply andb_true_iff in Hd. destruct Hd as [Hc Hd].
    destruct s as [|c' s'].
    + apply matches_plus_one. constructor. exact Hc.
    + change (String c (String c' s'))
        with (String c EmptyString ++ String c' s')%string.
      apply matches_plus_more.
      * constructor. exact Hc.
      * apply IH; [exact Hd|discriminate].
Qed.

(** [span_digits] splits off the digits in front. *)
Lemma span_digits_app n r :
  all_digits n = true -> starts_with_digit r = false ->
  span_digits (n ++ r) = (n, r).
Proof.
  intros Hn Hr. induction n as [|c n IH]; cbn [append span_digits].
  - destruct r as [|c r]; [reflexivity|]. cbn [starts_with_digit] in Hr.
    cbn [span_digits]. rewrite Hr. reflexivity.
  - cbn [all_digits] in Hn. apply andb_true_iff in Hn. destruct Hn as [Hc Hn].
    rewrite Hc, (IH Hn). reflexivity.
Qed.

Lemma span_digits_split s d r :
  span_digits s = (d, r) ->
  s = (d ++ r)%string /\ all_digits d = true /\ starts_with_digit r = false.
Proof.
  revert d r. induction s as [|c s IH]; cbn [span_digits]; intros d r.
  - intros [= <- <-]. auto.
  - destruct (is_digit c) eqn:Hc.
    + destruct (span_digits s) as [d' r'] eqn:Hs. intros [= <- <-].
      destruct (IH d' r' eq_refl) as [-> [Hd Hr]].
      cbn [append all_digits]. rewrite Hc. auto.
    + intros [= <- <-]. cbn [append all_digits starts_with_digit].
      rewrite Hc. auto.
Qed.

Lemma digits1_app n r :
  numeral n -> starts_with_digit r = false ->
  digits1 (n ++ r) = Some (n, r).
Proof.
  intros Hn Hr. apply numeral_digits in Hn. destruct Hn as [Hd Hne].
  unfold digits1. rewrite (span_digits_app n r Hd Hr).
  destruct n; [contradiction|reflexivity].
Qed.

Lemma digits1_split s d r :
  digits1 s = Some (d, r) ->
  s = (d ++ r)%string /\ numeral d /\ starts_with_digit r = false.
Proof.
  unfold digits1. destruct (span_digits s) as [d' r'] eqn:Hs.
  destruct d' as [|c d']; [discriminate|]. intros [= <- <-].
  destruct (span_digits_split s _ _ Hs) as [-> [Hd Hr]].
  split; [reflexivity|]. split; [|exact Hr].
  apply numeral_digits. split; [exact Hd|discriminate].
Qed.

Lemma is_d_spec c : is_d c = true <-> c = "d"%char.
Proof.
  unfold is_d. rewrite Nat.eqb_eq. split.
  - intros H. rewrite <- (ascii_nat_embedding c), H. reflexivity.
  - intros ->. reflexivity.
Qed.

Lemma is_d_not_digit c : is_d c = true -> is_digit c = false.
Proof. intros H. apply is_d_spec in H. subst. reflexivity. Qed.

Lemma is_sign_not_digit c : is_sign c = true -> is_digit c = false.
Proof.
  unfold is_sign, is_digit. intros H. apply orb_true_iff in H.
  destruct H as [H|H]; apply Nat.eqb_eq in H; rewrite H; reflexivity.
Qed.

Lemma modifier_starts k :
  modifier_ok k -> starts_with_digit (modifier_text k) = false.
Proof.
  destruct k as [[c d]|]; cbn; [|reflexivity].
  intros [Hc _]. apply is_sign_not_digit. exact Hc.
Qed.

Lemma opt_modifier_text k :
  modifier_ok k ->
  opt_modifier (modifier_text k)
  = (option_map (fun cd => String (fst cd) (snd cd)) k, EmptyString).
Proof.
  destruct k as [[c d]|]; cbn; [|reflexivity].
  intros [Hc Hd]. rewrite Hc.
  rewrite <- (append_nil_r d) at 1.
  rewrite (digits1_app d EmptyString Hd eq_refl). reflexivity.
Qed.

(** The groups of an expression in the format. *)
Lemma match_here_format n m k :
  numeral n -> numeral m -> modifier_ok k ->
  match_here (n ++ "d" ++ m ++ modifier_text k)
  = Some (mkGroups n m
            (option_map (fun cd => String (fst cd) (snd cd)) k),
          EmptyString).
Proof.
  intros Hn Hm Hk. unfold match_here.
  rewrite (digits1_app n _ Hn) by reflexivity. cbn [append].
  change (is_d "d") with true. cbv iota.
  rewrite (digits1_app m _ Hm) by (apply modifier_starts; exact Hk).
  rewrite (opt_modifier_text k Hk). reflexivity.
Qed.

Lemma match_here_split s g rest :
  match_here s = Some (g, rest) ->
  exists k,
    numeral (g1 g) /\ numeral (g2 g) /\ modifier_ok k
    /\ g3 g = option_map (fun cd => String (fst cd) (snd cd)) k
    /\ s = (g1 g ++ "d" ++ g2 g ++ modifier_text k ++ rest)%string.
Proof.
  unfold match_here.
  destruct (digits1 s) as [[n [|c r]]|] eqn:H1; try discriminate.
  destruct (is_d c) eqn:Hc; [|discriminate].
  destruct (digits1 r) as [[m r']|] eqn:H2; [|discriminate].
  destruct (opt_modifier r') as [k rest'] eqn:H3. intros [= <- <-].
  apply digits1_split in H1. destruct H1 as [-> [Hn _]].
  apply digits1_split in H2. destruct H2 as [-> [Hm _]].
  apply is_d_spec in Hc. subst c. cbn [g1 g2 g3].
  unfold opt_modifier in H3. destruct r' as [|c r'].
  - injection H3 as <- <-. exists None. cbn. auto.
  - destruct (is_sign c) eqn:Hsign.
    + destruct (digits1 r') as [[d r'']|] eqn:H4.
      * injection H3 as <- <-. apply digits1_split in H4.
        destruct H4 as [-> [Hd _]]. exists (Some (c, d)). cbn. auto.
      * injection H3 as <- <-. exists None. cbn. auto.
    + injection H3 as <- <-. exists None. cbn. auto.
Qed.

Lemma matches_modifier s :
  matches (Opt (Cat (Chr is_sign) (Plus (Chr is_digit)))) s <->
  exists k, modifier_ok k /\ s = modifier_text k.
Proof.
  split.
  - intros H. inversion H as [| | | | |? ? H']; subst.
    + exists None. cbn. auto.
    + inversion H' as [|? ? ? ? Hc Hd| | | |]; subst.
      inversion Hc; subst. exists (Some (c, s2)). cbn. auto.
  - intros [[[c d]|] [Hk ->]]; cbn in *.
    + destruct Hk as [Hc Hd]. apply matches_opt_some.
      change (String c d) with (String c EmptyString ++ d)%string.
      apply matches_cat; [constructor; exact Hc|exact Hd].
    + constructor.
Qed.

(** The expressions of the format are a numeral, the letter d, a numeral
    and possibly a signed numeral. *)
Lemma dice_format_shape s :
  matches dice_format s <->
  exists n m k,
    numeral n /\ numeral m /\ modifier_ok k
    /\ s = (n ++ "d" ++ m ++ modifier_text k)%string.
Proof.
  unfold dice_format. split.
  - intros H. inversion H as [|? ? n ? Hn H1| | | |]; subst.
    inversion H1 as [|? ? ? ? Hd H2| | | |]; subst.
    inversion Hd as [? c Hc| | | | |]; subst. apply is_d_spec in Hc. subst c.
    inversion H2 as [|? ? m ? Hm H3| | | |]; subst.
    apply matches_modifier in H3. destruct H3 as [k [Hk ->]].
    exists n, m, k. auto.
  - intros [n [m [k [Hn [Hm [Hk ->]]]]]].
    apply matches_cat; [exact Hn|].
    change ("d" ++ m ++ modifier_text k)%string
      with (String "d" EmptyString ++ (m ++ modifier_text k))%string.
    apply matches_cat.
    + constructor. reflexivity.
    + apply matches_cat; [exact Hm|]. apply matches_modifier. eauto.
Qed.

(** [test_format] decides the format. *)
Lemma test_format_spec s : test_format s = true <-> matches dice_format s.
Proof.
  rewrite dice_format_shape. unfold test_format. split.
  - destruct (match_here s) as [[g [|c rest]]|] eqn:H; try discriminate.
    intros _. apply match_here_split in H.
    destruct H as [k [Hn [Hm [Hk [_ ->]]]]].
    exists (g1 g), (g2 g), k. rewrite append_nil_r. auto.
  - intros [n [m [k [Hn [Hm [Hk ->]]]]]].
    rewrite (match_here_format n m k Hn Hm Hk). reflexivity.
Qed.

Lemma match_anywhere_here s g rest :
  match_here s = Some (g, rest) -> match_anywhere s = Some g.
Proof.
  intros H. destruct s as [|c s]; [discriminate H|].
  cbn [match_anywhere]. rewrite H. reflexivity.
Qed.

(** *** The numbers *)

Lemma digit_value_range c : is_digit c = true -> 0 <= digit_value c <= 9.
Proof.
  unfold is_digit, digit_value. intros H. apply andb_true_iff in H.
  destruct H as [H1 H2]. apply Nat.leb_le in H1, H2. lia.
Qed.

Lemma parse_digits_nonneg s acc :
  all_digits s = true -> 0 <= acc -> 0 <= parse_digits acc s.
Proof.
  revert acc. induction s as [|c s IH]; cbn [parse_digits all_digits];
    intros acc Hd Hacc; [exact Hacc|].
  apply andb_true_iff in Hd. destruct Hd as [Hc Hd].
  apply IH; [exact Hd|]. pose proof (digit_value_range c Hc). lia.
Qed.

Lemma numeral_nonneg n : numeral n -> 0 <= parse_digits 0 n.
Proof.
  intros H. apply numeral_digits in H. destruct H as [Hd _].
  apply parse_digits_nonneg; [exact Hd|lia].
Qed.

Lemma parseInt_numeral n : numeral n -> parseInt n = parse_digits 0 n.
Proof.
  intros H. apply numeral_digits in H. destruct H as [Hd Hne].
  destruct n as [|c n]; [contradiction|]. cbn [all_digits] in Hd.
  apply andb_true_iff in Hd. destruct Hd as [Hc _].
  unfold parseInt. unfold is_digit in Hc. apply andb_true_iff in Hc.
  destruct Hc as [H1 H2]. apply Nat.leb_le in H1, H2.
  destruct (Nat.eqb_spec (nat_of_ascii c) 45); [lia|].
  destruct (Nat.eqb_spec (nat_of_ascii c) 43); [lia|]. reflexivity.
Qed.

Lemma parseInt_modifier k :
  modifier_ok k ->
  match option_map (fun cd => String (fst cd) (snd cd)) k with
  | Some t => parseInt t
  | None => 0
  end = modifier_value k.
Proof.
  destruct k as [[c d]|]; cbn [option_map modifier_value fst snd];
    [|reflexivity].
  intros [Hc _]. unfold parseInt, is_sign in *.
  destruct (nat_of_ascii c =? 45)%nat; [reflexivity|].
  destruct (nat_of_ascii c =? 43)%nat; [reflexivity|discriminate].
Qed.

Lemma round_half_even_le q : (inject_Z (round_half_even q) <= q + (1 # 2))%Q.
Proof.
  unfold round_half_even. pose proof (Qfloor_le q) as Hf.
  destruct (Qcompare_spec (q - inject_Z (Qfloor q)) (1 # 2)) as [He|Hl|Hg].
  - destruct (Z.even (Qfloor q)); [lra|]. rewrite inject_Z_plus.
    change (inject_Z 1) with 1%Q. lra.
  - lra.
  - rewrite inject_Z_plus. change (inject_Z 1) with 1%Q. lra.
Qed.

Lemma round_half_even_nonneg q : (0 <= q)%Q -> 0 <= round_half_even q.
Proof.
  intros Hq. assert (0 <= Qfloor q) as Hf.
  { change 0 with (Qfloor 0). apply Qfloor_resp_le. exact Hq. }
  unfold round_half_even.
  destruct (Qcompare _ _); [destruct (Z.even _)| |]; lia.
Qed.

Lemma inject_Z_pow_pos n : 0 <= n -> (0 < inject_Z (2 ^ n))%Q.
Proof.
  intros Hn. change 0%Q with (inject_Z 0). rewrite <- Zlt_Qlt.
  apply Z.pow_pos_nonneg; lia.
Qed.

(** The quantum of the double nearest to [y] units is small beside any
    bound on [y]. *)
Lemma quantum_small F B :
  0 <= F < B * 2 ^ 52 -> 1 < B ->
  2 ^ Z.max 0 (Z.log2 F + 1 - 53) < B.
Proof.
  intros [HF HB] Hpos.
  destruct (Z.max_spec 0 (Z.log2 F + 1 - 53)) as [[Hs ->]|[Hs ->]].
  - assert (0 < F) as HFpos.
    { destruct (Z.eq_dec F 0) as [->|]; [cbn in Hs; lia|lia]. }
    pose proof (Z.log2_spec F HFpos) as [Hlo _].
    replace (Z.log2 F) with ((Z.log2 F + 1 - 53) + 52) in Hlo by lia.
    rewrite Z.pow_add_r in Hlo by lia.
    assert (2 ^ (Z.log2 F + 1 - 53) * 2 ^ 52 < B * 2 ^ 52) as Hlt by lia.
    apply Z.mul_lt_mono_pos_r in Hlt; [lia|]. apply Z.pow_pos_nonneg; lia.
  - cbn. lia.
Qed.

(** One die: [Math.floor(Math.random() * sides) + 1].  The product is
    rounded to a double, which can move the roll by one but not out of
    [1 .. sides]: the rounding error is at most [2^-53] of the product,
    and [Math.random()] stays [2^-53] away from 1. *)
Lemma die_range q sides :
  (0 <= q)%Q -> (q <= 1 - (1 # 9007199254740992))%Q -> 0 < sides ->
  1 <= Qfloor (double (q * inject_Z sides)) + 1 <= sides.
Proof.
  intros H0 H1 Hs. unfold double.
  set (y := (q * inject_Z sides * inject_Z (2 ^ 1074))%Q).
  set (s := Z.max 0 (Z.log2 (Qfloor y) + 1 - 53)).
  set (R := round_half_even (y / inject_Z (2 ^ s))).
  pose proof (inject_Z_pow_pos 1074 ltac:(lia)) as Hu.
  assert (0 <= s) as Hs0 by (unfold s; lia).
  pose proof (inject_Z_pow_pos s Hs0) as Hq.
  assert (0 < inject_Z sides)%Q as HM
    by (change 0%Q with (inject_Z 0); rewrite <- Zlt_Qlt; exact Hs).
  assert (0 <= y)%Q as Hy.
  { unfold y. apply Qmult_le_0_compat; [|lra].
    apply Qmult_le_0_compat; lra. }
  (* y <= M * 2^1074 - M * 2^1021 *)
  assert (y <= inject_Z (sides * 2 ^ 1074) - inject_Z (sides * 2 ^ 1021))%Q
    as Hyhi.
  { unfold y. rewrite !inject_Z_mult.
    assert (inject_Z (2 ^ 1074) == inject_Z (2 ^ 1021) * 9007199254740992)%Q
      as E.
    { change 9007199254740992%Q with (inject_Z (2 ^ 53)).
      rewrite <- inject_Z_mult, <- Z.pow_add_r by lia. reflexivity. }
    pose proof (inject_Z_pow_pos 1021 ltac:(lia)) as Hv.
    set (v := inject_Z (2 ^ 1021)) in *. set (w := inject_Z (2 ^ 1074)) in *.
    set (m := inject_Z sides) in *.
    assert (q * m <= m - m * (1 # 9007199254740992))%Q as Hqm.
    { setoid_replace (m - m * (1 # 9007199254740992))%Q
        with ((1 - (1 # 9007199254740992)) * m)%Q by ring.
      apply Qmult_le_r; assumption. }
    apply Qle_trans with ((m - m * (1 # 9007199254740992)) * w)%Q.
    - apply Qmult_le_r; assumption.
    - rewrite E.
      assert ((m - m * (1 # 9007199254740992)) * (v * 9007199254740992)
              == m * (v * 9007199254740992) - m * v)%Q as -> by ring.
      apply Qle_refl. }
  assert (0 <= Qfloor y) as HF0.
  { change 0 with (Qfloor 0). apply Qfloor_resp_le. exact Hy. }
  assert (0 < inject_Z (sides * 2 ^ 1021))%Q as Hmv.
  { change 0%Q with (inject_Z 0). rewrite <- Zlt_Qlt.
    apply Z.mul_pos_pos; [lia|]. apply Z.pow_pos_nonneg; lia. }
  assert (Qfloor y < sides * 2 ^ 1074) as HFlt.
  { rewrite Zlt_Qlt. apply Qle_lt_trans with y; [apply Qfloor_le|].
    set (a := inject_Z (sides * 2 ^ 1074)) in *.
    set (b := inject_Z (sides * 2 ^ 1021)) in *. lra. }
  assert (Qfloor y < (sides * 2 ^ 1022) * 2 ^ 52) as HFhi.
  { replace (sides * 2 ^ 1022 * 2 ^ 52) with (sides * 2 ^ 1074);
      [exact HFlt|].
    rewrite <- Z.mul_assoc, <- Z.pow_add_r by lia. reflexivity. }
  assert (2 ^ s < sides * 2 ^ 1022) as Hquantum.
  { apply quantum_small; [lia|].
    assert (1 < 2 ^ 1022) by (apply Z.pow_gt_1; lia). nia. }
  (* the rounded value, in units *)
  assert (0 <= R) as HR0.
  { apply round_half_even_nonneg. apply Qle_shift_div_l; lra. }
  assert (inject_Z (R * 2 ^ s) <= y + inject_Z (2 ^ s) * (1 # 2))%Q as HD.
  { rewrite inject_Z_mult. pose proof (round_half_even_le (y / inject_Z (2 ^ s)))
      as Hr. fold R in Hr.
    apply Qle_trans with ((y / inject_Z (2 ^ s) + (1 # 2)) * inject_Z (2 ^ s))%Q.
    - apply Qmult_le_r; assumption.
    - assert ((y / inject_Z (2 ^ s) + (1 # 2)) * inject_Z (2 ^ s)
              == y + inject_Z (2 ^ s) * (1 # 2))%Q as ->
        by (field; lra).
      apply Qle_refl. }
  assert (inject_Z (R * 2 ^ s) < inject_Z (sides * 2 ^ 1074))%Q as HDlt.
  { assert (inject_Z (2 ^ s) * (1 # 2) < inject_Z (sides * 2 ^ 1021))%Q.
    { assert (inject_Z (2 ^ s) < inject_Z (sides * 2 ^ 1022))%Q as Hle
        by (rewrite <- Zlt_Qlt; exact Hquantum).
      assert (inject_Z (sides * 2 ^ 1022) == 2 * inject_Z (sides * 2 ^ 1021))%Q
        as E.
      { change 2%Q with (inject_Z 2). rewrite <- inject_Z_mult.
        replace (2 * (sides * 2 ^ 1021)) with (sides * 2 ^ 1022); [reflexivity|].
        change (2 ^ 1022) with (2 ^ (1 + 1021)).
        rewrite Z.pow_add_r by lia. change (2 ^ 1) with 2. ring. }
      assert (0 < inject_Z (sides * 2 ^ 1021))%Q.
      { change 0%Q with (inject_Z 0). rewrite <- Zlt_Qlt.
        apply Z.mul_pos_pos; [lia|]. apply Z.pow_pos_nonneg; lia. }
      lra. }
    lra. }
  set (w := inject_Z (2 ^ 1074)) in *.
  assert (inject_Z (R * 2 ^ s) / w < inject_Z sides)%Q as Hbelow.
  { apply Qlt_shift_div_r; [exact Hu|]. unfold w.
    rewrite <- inject_Z_mult. exact HDlt. }
  assert (0 <= inject_Z (R * 2 ^ s) / w)%Q as Hnonneg.
  { apply Qle_shift_div_l; [exact Hu|]. rewrite Qmult_0_l.
    change 0%Q with (inject_Z 0). rewrite <- Zle_Qle.
    apply Z.mul_nonneg_nonneg; [exact HR0|]. apply Z.pow_nonneg. lia. }
  split.
  - apply Qfloor_resp_le in Hnonneg. change (Qfloor 0) with 0 in Hnonneg.
    lia.
  - pose proof (Qfloor_le (inject_Z (R * 2 ^ s) / w)) as Hf.
    assert (inject_Z (Qfloor (inject_Z (R * 2 ^ s) / w)) < inject_Z sides)%Q
      as Hlt by (eapply Qle_lt_trans; eassumption).
    rewrite <- Zlt_Qlt in Hlt. lia.
Qed.

Lemma sum_list_app l1 l2 : sum_list (l1 ++ l2) = sum_list l1 + sum_list l2.
Proof.
  unfold sum_list. induction l1 as [|a l1 IH]; cbn; [reflexivity|].
  fold (sum_list (l1 ++ l2)) in *. lia.
Qed.

(** The loop: [todo] more dice are cast, each in range, and the running
    sum follows. *)
Lemma roll_loop_spec rnd sides todo :
  unit_interval rnd -> 0 < sides ->
  forall i rolls sum,
  exists new,
    roll_loop rnd sides todo i rolls sum
    = ((rolls ++ new)%list, sum + sum_list new)
    /\ List.length new = todo
    /\ Forall (fun x => 1 <= x <= sides) new.
Proof.
  intros Hrnd Hs. induction todo as [|todo IH]; intros i rolls sum.
  - exists []. cbn. rewrite app_nil_r, Z.add_0_r. auto.
  - cbn [roll_loop].
    destruct (IH (S i)
                (rolls ++ [Qfloor (double (rnd i * inject_Z sides)) + 1])%list
                (sum + (Qfloor (double (rnd i * inject_Z sides)) + 1)))
      as [new [Heq [Hlen Hall]]].
    exists ((Qfloor (double (rnd i * inject_Z sides)) + 1) :: new).
    split; [|split].
    + rewrite Heq, <- app_assoc. cbn [app sum_list fold_right].
      fold (sum_list new). f_equal. lia.
    + cbn. rewrite Hlen. reflexivity.
    + constructor; [|exact Hall].
      destruct (Hrnd i) as [H0 H1]. apply die_range; assumption.
Qed.

Example parse_digits_12 : parse_digits 0 "12" = 12.
Proof. reflexivity. Qed.

Example parseInt_minus_3 : parseInt "-3" = -3.
Proof. reflexivity. Qed.

(** The double nearest to 0.7, times 10, is rounded to 7: the die shows
    8, where the exact product stays below 7. *)
Example roll_of_seven_tenths :
  let r := (6305039478318694 # 9007199254740992)%Q in
  roll_loop (fun _ => r) 10 1 0 [] 0 = ([8], 8)
  /\ Qfloor (r * inject_Z 10) + 1 = 7.
Proof. vm_compute. split; reflexivity. Qed.

Example calculateDiceRoll_3d8 :
  fst (calculateDiceRoll half "3d8+2" empty_store)
  = Next (17, Details.mk "3d8+2" [5; 5; 5] 2 17).
Proof. reflexivity. Qed.

(** [calculateDiceRoll] on an expression of the format. *)
Lemma calculateDiceRoll_spec rnd n m k st :
  unit_interval rnd ->
  numeral n -> numeral m -> modifier_ok k ->
  let expr := (n ++ "d" ++ m ++ modifier_text k)%string in
  let N := parse_digits 0 n in
  let M := parse_digits 0 m in
  let K := modifier_value k in
  (N = 0 \/ M = 0 -> exists e, calculateDiceRoll rnd expr st = (Thrown e, st))
  /\ (0 < N -> 0 < M ->
      exists rolls,
        calculateDiceRoll rnd expr st
        = (Next (sum_list rolls + K,
                 Details.mk expr rolls K (sum_list rolls + K)), st)
        /\ Z.of_nat (List.length rolls) = N
        /\ Forall (fun x => 1 <= x <= M) rolls).
Proof.
  intros Hrnd Hn Hm Hk. cbv zeta. unfold calculateDiceRoll.
  rewrite (match_anywhere_here _ _ _ (match_here_format n m k Hn Hm Hk)).
  cbn [g1 g2 g3]. rewrite (parseInt_numeral n Hn), (parseInt_numeral m Hm).
  rewrite (parseInt_modifier k Hk).
  pose proof (numeral_nonneg n Hn) as HN.
  pose proof (numeral_nonneg m Hm) as HM.
  split.
  - intros Hzero.
    assert ((parse_digits 0 n <=? 0) || (parse_digits 0 m <=? 0) = true) as ->.
    { apply orb_true_iff. destruct Hzero as [-> | ->]; auto. }
    eexists. reflexivity.
  - intros HNpos HMpos.
    assert ((parse_digits 0 n <=? 0) || (parse_digits 0 m <=? 0) = false)
      as ->.
    { apply orb_false_iff. split; apply Z.leb_gt; assumption. }
    destruct (roll_loop_spec rnd (parse_digits 0 m)
                (Z.to_nat (parse_digits 0 n)) Hrnd HMpos 0%nat [] 0)
      as [rolls [Heq [Hlen Hall]]].
    rewrite Heq. cbn [app]. exists rolls. rewrite Z.add_0_l.
    split; [reflexivity|]. split; [|exact Hall].
    rewrite Hlen. apply Z2Nat.id. lia.
Qed.

(** *** Owned characters *)

Section Owned.
Implicit Types (l : list Character.t) (f : Character.t -> Character.t).

Lemma owned_by_app l l' c uid : owned_by l c uid -> owned_by (l ++ l') c uid.
Proof.
  intros [ch [Hin H]]. exists ch. split; [|exact H].
  apply in_app_iff. auto.
Qed.

Lemma owned_by_map f l c uid :
  (forall x, Character.id (f x) = Character.id x
             /\ Character.userId (f x) = Character.userId x) ->
  owned_by l c uid -> owned_by (map f l) c uid.
Proof.
  intros Hf [ch [Hin [Hid Hu]]]. exists (f ch).
  destruct (Hf ch) as [-> ->]. split; [apply in_map; exact Hin|auto].
Qed.

Lemma owned_by_replace id f l c uid :
  (forall x, Character.id (f x) = Character.id x
             /\ Character.userId (f x) = Character.userId x) ->
  owned_by l c uid -> owned_by (replace Character.id id f l) c uid.
Proof.
  intros Hf. unfold replace. apply owned_by_map.
  intros x. destruct (_ =? _); auto.
Qed.

Lemma owned_by_filter (p : Character.t -> bool) l c uid :
  (forall ch, Character.id ch = c -> Character.userId ch = uid ->
              p ch = true) ->
  owned_by l c uid -> owned_by (filter p l) c uid.
Proof.
  intros Hp [ch [Hin [Hid Hu]]]. exists ch. split; [|auto].
  apply filter_In. auto.
Qed.

Lemma owned_by_found l c uid :
  truthy (find (owned_character c uid) l) = true -> owned_by l c uid.
Proof.
  rewrite <- existsb_find, existsb_exists. intros [ch [Hin H]].
  unfold owned_character in H. bool_facts. exists ch. auto.
Qed.

Lemma found_owned_by l c uid :
  owned_by l c uid -> truthy (find (owned_character c uid) l) = true.
Proof.
  intros [ch [Hin [Hid Hu]]]. rewrite <- existsb_find. apply existsb_exists.
  exists ch. split; [exact Hin|]. unfold owned_character.
  rewrite Hid, Hu, !Z.eqb_refl. reflexivity.
Qed.

Lemma not_owned_not_found l c uid :
  ~ owned_by l c uid -> truthy (find (owned_character c uid) l) = false.
Proof.
  intros Hno. destruct (truthy (find (owned_character c uid) l)) eqn:H;
    [|reflexivity].
  apply owned_by_found in H. contradiction.
Qed.

End Owned.

(** *** The handler *)


Lemma numeral_not_empty n r : numeral n -> truthy (n ++ r)%string = true.
Proof.
  intros H. apply numeral_digits in H. destruct H as [_ Hne].
  destruct n; [contradiction|reflexivity].
Qed.



(** ** Rolling with a character (C10) *)

(** C10.  A roll with a character that is not the principal's is to be
    answered "not found" ("Si un characterId est fourni, vérifier qu'il
    appartient à l'utilisateur"), but the handler tests the key with
    [if (characterId)] and so skips the check for the key 0.  Alice owns
    no character at all; her roll with [characterId: 0] is not answered
    404 but reaches the insert, which the foreign key refuses: 500.  No
    roll is recorded. *)
Theorem character_zero_is_not_checked :
  let r :=
    router alice
      (POST_dice_rolls half (mkRollBody (Val "1d6") (Val 1) (Val 0)))
      dragon_hunt in
  characters dragon_hunt = []
  /\ status (fst r) <> 404
  /\ fst r = mkResponse 500 false "Erreur lors du jet de dés" (PError P2003)
  /\ diceRolls (snd r) = [].
Proof. vm_compute. repeat split; discriminate. Qed.

Lemma diceRoll_detach_kept gone d c :
  DiceRoll.characterId (diceRoll_detach gone d) = Some c ->
  DiceRoll.characterId d = Some c.
Proof.
  rewrite diceRoll_detach_ref. destruct (mem_opt _ _); [discriminate|auto].
Qed.

Lemma no_character_zero st :
  character_keys_ok st -> has_character st 0 = false.
Proof.
  intros [_ Hpos]. unfold has_character.
  destruct (existsb _ _) eqn:H; [|reflexivity].
  apply existsb_exists in H. destruct H as [ch [Hin Hid]]. bool_facts.
  specialize (Hpos ch Hin). lia.
Qed.

Ltac split_ifs :=
  repeat match goal with
  | |- context [if ?b then _ else _] => destruct b
  end.

Ltac solve_keys Hk :=
  split;
  [ destruct Hk; lia
  | let x := fresh "x" in
    let Hin := fresh "Hin" in
    intros x Hin; in_cases; split_ifs; rewrite ?character_detach_id; cbn;
    try match goal with
    | H : In ?y _ |- _ => pose proof (proj2 Hk y H)
    end;
    destruct Hk; try lia ].

(** Which roll an [In] hypothesis speaks of, and why it is still there. *)
Ltac roll_cases Hc :=
  repeat match goal with
  | H : In _ (_ ++ _) |- _ => apply in_app_iff in H; destruct H as [H|H]
  | H : In _ (filter _ _) |- _ =>
    let Hf := fresh "Hkept" in
    apply filter_In in H; destruct H as [H Hf]
  | H : In _ (map (diceRoll_detach _) _) |- _ =>
    let y := fresh "y" in
    apply in_map_iff in H; destruct H as [y [<- H]];
    apply diceRoll_detach_kept in Hc; rewrite ?diceRoll_detach_userId
  | H : In _ [_] |- _ => destruct H as [<-|[]]
  end.

Ltac keeps_owner :=
  let x := fresh "x" in
  intros x; split; split_ifs; rewrite ?character_detach_id,
    ?character_detach_userId; reflexivity.

Ltac still_owned Hown Hc :=
  repeat first
    [ exact Hown
    | apply owned_by_app
    | apply owned_by_map; [keeps_owner|]
    | apply owned_by_replace; [keeps_owner|]
    | apply owned_by_filter;
      [ let ch := fresh "ch" in
        let Hid := fresh "Hid" in
        let Hu := fresh "Hu" in
        intros ch Hid Hu;
        first
          [ rewrite Hu; assumption
          | match goal with
            | Hf : negb (eq_opt _ _) = true |- _ =>
              rewrite Hc in Hf; cbn [eq_opt] in Hf; rewrite Hid; exact Hf
            end ]
      | ] ].

Ltac solve_owner Ho :=
  let d := fresh "d" in
  let c := fresh "c" in
  let Hin := fresh "Hin" in
  let Hc := fresh "Hc" in
  intros d c Hin Hc; roll_cases Hc;
  try match goal with
  | H : In ?y (diceRolls _) |- _ =>
    let Hown := fresh "Hown" in
    pose proof (Ho y c H Hc) as Hown; still_owned Hown Hc
  end.

Lemma router_keeps_owner token req st :
  character_keys_ok st -> rolls_by_owner st ->
  let st' := snd (router token req st) in
  character_keys_ok st' /\ rolls_by_owner st'.
Proof.
  intros Hk Ho. cbv zeta.
  unfold router, sessionParticipantsRoutes_guard,
    middleware.isAuthenticated. cbv zeta.
  destruct (middleware.extractUserFromToken token st) as [u|];
    destruct req; try (split; assumption).
  all: unfold_handlers; run_handler.
  all: try (split; assumption).
  all: pose proof (no_character_zero st Hk) as Hzero.
  all: unfold character_keys_ok, rolls_by_owner, has_character in *;
    store_simpl.
  all: split; [solve_keys Hk|solve_owner Ho].
  all: cbn [DiceRoll.characterId DiceRoll.userId] in *.
  all: destruct (rb_characterId body) as [| |cid]; try discriminate.
  all: cbn [nullable num] in *; injection Hc as <-.
  all: bool_facts.
  all: first
         [ apply owned_by_found; assumption
         | exfalso;
           match goal with
           | H : truthy (Val ?z) = false |- _ =>
             cbn in H; unfold truthy_Z in H; apply negb_false_iff in H;
             apply Z.eqb_eq in H; subst z
           end;
           cbn [fk_opt] in *; congruence ].
Qed.

Lemma serve_keeps_owner reqs st :
  character_keys_ok st -> rolls_by_owner st ->
  character_keys_ok (serve reqs st) /\ rolls_by_owner (serve reqs st).
Proof.
  revert st. induction reqs as [|[token req] reqs IH]; intros st Hk Ho.
  - auto.
  - cbn [serve]. destruct (router_keeps_owner token req st Hk Ho).
    apply IH; assumption.
Qed.

(** For every other key the handler does what C10 says.  For an
    authenticated principal who rolls with the character key [c]: a roll
    is recorded only if a character with that key exists and is theirs,
    and then the roll carries that key and their user key.  If there is
    no such character no roll is recorded; for [c] other than 0 the
    database is then untouched, and a request with a key of 32 bits that
    passes the earlier checks is answered 404.  Every recorded roll that
    carries a character key refers to a character of the user who
    rolled, and this stays so after any sequence of requests. *)
Lemma rollDice_character_ownership rnd st token u body c :
  authenticated st token u ->
  character_keys_ok st ->
  rb_characterId body = Val c ->
  let r := router token (POST_dice_rolls rnd body) st in
  let owned := owned_by (characters st) c (User.id u) in
  (status (fst r) = 201 ->
   owned
   /\ exists d, diceRolls (snd r) = (diceRolls st ++ [d])%list
                /\ DiceRoll.characterId d = Some c
                /\ DiceRoll.userId d = User.id u)
  /\ (~ owned ->
      status (fst r) <> 201
      /\ diceRolls (snd r) = diceRolls st
      /\ (c <> 0 -> snd r = st))
  /\ (~ owned -> c <> 0 -> int32 c = true ->
      reaches_character_check st u body ->
      fst r = fail 404
                "Personnage non trouvé ou n'appartient pas à l'utilisateur")
  /\ (rolls_by_owner st ->
      rolls_by_owner (snd r)
      /\ forall reqs, rolls_by_owner (serve reqs st)).
Proof.
  intros Hauth Hk Hc. cbv zeta.
  pose proof (no_character_zero st Hk) as Hzero.
  assert (status (fst (router token (POST_dice_rolls rnd body) st)) = 201 ->
          owned_by (characters st) c (User.id u)
          /\ exists d,
               diceRolls (snd (router token (POST_dice_rolls rnd body) st))
               = (diceRolls st ++ [d])%list
               /\ DiceRoll.characterId d = Some c
               /\ DiceRoll.userId d = User.id u) as Hcreated.
  { enter_route Hauth. unfold_handlers. run_monad. rewrite Hc.
    cbn [nullable num]. store_simpl_goal.
    repeat (case_step; store_simpl_goal). all: store_simpl.
    all: intros Hok; try discriminate.
    all: split; [|eexists; split; [reflexivity|split; reflexivity]].
    all: bool_facts.
    all: first
           [ apply owned_by_found; assumption
           | exfalso;
             match goal with
             | H : truthy (Val ?z) = false |- _ =>
               cbn in H; unfold truthy_Z in H; apply negb_false_iff in H;
               apply Z.eqb_eq in H; subst z
             end;
             unfold has_character in Hzero; cbn [fk_opt] in *; congruence ]. }
  split; [exact Hcreated|]. split; [|split].
  - intros Hno. split; [intros H; apply Hno, Hcreated, H|].
    assert (truthy (find (owned_character c (User.id u)) (characters st))
            = false) as Hfind
      by (apply not_owned_not_found; exact Hno).
    enter_route Hauth. unfold_handlers. run_monad. rewrite Hc.
    cbn [nullable num]. store_simpl_goal.
    repeat (case_step; store_simpl_goal). all: store_simpl.
    all: try (split; [reflexivity|]; intros Hnz;
              first
                [ reflexivity
                | exfalso; bool_facts;
                  match goal with
                  | H : truthy (Val ?z) = false |- _ =>
                    cbn in H; unfold truthy_Z in H;
                    apply negb_false_iff in H; apply Z.eqb_eq in H;
                    contradiction
                  end ]).
    all: exfalso; bool_facts; try congruence.
    all: unfold has_character in Hzero.
    all: match goal with
         | H : truthy (Val ?z) = false |- _ =>
           cbn in H; unfold truthy_Z in H; apply negb_false_iff in H;
           apply Z.eqb_eq in H; subst z
         end; cbn [fk_opt] in *.
    all: match goal with
         | H : existsb _ (characters _) = true |- _ =>
           rewrite Hzero in H; discriminate H
         end.
  - intros Hno Hnz _ [Hexpr [Hfmt [sid [s [Hsid [Hsnz [Hs Hmember]]]]]]].
    assert (truthy (find (owned_character c (User.id u)) (characters st))
            = false) as Hfind
      by (apply not_owned_not_found; exact Hno).
    assert (negb (Session.gmId s =? User.id u)
            && negb (truthy (find (member_of sid (User.id u))
                               (participants st))) = false) as Hallowed.
    { destruct Hmember as [Hgm|Hp].
      - unfold isGM in Hgm. rewrite Hgm, Z.eqb_refl. reflexivity.
      - apply member_of_iff in Hp. rewrite Hp. apply andb_false_r. }
    enter_route Hauth. unfold_handlers. run_monad. rewrite Hc, Hsid, Hexpr.
    cbn [num nullable negb orb]. rewrite Hfmt.
    assert (truthy (Val sid) = true) as ->
      by (cbn; unfold truthy_Z; apply negb_true_iff, Z.eqb_neq; exact Hsnz).
    assert (truthy (Val c) = true) as ->
      by (cbn; unfold truthy_Z; apply negb_true_iff, Z.eqb_neq; exact Hnz).
    unfold session_row in Hs. cbn [negb]. rewrite Hs, Hallowed, Hfind.
    reflexivity.
  - intros Ho. split.
    + apply router_keeps_owner; assumption.
    + intros reqs. apply serve_keeps_owner; assumption.
Qed.

Example rollDice_with_legolas :
  let r :=
    router bob (POST_dice_rolls half (mkRollBody (Val "2d6+3") (Val 1) (Val 1)))
      with_legolas in
  status (fst r) = 201
  /\ owned_by (characters with_legolas) 1 2.
Proof.
  split; [reflexivity|].
  refine (proj1 (proj1 (rollDice_character_ownership half with_legolas bob
                          bob_row
                          (mkRollBody (Val "2d6+3") (Val 1) (Val 1)) 1
                          eq_refl _ eq_refl) _)).
  - split; [reflexivity|]. intros ch Hin. vm_compute in Hin.
    destruct Hin as [<-|[]]. reflexivity.
  - reflexivity.
Qed.

(** * Beyond the claims: the rest of the controllers *)

(** ** Accounts ([userController]) *)

Section MoreLists.
Context {A : Type}.
Implicit Types (l : list A) (p : A -> bool).

Lemma find_app_none p l l' : find p l = None -> find p (l ++ l') = find p l'.
Proof.
  induction l as [|a l IH]; cbn; [reflexivity|].
  destruct (p a); [discriminate|exact IH].
Qed.

Lemma find_app_some p l l' x : find p l = Some x -> find p (l ++ l') = Some x.
Proof.
  induction l as [|a l IH]; cbn; [discriminate|].
  destruct (p a); [auto|exact IH].
Qed.

Lemma find_ext p q l :
  (forall x, In x l -> p x = q x) -> find p l = find q l.
Proof.
  induction l as [|a l IH]; cbn; [reflexivity|]. intros H.
  rewrite (H a (or_introl eq_refl)). destruct (q a); [reflexivity|].
  apply IH. intros x Hx. apply H. right. exact Hx.
Qed.

Lemma existsb_ext_in p q l :
  (forall x, In x l -> p x = q x) -> existsb p l = existsb q l.
Proof.
  induction l as [|a l IH]; cbn; [reflexivity|]. intros H.
  rewrite (H a (or_introl eq_refl)). f_equal.
  apply IH. intros x Hx. apply H. right. exact Hx.
Qed.

Lemma filter_all p l : (forall x, In x l -> p x = true) -> filter p l = l.
Proof.
  induction l as [|a l IH]; cbn; [reflexivity|]. intros H.
  rewrite (H a (or_introl eq_refl)). f_equal.
  apply IH. intros x Hx. apply H. right. exact Hx.
Qed.

Lemma filter_none p l : (forall x, In x l -> p x = false) -> filter p l = [].
Proof.
  induction l as [|a l IH]; cbn; [reflexivity|]. intros H.
  rewrite (H a (or_introl eq_refl)).
  apply IH. intros x Hx. apply H. right. exact Hx.
Qed.

Lemma map_id_in (f : A -> A) l : (forall x, In x l -> f x = x) -> map f l = l.
Proof.
  induction l as [|a l IH]; cbn; [reflexivity|]. intros H.
  rewrite (H a (or_introl eq_refl)). f_equal.
  apply IH. intros x Hx. apply H. right. exact Hx.
Qed.

(** The only row that passes [q] after [g] is the image of [u]. *)
Lemma find_map_only (g : A -> A) (q : A -> bool) l u :
  In u l -> q (g u) = true ->
  (forall x, In x l -> q (g x) = true -> x = u) ->
  find q (map g l) = Some (g u).
Proof.
  induction l as [|a l IH]; cbn; [contradiction|]. intros Hin Hq Honly.
  destruct (q (g a)) eqn:Ha.
  - rewrite (Honly a (or_introl eq_refl) Ha). reflexivity.
  - destruct Hin as [->|Hin]; [congruence|].
    apply IH; auto.
Qed.

End MoreLists.

Lemma truthy_find_exists {A} (p : A -> bool) l :
  truthy (find p l) = true <-> exists x, In x l /\ p x = true.
Proof. rewrite <- existsb_find. apply existsb_exists. Qed.

Lemma truthy_find_none {A} (p : A -> bool) l :
  truthy (find p l) = false <-> forall x, In x l -> p x = false.
Proof.
  rewrite <- existsb_find. split.
  - intros H x Hx. exact (existsb_false_all p l x H Hx).
  - intros H. destruct (existsb p l) eqn:E; [|reflexivity].
    apply existsb_exists in E. destruct E as [x [Hx Hp]].
    rewrite (H x Hx) in Hp. discriminate.
Qed.

Lemma truthy_str (f : field string) : truthy f = true -> f = Val (str f).
Proof. destruct f; cbn; try discriminate. reflexivity. Qed.


(** A registration that is answered 201. *)
Lemma register_created st body :
  status (fst (userController.register body st)) = 201 ->
  let u := User.mk (user_seq st) (str (ub_username body))
             (str (ub_email body)) (Hashed (str (ub_password body))) in
  truthy (ub_username body) = true /\ truthy (ub_email body) = true
  /\ truthy (ub_password body) = true
  /\ (forall x, In x (users st) ->
        User.email x <> str (ub_email body)
        /\ User.username x <> str (ub_username body))
  /\ userController.register body st
     = (mkResponse 201 true "Utilisateur créé avec succès" (PUser u),
        set_users (users st ++ [u]) (next_user_seq st)).
Proof.
  unfold userController.register. run_monad.
  destruct (truthy (ub_username body)), (truthy (ub_email body)),
    (truthy (ub_password body)); cbn [negb orb]; try discriminate.
  destruct (truthy (find _ (users st))) eqn:Hfree; [discriminate|].
  pose proof (proj1 (truthy_find_none _ _) Hfree) as Hnone.
  destruct (existsb _ (users st)) eqn:E.
  - cbn. discriminate.
  - intros _. cbv zeta. split; [reflexivity|]. split; [reflexivity|].
    split; [reflexivity|]. split; [|reflexivity].
    intros x Hx. specialize (Hnone x Hx). cbv beta in Hnone. bool_facts.
    split; assumption.
Qed.



(** ** Invariants kept by every statement are kept by every request *)

Section Statementwise.
Variable I : Store -> Prop.

Lemma preserves_ret {A} (a : A) : preserves I (ret a).
Proof. intros st H. exact H. Qed.

Lemma preserves_send {A} r : preserves I (@send A r).
Proof. intros st H. exact H. Qed.

Lemma preserves_throw {A} e : preserves I (@throw A e).
Proof. intros st H. exact H. Qed.

Lemma preserves_query {A} (f : Store -> A) : preserves I (query f).
Proof. intros st H. exact H. Qed.

Lemma preserves_reject_if c r : preserves I (reject_if c r).
Proof. intros st H. unfold reject_if. destruct c; exact H. Qed.

Lemma preserves_req_user_id req_user : preserves I (req_user_id req_user).
Proof. intros st H. destruct req_user; exact H. Qed.

Lemma preserves_if_defined_required {A} (f : field A) :
  preserves I (if_defined_required f).
Proof. intros st H. destruct f; exact H. Qed.

Lemma preserves_bind {A B} (m : M A) (k : A -> M B) :
  preserves I m -> (forall a, preserves I (k a)) -> preserves I (bind m k).
Proof.
  intros Hm Hk st H. unfold bind. specialize (Hm st H).
  destruct (m st) as [[a|r|e] st']; cbn [snd] in *; auto.
  apply Hk. exact Hm.
Qed.

Lemma preserves_try_catch body msg st :
  preserves I body -> I st -> I (snd (try_catch body msg st)).
Proof.
  intros Hb H. unfold try_catch. specialize (Hb st H).
  destruct (body st) as [[a|r|e] st']; exact Hb.
Qed.

Lemma preserves_calculateDiceRoll rnd e : preserves I (calculateDiceRoll rnd e).
Proof.
  intros st H. unfold calculateDiceRoll.
  destruct (match_anywhere e); [|exact H].
  destruct (_ || _); [exact H|]. destruct (roll_loop _ _ _ _ _ _). exact H.
Qed.

(** The statements that write. *)
Hypothesis user_create :
  forall n e p, preserves I (prisma.user.create n e p).
Hypothesis user_update : forall id d, preserves I (prisma.user.update id d).
Hypothesis user_delete : forall id, preserves I (prisma.user.delete id).
Hypothesis character_create :
  forall n r c l b i s u, preserves I (prisma.character.create n r c l b i s u).
Hypothesis character_update :
  forall id d, preserves I (prisma.character.update id d).
Hypothesis character_updateMany_detach :
  forall w, preserves I (prisma.character.updateMany_detach w).
Hypothesis character_deleteMany :
  forall w, preserves I (prisma.character.deleteMany w).
Hypothesis session_create :
  forall t d s x g, preserves I (prisma.session.create t d s x g).
Hypothesis session_update :
  forall id d, preserves I (prisma.session.update id d).
Hypothesis session_deleteMany :
  forall w, preserves I (prisma.session.deleteMany w).
Hypothesis participant_create :
  forall s u c r, preserves I (prisma.sessionParticipants.create s u c r).
Hypothesis participant_update :
  forall id d, preserves I (prisma.sessionParticipants.update id d).
Hypothesis participant_deleteMany :
  forall w, preserves I (prisma.sessionParticipants.deleteMany w).
Hypothesis diceRoll_create :
  forall e r u s c m, preserves I (prisma.diceRoll.create e r u s c m).
Hypothesis diceRoll_deleteMany :
  forall w, preserves I (prisma.diceRoll.deleteMany w).

Lemma character_delete id : preserves I (prisma.character.delete id).
Proof.
  intros st H. unfold prisma.character.delete.
  destruct (has_character st id); [|exact H].
  apply character_deleteMany. exact H.
Qed.

Lemma session_delete id : preserves I (prisma.session.delete id).
Proof.
  intros st H. unfold prisma.session.delete.
  destruct (has_session st id); [|exact H].
  apply session_deleteMany. exact H.
Qed.

Lemma participant_delete id :
  preserves I (prisma.sessionParticipants.delete id).
Proof.
  intros st H. unfold prisma.sessionParticipants.delete.
  destruct (has_participant st id); [|exact H].
  apply participant_deleteMany. exact H.
Qed.

(** One step through a handler body. *)
Ltac preserve_step :=
  first
    [ apply preserves_bind; [|intro]
    | apply preserves_ret | apply preserves_send | apply preserves_throw
    | apply preserves_query | apply preserves_reject_if
    | apply preserves_req_user_id | apply preserves_if_defined_required
    | apply preserves_calculateDiceRoll
    | apply user_create | apply user_update | apply user_delete
    | apply character_create | apply character_update
    | apply character_updateMany_detach | apply character_deleteMany
    | apply character_delete
    | apply session_create | apply session_update | apply session_deleteMany
    | apply session_delete
    | apply participant_create | apply participant_update
    | apply participant_deleteMany | apply participant_delete
    | apply diceRoll_create | apply diceRoll_deleteMany
    | match goal with
      | |- preserves _ (match ?x with _ => _ end) => destruct x
      end ].

Ltac preserve_body :=
  unfold prisma.user.findUnique, prisma.user.findFirst,
    prisma.character.findUnique, prisma.character.findFirst,
    prisma.session.findUnique, prisma.sessionParticipants.findUnique,
    prisma.sessionParticipants.findFirst,
    prisma.sessionParticipants.findMany,
    sessionParticipantsController.session_with_participants;
  cbv zeta; repeat preserve_step.

Lemma router_keeps token req st : I st -> I (snd (router token req st)).
Proof.
  intros H. unfold router, sessionParticipantsRoutes_guard,
    middleware.isAuthenticated. cbv zeta.
  destruct (middleware.extractUserFromToken token st) as [u|];
    destruct req; try exact H.
  all: unfold userController.register, userController.login,
         userController.getUserById, userController.updateUser,
         userController.deleteUser,
         characterController.createCharacter,
         characterController.updateCharacter,
         characterController.deleteCharacter,
         characterController.associateWithSession,
         sessionController.createSession, sessionController.getSessionById,
         sessionController.updateSession, sessionController.addParticipant,
         sessionController.deleteSession,
         sessionController.removeParticipant,
         sessionParticipantsController.addParticipant,
         sessionParticipantsController.removeParticipant,
         sessionParticipantsController.updateParticipant,
         diceRollController.rollDice.
  all: apply preserves_try_catch; [|exact H].
  all: preserve_body.
Qed.

Lemma serve_keeps reqs st : I st -> I (serve reqs st).
Proof.
  revert st. induction reqs as [|[token req] reqs IH]; intros st H.
  - exact H.
  - cbn [serve]. apply IH. apply router_keeps. exact H.
Qed.

End Statementwise.

(** ** Serial keys *)

Section Serial.
Context {A : Type} (key : A -> Z).
Implicit Types (l : list A).

Lemma serial_filter (p : A -> bool) l seq :
  serial key l seq -> serial key (filter p l) seq.
Proof.
  intros [Hnd [Hpos Hall]]. split; [|split; [exact Hpos|]].
  - clear Hall. induction l as [|a l IH]; cbn; [constructor|].
    inversion Hnd as [|? ? Hnotin Hnd']; subst.
    destruct (p a); cbn; [constructor|]; auto.
    intros Hin. apply Hnotin. apply in_map_iff in Hin.
    destruct Hin as [x [Hk Hin]]. apply filter_In in Hin.
    apply in_map_iff. exists x. tauto.
  - rewrite Forall_forall in *. intros x Hin. apply filter_In in Hin.
    apply Hall. tauto.
Qed.

Lemma serial_map (f : A -> A) l seq :
  (forall x, key (f x) = key x) ->
  serial key l seq -> serial key (map f l) seq.
Proof.
  intros Hk [Hnd [Hpos Hall]].
  assert (map key (map f l) = map key l) as Hmap.
  { rewrite map_map. apply map_ext. exact Hk. }
  split; [|split; [exact Hpos|]].
  - rewrite Hmap. exact Hnd.
  - rewrite Forall_forall in *. intros x Hin. apply in_map_iff in Hin.
    destruct Hin as [y [<- Hin]]. rewrite Hk. auto.
Qed.

Lemma serial_replace id (f : A -> A) l seq :
  (forall x, key (f x) = key x) ->
  serial key l seq -> serial key (replace key id f l) seq.
Proof.
  intros Hk. apply serial_map. intros x. destruct (key x =? id); auto.
Qed.

Lemma serial_next l seq : serial key l seq -> serial key l (seq + 1).
Proof.
  intros [Hnd [Hpos Hall]]. split; [exact Hnd|]. split; [lia|].
  rewrite Forall_forall in *. intros x Hin. specialize (Hall x Hin). lia.
Qed.

Lemma serial_snoc l x seq :
  key x = seq -> serial key l seq -> serial key (l ++ [x]) (seq + 1).
Proof.
  intros Hx [Hnd [Hpos Hall]]. rewrite Forall_forall in Hall.
  split; [|split; [lia|]].
  - rewrite map_app. cbn [map].
    assert (~ In (key x) (map key l)) as Hnew.
    { intros Hin. apply in_map_iff in Hin. destruct Hin as [y [Hk Hin]].
      specialize (Hall y Hin). lia. }
    clear Hall. induction (map key l) as [|k ks IH]; cbn.
    + constructor; [intros []|constructor].
    + inversion Hnd as [|? ? Hnotin Hnd']; subst. constructor.
      * intros Hin. apply in_app_iff in Hin. destruct Hin as [Hin|[Hin|[]]].
        -- contradiction.
        -- apply Hnew. left. symmetry. exact Hin.
      * apply IH; [exact Hnd'|]. intros Hin. apply Hnew. right. exact Hin.
  - rewrite Forall_forall. intros y Hin. apply in_app_iff in Hin.
    destruct Hin as [Hin|[<-|[]]]; [specialize (Hall y Hin)|]; lia.
Qed.

(** The row with a given key is the only one with that key. *)
Lemma serial_same_key l seq x y :
  serial key l seq -> In x l -> In y l -> key x = key y -> x = y.
Proof. intros [Hnd _]. apply NoDup_map_eq. exact Hnd. Qed.

Lemma serial_fresh l seq x : serial key l seq -> In x l -> key x <> seq.
Proof.
  intros [_ [_ Hall]] Hin. rewrite Forall_forall in Hall.
  specialize (Hall x Hin). lia.
Qed.

Lemma serial_no_zero l seq :
  serial key l seq -> existsb (fun x => key x =? 0) l = false.
Proof.
  intros [_ [_ Hall]]. rewrite Forall_forall in Hall.
  destruct (existsb _ _) eqn:E; [|reflexivity].
  apply existsb_exists in E. destruct E as [x [Hin Hk]]. bool_facts.
  specialize (Hall x Hin). lia.
Qed.

Lemma serial_find l seq x :
  serial key l seq -> In x l -> find (fun y => key y =? key x) l = Some x.
Proof.
  intros Hs Hin. destruct (find _ l) as [y|] eqn:E.
  - apply find_In in E. destruct E as [Hy Hk]. bool_facts. f_equal.
    exact (serial_same_key l seq y x Hs Hy Hin Hk).
  - exfalso. revert E. apply find_exists. exists x. split; [exact Hin|].
    apply Z.eqb_refl.
Qed.

End Serial.

Ltac key_kept :=
  let x := fresh "x" in
  intros x;
  repeat match goal with
  | |- context [if ?b then _ else _] => destruct b
  end;
  rewrite ?character_detach_id; try reflexivity;
  try (unfold participant_detach, diceRoll_detach;
       destruct (mem_opt _ _); reflexivity).

Ltac serial_solve :=
  repeat first
    [ assumption
    | apply serial_snoc; [reflexivity|]
    | apply serial_next
    | apply serial_filter
    | apply serial_replace; [key_kept|]
    | apply serial_map; [key_kept|] ].

(** Every branch of a statement. *)
Ltac statement :=
  let st := fresh "st" in
  let H := fresh "H" in
  intros st H; cbv beta delta
    [prisma.user.create prisma.user.update prisma.user.delete
     prisma.character.create prisma.character.update
     prisma.character.updateMany_detach prisma.character.deleteMany
     prisma.session.create prisma.session.update prisma.session.deleteMany
     prisma.sessionParticipants.create prisma.sessionParticipants.update
     prisma.sessionParticipants.deleteMany
     prisma.diceRoll.create prisma.diceRoll.deleteMany];
  cbv zeta;
  repeat match goal with
  | |- context [match find ?p ?l with _ => _ end] =>
    let E := fresh "Efind" in destruct (find p l) eqn:E
  | |- context [if ?b then _ else _] =>
    let E := fresh "Echeck" in destruct b eqn:E
  end;
  cbn [snd]; try exact H.

Lemma keys_statementwise_keep :
  (forall n e p, preserves keys_ok (prisma.user.create n e p))
  /\ (forall id d, preserves keys_ok (prisma.user.update id d))
  /\ (forall id, preserves keys_ok (prisma.user.delete id))
  /\ (forall n r c l b i s u,
        preserves keys_ok (prisma.character.create n r c l b i s u))
  /\ (forall id d, preserves keys_ok (prisma.character.update id d))
  /\ (forall w, preserves keys_ok (prisma.character.updateMany_detach w))
  /\ (forall w, preserves keys_ok (prisma.character.deleteMany w))
  /\ (forall t d s x g, preserves keys_ok (prisma.session.create t d s x g))
  /\ (forall id d, preserves keys_ok (prisma.session.update id d))
  /\ (forall w, preserves keys_ok (prisma.session.deleteMany w))
  /\ (forall s u c r,
        preserves keys_ok (prisma.sessionParticipants.create s u c r))
  /\ (forall id d, preserves keys_ok (prisma.sessionParticipants.update id d))
  /\ (forall w, preserves keys_ok (prisma.sessionParticipants.deleteMany w))
  /\ (forall e r u s c m,
        preserves keys_ok (prisma.diceRoll.create e r u s c m))
  /\ (forall w, preserves keys_ok (prisma.diceRoll.deleteMany w)).
Proof.
  repeat match goal with |- _ /\ _ => split end; intros; statement.
  all: unfold keys_ok in *; store_simpl;
    destruct H as [Hu [Hc [Hs [Hp Hd]]]];
    split; [|split; [|split; [|split]]]; serial_solve.
Qed.

Lemma router_keeps_keys token req st :
  keys_ok st -> keys_ok (snd (router token req st)).
Proof.
  destruct keys_statementwise_keep
    as [H1 [H2 [H3 [H4 [H5 [H6 [H7 [H8 [H9 [H10 [H11 [H12 [H13 [H14 H15]]]]]]]]]]]]]].
  apply router_keeps; assumption.
Qed.

(** ** Foreign keys *)

Section Has.
Context {A : Type} (key : A -> Z).
Implicit Types (l : list A).

Lemma has_app l l' id :
  existsb (fun x => key x =? id) l = true ->
  existsb (fun x => key x =? id) (l ++ l') = true.
Proof. intros H. rewrite existsb_app, H. reflexivity. Qed.

Lemma has_snoc_new l x id :
  key x = id -> existsb (fun y => key y =? id) (l ++ [x]) = true.
Proof.
  intros <-. rewrite existsb_app. cbn. rewrite Z.eqb_refl.
  rewrite orb_true_r. reflexivity.
Qed.

Lemma has_replace id0 (f : A -> A) l id :
  (forall x, key (f x) = key x) ->
  existsb (fun x => key x =? id) (replace key id0 f l)
  = existsb (fun x => key x =? id) l.
Proof.
  intros Hk. apply existsb_map_key. intros x.
  destruct (key x =? id0); auto.
Qed.

Lemma has_filter_neq l gone id :
  id <> gone ->
  existsb (fun x => key x =? id) (filter (fun x => negb (key x =? gone)) l)
  = existsb (fun x => key x =? id) l.
Proof.
  intros Hne. induction l as [|a l IH]; cbn; [reflexivity|].
  destruct (key a =? gone) eqn:Ha; cbn; rewrite IH; [|reflexivity].
  bool_facts. destruct (key a =? id) eqn:Hid; [|reflexivity].
  bool_facts. congruence.
Qed.

(** A key that is not among the deleted ones is still there. *)
Lemma has_not_gone (w : A -> bool) l id :
  existsb (fun x => key x =? id) l = true ->
  mem id (map key (filter w l)) = false ->
  existsb (fun x => key x =? id) (filter (fun x => negb (w x)) l) = true.
Proof.
  intros Hhas Hgone. apply existsb_exists in Hhas.
  destruct Hhas as [x [Hin Hk]]. apply existsb_exists. exists x.
  split; [|exact Hk]. apply filter_In. split; [exact Hin|].
  destruct (w x) eqn:Hw; [|reflexivity]. exfalso.
  assert (mem id (map key (filter w l)) = true) as H; [|congruence].
  apply mem_In, in_map_iff. exists x. bool_facts. split; [exact Hk|].
  apply filter_In. auto.
Qed.

End Has.

Lemma fk_opt_not_gone {A} (key : A -> Z) (w : A -> bool) l o :
  fk_opt (fun id => existsb (fun x => key x =? id) l) o = true ->
  fk_opt (fun id => existsb (fun x => key x =? id)
                      (filter (fun x => negb (w x)) l))
    (if mem_opt o (map key (filter w l)) then None else o) = true.
Proof.
  destruct o as [z|]; cbn; [|auto]. intros H.
  destruct (mem z _) eqn:Hm; cbn; [reflexivity|].
  apply has_not_gone; assumption.
Qed.

Lemma fk_opt_ext (has has' : Z -> bool) o :
  (forall z, has z = true -> has' z = true) ->
  fk_opt has o = true -> fk_opt has' o = true.
Proof. destruct o; cbn; auto. Qed.

Lemma references_ok_forall st :
  references_ok st <->
  (forall c, In c (characters st) ->
     has_user st (Character.userId c) = true
     /\ fk_opt (has_session st) (Character.sessionId c) = true)
  /\ (forall s, In s (sessions st) -> has_user st (Session.gmId s) = true)
  /\ (forall p, In p (participants st) ->
        has_session st (SessionParticipants.sessionId p) = true
        /\ has_user st (SessionParticipants.userId p) = true
        /\ fk_opt (has_character st) (SessionParticipants.characterId p)
           = true)
  /\ (forall d, In d (diceRolls st) ->
        has_user st (DiceRoll.userId d) = true
        /\ has_session st (DiceRoll.sessionId d) = true
        /\ fk_opt (has_character st) (DiceRoll.characterId d) = true).
Proof. unfold references_ok. rewrite !Forall_forall. reflexivity. Qed.

(** Where a row of the new table comes from. *)
Ltac row_origin :=
  repeat match goal with
  | H : In _ (_ ++ [_]) |- _ => apply in_app_iff in H; destruct H as [H|[<-|[]]]
  | H : In _ (filter _ _) |- _ =>
    let Hf := fresh "Hkept" in
    apply filter_In in H; destruct H as [H Hf]
  | H : In _ (replace _ _ _ _) |- _ => unfold replace in H
  | H : In _ (map _ _) |- _ =>
    let y := fresh "y" in
    apply in_map_iff in H; destruct H as [y [<- H]]
  end.

(** The rows, their references and what the statement checked. *)
Ltac references_start H :=
  apply references_ok_forall in H; apply references_ok_forall;
  unfold has_user, has_session, has_character in *; store_simpl;
  destruct H as [Hc [Hs [Hp Hd]]];
  split; [|split; [|split]];
  (let x := fresh "x" in
   let Hin := fresh "Hin" in
   intros x Hin; row_origin;
   try match goal with
   | Hy : In ?y (characters _) |- _ => pose proof (Hc y Hy) as [? ?]
   | Hy : In ?y (sessions _) |- _ => pose proof (Hs y Hy)
   | Hy : In ?y (participants _) |- _ => pose proof (Hp y Hy) as [? [? ?]]
   | Hy : In ?y (diceRolls _) |- _ => pose proof (Hd y Hy) as [? [? ?]]
   end).

(** A key that was there is still there. *)
Ltac has_mono :=
  first
    [ assumption
    | apply has_app; assumption
    | rewrite has_replace by reflexivity; assumption
    | rewrite existsb_map_key by key_kept; assumption ].

Ltac fk_mono :=
  first
    [ has_mono
    | eapply fk_opt_ext; [|eassumption]; cbv beta;
      let z := fresh "z" in
      let Hz := fresh "Hz" in
      intros z Hz; has_mono ].

Lemma references_user_create n e p :
  preserves references_ok (prisma.user.create n e p).
Proof.
  statement; references_start H.
  all: repeat split; try assumption; try (apply has_app; assumption).
Qed.

Lemma references_user_update id d :
  preserves references_ok (prisma.user.update id d).
Proof.
  statement; references_start H.
  all: rewrite ?(has_replace User.id) by reflexivity.
  all: repeat split; assumption.
Qed.

Lemma references_user_delete id : preserves references_ok (prisma.user.delete id).
Proof.
  statement; references_start H.
  all: bool_facts.
  all: rewrite ?(has_filter_neq User.id)
         by (eapply restrict_passed_eq; eassumption).
  all: repeat split; assumption.
Qed.

Lemma references_character_create n r c l b i s u :
  preserves references_ok (prisma.character.create n r c l b i s u).
Proof.
  statement; references_start H.
  all: cbn [Character.userId Character.sessionId fk_opt].
  all: repeat split; fk_mono.
Qed.

Lemma upd_fk_set has (o : option (option Z)) old :
  fk_set has o = true -> fk_opt has old = true ->
  fk_opt has (upd o old) = true.
Proof. destruct o; cbn; auto. Qed.

Lemma references_character_update id d :
  preserves references_ok (prisma.character.update id d).
Proof.
  statement; references_start H.
  all: repeat split; try fk_mono.
  all: split_ifs;
    cbn [apply_CharacterData Character.userId Character.sessionId];
    try assumption.
  all: apply upd_fk_set; assumption.
Qed.

Lemma references_character_updateMany_detach w :
  preserves references_ok (prisma.character.updateMany_detach w).
Proof.
  statement; references_start H.
  all: repeat split; try fk_mono.
  all: split_ifs;
    cbn [apply_CharacterData Character.userId Character.sessionId upd fk_opt];
    auto.
Qed.

Lemma references_character_deleteMany w :
  preserves references_ok (prisma.character.deleteMany w).
Proof.
  statement; references_start H.
  all: rewrite ?participant_detach_sessionId, ?participant_detach_userId,
         ?diceRoll_detach_userId, ?diceRoll_detach_sessionId,
         ?participant_detach_ref, ?diceRoll_detach_ref.
  all: repeat split; try assumption.
  all: apply (fk_opt_not_gone Character.id); assumption.
Qed.

Lemma references_session_create t d s x g :
  preserves references_ok (prisma.session.create t d s x g).
Proof.
  statement; references_start H.
  all: cbn [Session.gmId].
  all: repeat split; fk_mono.
Qed.

Lemma references_session_update id d :
  preserves references_ok (prisma.session.update id d).
Proof.
  statement; references_start H.
  all: repeat split; try fk_mono.
  all: split_ifs; cbn [apply_SessionData Session.gmId]; assumption.
Qed.

Lemma references_session_deleteMany w :
  preserves references_ok (prisma.session.deleteMany w).
Proof.
  statement; references_start H.
  all: bool_facts.
  all: rewrite ?character_detach_userId, ?character_detach_ref.
  all: repeat split; try fk_mono.
  all: try (apply (fk_opt_not_gone Session.id); assumption).
  all: apply has_not_gone; [assumption|].
  all: match goal with
       | Hcheck : existsb _ ?l = false, Hy : In ?y ?l |- _ =>
         exact (existsb_false_all _ _ y Hcheck Hy)
       end.
Qed.

Lemma references_participant_create s u c r :
  preserves references_ok (prisma.sessionParticipants.create s u c r).
Proof.
  statement; references_start H.
  all: bool_facts.
  all: cbn [SessionParticipants.sessionId SessionParticipants.userId
            SessionParticipants.characterId].
  all: repeat split; assumption.
Qed.

Lemma references_participant_update id d :
  preserves references_ok (prisma.sessionParticipants.update id d).
Proof.
  statement; references_start H.
  all: repeat split; try assumption.
  all: split_ifs;
    cbn [apply_ParticipantData SessionParticipants.sessionId
         SessionParticipants.userId SessionParticipants.characterId];
    try assumption.
  all: apply upd_fk_set; assumption.
Qed.

Lemma references_participant_deleteMany w :
  preserves references_ok (prisma.sessionParticipants.deleteMany w).
Proof.
  statement; references_start H.
  all: repeat split; assumption.
Qed.

Lemma references_diceRoll_create e r u s c m :
  preserves references_ok (prisma.diceRoll.create e r u s c m).
Proof.
  statement; references_start H.
  all: bool_facts.
  all: cbn [DiceRoll.sessionId DiceRoll.userId DiceRoll.characterId].
  all: repeat split; assumption.
Qed.

Lemma references_diceRoll_deleteMany w :
  preserves references_ok (prisma.diceRoll.deleteMany w).
Proof.
  statement; references_start H.
  all: repeat split; assumption.
Qed.

Lemma router_keeps_references token req st :
  references_ok st -> references_ok (snd (router token req st)).
Proof.
  apply router_keeps.
  - apply references_user_create.
  - apply references_user_update.
  - apply references_user_delete.
  - apply references_character_create.
  - apply references_character_update.
  - apply references_character_updateMany_detach.
  - apply references_character_deleteMany.
  - apply references_session_create.
  - apply references_session_update.
  - apply references_session_deleteMany.
  - apply references_participant_create.
  - apply references_participant_update.
  - apply references_participant_deleteMany.
  - apply references_diceRoll_create.
  - apply references_diceRoll_deleteMany.
Qed.

Lemma serve_keeps_keys reqs st : keys_ok st -> keys_ok (serve reqs st).
Proof.
  revert st. induction reqs as [|[token req] reqs IH]; intros st H.
  - exact H.
  - cbn [serve]. apply IH. apply router_keeps_keys. exact H.
Qed.

Lemma serve_keeps_references reqs st :
  references_ok st -> references_ok (serve reqs st).
Proof.
  revert st. induction reqs as [|[token req] reqs IH]; intros st H.
  - exact H.
  - cbn [serve]. apply IH. apply router_keeps_references. exact H.
Qed.

(** The tables of a given database, checked row by row. *)
Ltac check_rows :=
  repeat match goal with
  | |- _ /\ _ => split
  | |- Forall _ [] => constructor
  | |- Forall _ (_ :: _) => constructor
  | |- NoDup [] => constructor
  | |- NoDup (_ :: _) => constructor
  | |- ~ In _ _ => cbn; intuition (first [discriminate | lia])
  | |- (_ < _)%Z => reflexivity
  | |- _ = _ => reflexivity
  end.

Ltac check_store :=
  unfold keys_ok, serial, references_ok, unique_accounts;
  vm_compute users; vm_compute characters; vm_compute sessions;
  vm_compute participants; vm_compute diceRolls;
  vm_compute user_seq; vm_compute character_seq; vm_compute session_seq;
  vm_compute participant_seq; vm_compute diceRoll_seq;
  cbn [map]; check_rows.

Lemma empty_store_ok :
  keys_ok empty_store /\ references_ok empty_store
  /\ unique_accounts empty_store.
Proof. unfold keys_ok, serial, references_ok, unique_accounts. cbn.
  repeat split; first [constructor | lia]. Qed.

(** X3.  Whatever requests are served one after the other, and also when
    one of them ends in 500 after some of its statements ran, the serial
    keys of the five tables stay distinct, positive and below their
    sequences, and every foreign key names an existing row: no dangling
    reference is ever left behind. *)
Theorem database_stays_consistent reqs st :
  keys_ok st -> references_ok st ->
  keys_ok (serve reqs st) /\ references_ok (serve reqs st).
Proof.
  intros Hk Hr. split.
  - apply serve_keeps_keys. exact Hk.
  - apply serve_keeps_references. exact Hr.
Qed.

Lemma database_stays_consistent_witness :
  let st := serve [(alice, DELETE_users_id (Some 1))] with_bob in
  status (fst (router alice (DELETE_users_id (Some 1)) with_bob)) = 500
  /\ keys_ok st /\ references_ok st.
Proof.
  cbv zeta. split; [reflexivity|].
  apply (database_stays_consistent [(alice, DELETE_users_id (Some 1))]
           with_bob); check_store.
Defined.

(** ** The unique indexes of [User] *)

Section Unique_index.
Context {A B : Type}.

Lemma NoDup_snoc (l : list B) a : NoDup l -> ~ In a l -> NoDup (l ++ [a]).
Proof.
  induction l as [|b l IH]; cbn; intros Hnd Hnew.
  - constructor; [intros []|constructor].
  - inversion Hnd as [|? ? Hnotin Hnd']; subst. constructor.
    + intros Hin. apply in_app_iff in Hin. destruct Hin as [Hin|[Hin|[]]].
      * contradiction.
      * apply Hnew. left. symmetry. exact Hin.
    + apply IH; [exact Hnd'|]. intros Hin. apply Hnew. right. exact Hin.
Qed.

Lemma NoDup_map_filter (f : A -> B) (p : A -> bool) l :
  NoDup (map f l) -> NoDup (map f (filter p l)).
Proof.
  induction l as [|a l IH]; cbn; intros Hnd; [constructor|].
  inversion Hnd as [|? ? Hnotin Hnd']; subst.
  destruct (p a); cbn; [constructor|]; auto.
  intros Hin. apply Hnotin. apply in_map_iff in Hin.
  destruct Hin as [x [Hx Hin]]. apply filter_In in Hin.
  apply in_map_iff. exists x. tauto.
Qed.

(** Rows with distinct keys have distinct images as soon as equal images
    force equal keys. *)
Lemma NoDup_map_by_key (key : A -> Z) (F : A -> B) l :
  NoDup (map key l) ->
  (forall x y, In x l -> In y l -> F x = F y -> key x = key y) ->
  NoDup (map F l).
Proof.
  induction l as [|a l IH]; cbn; intros Hnd Hinj; [constructor|].
  inversion Hnd as [|? ? Hnotin Hnd']; subst. constructor.
  - intros Hin. apply in_map_iff in Hin. destruct Hin as [y [Hy Hin]].
    apply Hnotin. apply in_map_iff. exists y. split; [|exact Hin].
    symmetry. apply Hinj; auto.
  - apply IH; [exact Hnd'|]. intros x y Hx Hy. apply Hinj; auto.
Qed.

End Unique_index.

(** The index on a column that [UPDATE] may set: the statement checked
    that no other row holds the new value. *)
Lemma unique_after_update (col : User.t -> string) (new : option string)
  (g : User.t -> User.t) id l :
  NoDup (map User.id l) -> NoDup (map col l) ->
  (forall x, col (g x) = upd new (col x)) ->
  (forall v, In v l -> User.id v <> id -> taken new (col v) = false) ->
  NoDup (map col (replace User.id id g l)).
Proof.
  intros Hid Hcol Hg Hfree. unfold replace. rewrite map_map.
  apply (NoDup_map_by_key User.id); [exact Hid|].
  intros x y Hx Hy.
  destruct (User.id x =? id) eqn:Ex, (User.id y =? id) eqn:Ey; bool_facts.
  - congruence.
  - rewrite Hg. intros Heq. exfalso. destruct new as [n|]; cbn [upd] in Heq.
    + specialize (Hfree y Hy Ey). cbn in Hfree. bool_facts. congruence.
    + apply Ey. rewrite <- Ex. f_equal.
      symmetry. eapply NoDup_map_eq; eauto.
  - rewrite Hg. intros Heq. exfalso. destruct new as [n|]; cbn [upd] in Heq.
    + specialize (Hfree x Hx Ex). cbn in Hfree. bool_facts. congruence.
    + apply Ex. rewrite <- Ey. f_equal.
      eapply NoDup_map_eq; eauto.
  - intros Heq. f_equal. eapply NoDup_map_eq; eauto.
Qed.

Lemma accounts_user_create n e p :
  preserves (fun st => keys_ok st /\ unique_accounts st)
    (prisma.user.create n e p).
Proof.
  intros st [Hk Hu]. split;
    [apply (proj1 keys_statementwise_keep); exact Hk|].
  revert st Hu Hk. statement.
  all: intros _; unfold unique_accounts in *; store_simpl; try exact H.
  destruct H as [Hn He]. rewrite !map_app. cbn [map User.username User.email].
  split; (apply NoDup_snoc; [assumption|]); intros Hin;
    apply in_map_iff in Hin; destruct Hin as [x [Hx Hin]];
    pose proof (existsb_false_all _ _ x Echeck Hin) as Hno;
    cbv beta in Hno; bool_facts; congruence.
Qed.

Lemma accounts_user_update id d :
  preserves (fun st => keys_ok st /\ unique_accounts st)
    (prisma.user.update id d).
Proof.
  intros st [Hk Hu]. split;
    [apply (proj1 (proj2 keys_statementwise_keep)); exact Hk|].
  revert st Hu Hk. statement.
  all: intros Hk; unfold unique_accounts in *; store_simpl; try exact H.
  destruct H as [Hn He]. destruct Hk as [[Hid _] _].
  assert (forall v, In v (users st) -> User.id v <> id ->
            taken (ud_username d) (User.username v) = false
            /\ taken (ud_email d) (User.email v) = false) as Hfree.
  { intros v Hv Hne. pose proof (existsb_false_all _ _ v Echeck Hv) as Hno.
    cbv beta in Hno. apply Z.eqb_neq in Hne. rewrite Hne in Hno.
    cbn [negb andb] in Hno. bool_facts. auto. }
  split.
  - apply (unique_after_update User.username (ud_username d)); auto.
    intros v Hv Hne. apply Hfree; assumption.
  - apply (unique_after_update User.email (ud_email d)); auto.
    intros v Hv Hne. apply Hfree; assumption.
Qed.

Lemma accounts_user_delete id :
  preserves (fun st => keys_ok st /\ unique_accounts st)
    (prisma.user.delete id).
Proof.
  intros st [Hk Hu]. split;
    [apply (proj1 (proj2 (proj2 keys_statementwise_keep))); exact Hk|].
  revert st Hu Hk. statement.
  all: intros _; unfold unique_accounts in *; store_simpl; try exact H.
  destruct H as [Hn He]. split; apply NoDup_map_filter; assumption.
Qed.

Lemma router_keeps_accounts token req st :
  keys_ok st -> unique_accounts st ->
  unique_accounts (snd (router token req st)).
Proof.
  intros Hk Hu.
  assert (keys_ok (snd (router token req st))
          /\ unique_accounts (snd (router token req st))) as [_ H];
    [|exact H].
  destruct keys_statementwise_keep
    as [H1 [H2 [H3 [H4 [H5 [H6 [H7 [H8 [H9 [H10 [H11 [H12 [H13 [H14 H15]]]]]]]]]]]]]].
  apply (router_keeps (fun st => keys_ok st /\ unique_accounts st));
    [apply accounts_user_create | apply accounts_user_update
    | apply accounts_user_delete | .. | split; assumption].
  all: intros; intros st0 [Hk0 Hu0]; split;
    [first [apply H4 | apply H5 | apply H6 | apply H7 | apply H8 | apply H9
           | apply H10 | apply H11 | apply H12 | apply H13 | apply H14
           | apply H15]; exact Hk0|].
  all: revert st0 Hu0 Hk0; statement.
  all: intros _; unfold unique_accounts in *; store_simpl; exact H.
Qed.

(** X4.  Whatever requests are served one after the other, no two
    users share a username and no two share an email.  (In a database
    whose serial keys are in order: a user key names one row.) *)
Theorem accounts_stay_unique reqs st :
  keys_ok st -> unique_accounts st -> unique_accounts (serve reqs st).
Proof.
  revert st. induction reqs as [|[token req] reqs IH]; intros st Hk Hu.
  - exact Hu.
  - cbn [serve]. apply IH.
    + apply router_keeps_keys. exact Hk.
    + apply router_keeps_accounts; assumption.
Qed.

Lemma accounts_stay_unique_witness :
  let taken_name :=
    mkUserBody (Val "alice") (Val "second@example.org") (Val "secret") in
  let taken_email :=
    mkUserBody Undefined (Val "alice@example.org") Undefined in
  status (fst (router None (POST_users_register taken_name) dragon_hunt)) = 400
  /\ status (fst (router bob (PUT_users_id (Some 2) taken_email) dragon_hunt))
     = 500
  /\ unique_accounts
       (serve [(None, POST_users_register taken_name);
               (bob, PUT_users_id (Some 2) taken_email)] dragon_hunt).
Proof.
  cbv zeta. split; [reflexivity|]. split; [reflexivity|].
  apply accounts_stay_unique; check_store.
Defined.

(** ** Who holds what *)

(** The session with key [i], if there is one, is run by [g]; keys from
    the sequence on are not in use. *)
Lemma game_master_statementwise i g :
  let I := fun st =>
    i < session_seq st
    /\ forall x, In x (sessions st) -> Session.id x = i -> Session.gmId x = g in
  forall token req st, I st -> I (snd (router token req st)).
Proof.
  cbv zeta. apply router_keeps; intros; statement.
  all: store_simpl; destruct H as [Hseq Hgm]; (split; [lia|]).
  all: intros y Hy Hid; row_origin; try (cbn in Hid; lia).
  all: try (revert Hid; split_ifs; cbn [apply_SessionData Session.id Session.gmId];
            intros Hid).
  all: eauto.
Qed.

(** The same for the owner of a character and for the session and the
    user of a participant row. *)
Lemma owner_statementwise i o :
  let I := fun st =>
    i < character_seq st
    /\ forall x, In x (characters st) -> Character.id x = i ->
         Character.userId x = o in
  forall token req st, I st -> I (snd (router token req st)).
Proof.
  cbv zeta. apply router_keeps; intros; statement.
  all: store_simpl; destruct H as [Hseq Ho]; (split; [lia|]).
  all: intros y Hy Hid; row_origin; try (cbn in Hid; lia).
  all: try (revert Hid; rewrite ?character_detach_id, ?character_detach_userId;
            split_ifs;
            cbn [apply_CharacterData Character.id Character.userId];
            intros Hid).
  all: eauto.
Qed.

Lemma seat_statementwise i s u :
  let I := fun st =>
    i < participant_seq st
    /\ forall x, In x (participants st) -> SessionParticipants.id x = i ->
         SessionParticipants.sessionId x = s
         /\ SessionParticipants.userId x = u in
  forall token req st, I st -> I (snd (router token req st)).
Proof.
  cbv zeta. apply router_keeps; intros; statement.
  all: store_simpl; destruct H as [Hseq Ho]; (split; [lia|]).
  all: intros y Hy Hid; row_origin; try (cbn in Hid; lia).
  all: try (revert Hid; unfold participant_detach; split_ifs;
            cbn [apply_ParticipantData SessionParticipants.id
                 SessionParticipants.sessionId SessionParticipants.userId];
            intros Hid).
  all: eauto.
Qed.

Lemma serve_invariant (I : Store -> Prop) :
  (forall token req st, I st -> I (snd (router token req st))) ->
  forall reqs st, I st -> I (serve reqs st).
Proof.
  intros Hstep reqs. induction reqs as [|[token req] reqs IH]; intros st H.
  - exact H.
  - cbn [serve]. apply IH. apply Hstep. exact H.
Qed.

(** X5.  No request hands anything over: whatever requests are
    served, a session that is still there has the game master it had, a
    character that is still there has the owner it had, and a participant
    row that is still there belongs to the session and the user it
    belonged to. *)
Theorem holders_never_change reqs st :
  keys_ok st ->
  let st' := serve reqs st in
  (forall s s', In s (sessions st) -> In s' (sessions st') ->
     Session.id s' = Session.id s -> Session.gmId s' = Session.gmId s)
  /\ (forall c c', In c (characters st) -> In c' (characters st') ->
        Character.id c' = Character.id c ->
        Character.userId c' = Character.userId c)
  /\ (forall p p', In p (participants st) -> In p' (participants st') ->
        SessionParticipants.id p' = SessionParticipants.id p ->
        SessionParticipants.sessionId p' = SessionParticipants.sessionId p
        /\ SessionParticipants.userId p' = SessionParticipants.userId p).
Proof.
  intros [_ [Hc [Hs [Hp _]]]]. cbv zeta. split; [|split].
  - intros s s' Hin Hin' Hid.
    refine (proj2 (serve_invariant _
              (game_master_statementwise (Session.id s) (Session.gmId s))
              reqs st _) s' Hin' Hid).
    split; [exact (proj2 (proj1 (Forall_forall _ _) (proj2 (proj2 Hs)) s Hin))|].
    intros x Hx Hk. f_equal.
    exact (serial_same_key Session.id _ _ x s Hs Hx Hin Hk).
  - intros c c' Hin Hin' Hid.
    refine (proj2 (serve_invariant _
              (owner_statementwise (Character.id c) (Character.userId c))
              reqs st _) c' Hin' Hid).
    split; [exact (proj2 (proj1 (Forall_forall _ _) (proj2 (proj2 Hc)) c Hin))|].
    intros x Hx Hk. f_equal.
    exact (serial_same_key Character.id _ _ x c Hc Hx Hin Hk).
  - intros p p' Hin Hin' Hid.
    refine (proj2 (serve_invariant _
              (seat_statementwise (SessionParticipants.id p)
                 (SessionParticipants.sessionId p)
                 (SessionParticipants.userId p))
              reqs st _) p' Hin' Hid).
    split; [exact (proj2 (proj1 (Forall_forall _ _) (proj2 (proj2 Hp)) p Hin))|].
    intros x Hx Hk.
    rewrite (serial_same_key SessionParticipants.id _ _ x p Hp Hx Hin Hk).
    auto.
Qed.

Lemma holders_never_change_witness :
  let renamed := Session.mk 1 "Dragon Hunt II" None None "en cours" 1 in
  let reqs :=
    [(alice, PUT_sessions_id (Some 1)
               (mkSessionBody (Val "Dragon Hunt II") Undefined Undefined
                  (Val "en cours")))] in
  In hunt_row (sessions dragon_hunt)
  /\ In renamed (sessions (serve reqs dragon_hunt))
  /\ Session.gmId renamed = Session.gmId hunt_row.
Proof.
  cbv zeta.
  assert (In hunt_row (sessions dragon_hunt)) as Hin
    by (vm_compute; tauto).
  assert (In (Session.mk 1 "Dragon Hunt II" None None "en cours" 1)
            (sessions
               (serve [(alice, PUT_sessions_id (Some 1)
                                 (mkSessionBody (Val "Dragon Hunt II")
                                    Undefined Undefined (Val "en cours")))]
                  dragon_hunt))) as Hin'
    by (vm_compute; tauto).
  split; [exact Hin|]. split; [exact Hin'|].
  refine (proj1 (holders_never_change _ dragon_hunt _) _ _ Hin Hin' eq_refl).
  check_store.
Defined.

(** ** Sessions ([sessionController]) *)

Lemma has_below {A} (key : A -> Z) l seq id :
  serial key l seq ->
  existsb (fun x => key x =? id) l = true -> 0 < id < seq.
Proof.
  intros [_ [_ Hall]] H. rewrite Forall_forall in Hall.
  apply existsb_exists in H. destruct H as [x [Hin Hk]]. bool_facts.
  subst id. auto.
Qed.

Lemma fk_opt_below {A} (key : A -> Z) l seq o :
  serial key l seq ->
  fk_opt (fun id => existsb (fun x => key x =? id) l) o = true ->
  o <> Some seq /\ o <> Some 0.
Proof.
  intros Hs H. destruct o as [z|]; [|split; discriminate].
  cbn in H. pose proof (has_below key l seq z Hs H).
  split; intros [= ->]; lia.
Qed.

Lemma authenticated_find st token u :
  authenticated st token u ->
  token = Some (User.id u)
  /\ find (fun x => User.id x =? User.id u) (users st) = Some u.
Proof.
  unfold authenticated, middleware.extractUserFromToken.
  destruct token as [id|]; [|discriminate]. intros H.
  pose proof (find_In _ _ _ H) as [_ Hid]. bool_facts. subst id. auto.
Qed.

(** Nothing refers to the key the next session will get. *)
Lemma next_session_unreferenced st :
  keys_ok st -> references_ok st ->
  (forall p, In p (participants st) ->
     (SessionParticipants.sessionId p =? session_seq st) = false)
  /\ (forall c, In c (characters st) ->
        eq_opt (Character.sessionId c) (session_seq st) = false)
  /\ (forall d, In d (diceRolls st) ->
        (DiceRoll.sessionId d =? session_seq st) = false).
Proof.
  intros [_ [_ [Hs _]]] Hr. apply references_ok_forall in Hr.
  destruct Hr as [Hc [_ [Hp Hd]]]. unfold has_session in *.
  split; [|split].
  - intros p Hin. destruct (Hp p Hin) as [H _].
    pose proof (has_below Session.id _ _ _ Hs H). apply Z.eqb_neq. lia.
  - intros c Hin. destruct (Hc c Hin) as [_ H].
    destruct (fk_opt_below Session.id _ _ _ Hs H) as [Hne _].
    destruct (eq_opt _ _) eqn:E; [|reflexivity].
    apply eq_opt_true in E. contradiction.
  - intros d Hin. destruct (Hd d Hin) as [_ [H _]].
    pose proof (has_below Session.id _ _ _ Hs H). apply Z.eqb_neq. lia.
Qed.

Lemma find_new {A} (key : A -> Z) l x seq :
  serial key l seq -> key x = seq ->
  find (fun y => key y =? seq) (l ++ [x]) = Some x.
Proof.
  intros Hs Hx. rewrite find_app_none.
  - cbn. rewrite Hx, Z.eqb_refl. reflexivity.
  - destruct (find _ l) as [y|] eqn:E; [|reflexivity].
    apply find_In in E. destruct E as [Hin Hk]. bool_facts.
    pose proof (serial_fresh key l seq y Hs Hin). contradiction.
Qed.

Lemma filter_new {A} (p : A -> bool) l x :
  (forall y, In y l -> p y = false) -> p x = true ->
  filter p (l ++ [x]) = [x].
Proof.
  intros Hl Hx. rewrite filter_app, (filter_none _ _ Hl). cbn.
  rewrite Hx. reflexivity.
Qed.

(** What [POST /sessions] does for an authenticated user who gives a
    title. *)
Lemma createSession_created st token u body :
  authenticated st token u ->
  truthy (sb_title body) = true ->
  let s := Session.mk (session_seq st) (str (sb_title body))
             (nullable (sb_description body))
             (if_truthy (sb_scheduledAt body))
             (or_default (sb_status body) "planifiée") (User.id u) in
  let seat := SessionParticipants.mk (participant_seq st) (session_seq st)
                (User.id u) None "mj" in
  router token (POST_sessions body) st
  = (mkResponse 201 true "Session créée avec succès" (PSession s),
     set_participants (participants st ++ [seat])
       (next_participant_seq
          (set_sessions (sessions st ++ [s]) (next_session_seq st)))).
Proof.
  intros Hauth Htitle. cbv zeta.
  destruct (authenticated_row _ _ _ Hauth) as [_ Huser].
  enter_route Hauth. unfold sessionController.createSession.
  run_monad. rewrite Htitle. cbn [negb]. unfold has_user in Huser.
  store_simpl_goal. rewrite Huser. cbv beta iota. store_simpl_goal.
  cbn [Session.id]. rewrite (has_snoc_new Session.id) by reflexivity.
  rewrite Huser. cbn [andb fk_opt]. reflexivity.
Qed.



Lemma participant_row_has st id p :
  participant_row st id p ->
  has_participant st id = true /\ SessionParticipants.id p = id
  /\ In p (participants st).
Proof.
  intros H. pose proof (find_In _ _ _ H) as [Hin Hid]. bool_facts.
  split; [|auto]. unfold has_participant. rewrite existsb_find.
  unfold participant_row in H. rewrite H. reflexivity.
Qed.

(** X7.  The two handlers that remove a participant
    agree: for a participant row of an existing session,
    [DELETE /sessions/:id/participants/:participantId] with the session of
    the row and [DELETE /session-participants/:id] give the same answer and
    the same database, whoever asks.  With any other session key of 32
    bits the first one answers 404 and removes nothing. *)
Theorem removeParticipant_entry_points_agree st u id p s :
  participant_row st id p ->
  session_row st (SessionParticipants.sessionId p) s ->
  sessionController.removeParticipant (Some u)
    (Some (SessionParticipants.sessionId p)) (Some id) st
  = sessionParticipantsController.removeParticipant (Some u) (Some id) st
  /\ (forall sid, sid <> SessionParticipants.sessionId p ->
        int32 sid = true ->
        let r := sessionController.removeParticipant (Some u) (Some sid)
                   (Some id) st in
        status (fst r) = 404 /\ snd r = st).
Proof.
  intros Hp Hs. destruct (participant_row_has _ _ _ Hp) as [Hhas _].
  unfold participant_row in Hp. unfold session_row in Hs.
  unfold has_participant in Hhas. split.
  - unfold sessionController.removeParticipant,
      sessionParticipantsController.removeParticipant,
      sessionParticipantsController.session_with_participants.
    run_monad. rewrite Hs, Hp. cbv beta iota. rewrite Hs, Z.eqb_refl.
    cbn [negb fst snd].
    destruct (Session.gmId s =? User.id u),
      (first_row_is_admin _ (User.id u)),
      (SessionParticipants.userId p =? User.id u); cbn [negb andb];
      try reflexivity.
    all: unfold has_participant; rewrite Hhas; reflexivity.
  - intros sid Hne _. cbv zeta. unfold sessionController.removeParticipant.
    run_monad.
    destruct (find (fun x => Session.id x =? sid) (sessions st)); [|auto].
    cbv beta iota. rewrite Hp.
    assert ((SessionParticipants.sessionId p =? sid) = false) as ->
      by (apply Z.eqb_neq; auto).
    auto.
Qed.

Lemma removeParticipant_entry_points_agree_witness :
  sessionController.removeParticipant (Some bob_row) (Some 1) (Some 2) with_bob
  = sessionParticipantsController.removeParticipant (Some bob_row) (Some 2)
      with_bob
  /\ participants
       (snd (sessionController.removeParticipant (Some bob_row) (Some 1)
               (Some 2) with_bob))
     = [SessionParticipants.mk 1 1 1 None "mj"]
  /\ status (fst (sessionController.removeParticipant (Some bob_row) (Some 7)
                    (Some 2) with_bob)) = 404.
Proof.
  pose proof (removeParticipant_entry_points_agree with_bob bob_row 2 bob_seat
                hunt_row eq_refl eq_refl) as [H1 H2].
  split; [exact H1|]. split; [reflexivity|].
  exact (proj1 (H2 7 ltac:(discriminate) eq_refl)).
Defined.

(** What [POST /sessions/:id/participants] did when it answers 201. *)
Lemma addParticipant_created st u sid body p :
  fst (sessionController.addParticipant (Some u) (Some sid) body st)
  = mkResponse 201 true "Participant ajouté avec succès" (PParticipant p) ->
  exists s,
    find (fun x => Session.id x =? sid) (sessions st) = Some s
    /\ negb (num (pb_userId body) =? User.id u)
       && negb (Session.gmId s =? User.id u)
       && negb (first_row_is_admin (participants_of st sid) (User.id u))
       = false
    /\ truthy (pb_userId body) = true
    /\ find (member_of sid (num (pb_userId body))) (participants st) = None
    /\ p = SessionParticipants.mk (participant_seq st) sid
             (num (pb_userId body)) (nullable (pb_characterId body))
             (if (num (pb_userId body) =? User.id u)
                 && negb (Session.gmId s =? User.id u)
              then "joueur" else str (pb_role body))
    /\ snd (sessionController.addParticipant (Some u) (Some sid) body st)
       = set_participants (participants st ++ [p]) (next_participant_seq st).
Proof.
  unfold sessionController.addParticipant. run_handler.
  all: intros Hok; try discriminate Hok.
  all: injection Hok as <-; eexists; repeat split; try eassumption;
    try reflexivity.
  all: try match goal with
       | H : ?c = _ |- context [if ?c then _ else _] =>
         rewrite H; reflexivity
       | H : truthy ?f = false |- ?f = None =>
         destruct f; [discriminate H|reflexivity]
       end.
  all: bool_facts; assumption.
Qed.

Lemma first_row_is_admin_app l l' uid :
  first_row_is_admin l uid = true -> first_row_is_admin (l ++ l') uid = true.
Proof.
  unfold first_row_is_admin. destruct (find _ l) as [q|] eqn:E;
    [|discriminate].
  rewrite (find_app_some _ _ l' _ E). auto.
Qed.

Lemma filter_old {A} (key : A -> Z) l x seq :
  serial key l seq -> key x = seq ->
  filter (fun y => negb (key y =? seq)) (l ++ [x]) = l.
Proof.
  intros Hs Hx. rewrite filter_app. cbn. rewrite Hx, Z.eqb_refl. cbn.
  rewrite app_nil_r. apply filter_all. intros y Hin.
  apply negb_true_iff, Z.eqb_neq. exact (serial_fresh key l seq y Hs Hin).
Qed.

Lemma authenticated_users st st' token u :
  users st' = users st -> authenticated st token u -> authenticated st' token u.
Proof.
  unfold authenticated, middleware.extractUserFromToken. intros ->. auto.
Qed.

(** X8.  Adding a participant and removing the new row again
    gives the database back: whoever was allowed to add a participant
    through [POST /sessions/:id/participants] is allowed to remove that row
    through [DELETE /sessions/:id/participants/:participantId], and
    afterwards only the serial number of the participant table has moved. *)
Theorem addParticipant_then_remove st token u sid body p :
  keys_ok st ->
  authenticated st token u ->
  fst (router token (POST_sessions_id_participants (Some sid) body) st)
  = mkResponse 201 true "Participant ajouté avec succès" (PParticipant p) ->
  let st1 :=
    snd (router token (POST_sessions_id_participants (Some sid) body) st) in
  let r :=
    router token
      (DELETE_sessions_id_participants_id (Some sid)
         (Some (SessionParticipants.id p))) st1 in
  participants st1 = (participants st ++ [p])%list
  /\ fst r = mkResponse 200 true "Participant retiré avec succès" NoPayload
  /\ snd r = next_participant_seq st.
Proof.
  intros Hk Hauth. cbv zeta. enter_route Hauth. intros Hok.
  destruct (addParticipant_created st u sid body p Hok)
    as [s [Hs [Hallowed [_ [_ [Hp ->]]]]]].
  assert (SessionParticipants.id p = participant_seq st) as Hid
    by (rewrite Hp; reflexivity).
  assert (SessionParticipants.sessionId p = sid) as Hsid
    by (rewrite Hp; reflexivity).
  assert (SessionParticipants.userId p = num (pb_userId body)) as Huid
    by (rewrite Hp; reflexivity).
  clear Hp Hok. split; [reflexivity|].
  assert (authenticated
            (set_participants (participants st ++ [p])
               (next_participant_seq st)) token u) as Hauth'
    by (apply (authenticated_users st); [reflexivity|exact Hauth]).
  enter_route Hauth'. destruct Hk as [_ [_ [_ [Hkp _]]]].
  unfold sessionController.removeParticipant. run_monad.
  store_simpl_goal. rewrite Hs. cbv beta iota. store_simpl_goal.
  rewrite Hid, (find_new SessionParticipants.id _ _ _ Hkp Hid).
  cbv beta iota. rewrite Hsid, Z.eqb_refl. cbn [negb]. cbv beta iota.
  assert (negb (Session.gmId s =? User.id u)
          && negb (first_row_is_admin
                     (participants_of
                        (set_participants (participants st ++ [p])
                           (next_participant_seq st)) sid) (User.id u))
          && negb (SessionParticipants.userId p =? User.id u) = false) as ->.
  { rewrite Huid. unfold participants_of in *. store_simpl_goal.
    rewrite filter_app.
    destruct (num (pb_userId body) =? User.id u);
      [rewrite andb_false_r; reflexivity|].
    destruct (Session.gmId s =? User.id u); [reflexivity|].
    cbn [negb andb] in Hallowed. apply negb_false_iff in Hallowed.
    rewrite (first_row_is_admin_app _ _ _ Hallowed). reflexivity. }
  cbv beta iota. unfold has_participant. store_simpl_goal.
  rewrite (has_snoc_new SessionParticipants.id) by exact Hid.
  cbv beta iota. store_simpl_goal.
  rewrite (filter_old SessionParticipants.id _ _ _ Hkp Hid).
  split; reflexivity.
Qed.

Lemma addParticipant_then_remove_witness :
  let seat := SessionParticipants.mk 2 1 3 None "observateur" in
  let st1 :=
    snd (router alice
           (POST_sessions_id_participants (Some 1) (join 3 "observateur"))
           dragon_hunt) in
  participants st1 = (participants dragon_hunt ++ [seat])%list
  /\ snd (router alice (DELETE_sessions_id_participants_id (Some 1) (Some 2))
            st1)
     = next_participant_seq dragon_hunt.
Proof.
  cbv zeta.
  assert (keys_ok dragon_hunt) as Hk by check_store.
  destruct (addParticipant_then_remove dragon_hunt alice alice_row 1
              (join 3 "observateur")
              (SessionParticipants.mk 2 1 3 None "observateur")
              Hk eq_refl eq_refl) as [H1 [_ H3]].
  split; [exact H1|exact H3].
Defined.

(** ** From any account to "system admin" *)

(** Whoever holds an "admin" row passes the guard of [PUT /users/:id] and
    of [DELETE /users/:id], whose account it may be. *)
Lemma system_admin_passes st token u id body :
  authenticated st token u ->
  isSystemAdmin st u ->
  status (fst (router token (PUT_users_id id body) st)) <> 403
  /\ status (fst (router token (DELETE_users_id id) st)) <> 403.
Proof.
  intros Hauth Hadmin. apply is_admin_row_iff in Hadmin.
  split; enter_route Hauth.
  - unfold userController.updateUser. run_handler.
    all: try (cbn; discriminate).
    all: bool_facts; congruence.
  - unfold userController.deleteUser. run_handler.
    all: try (cbn; discriminate).
    all: bool_facts; congruence.
Qed.



(** ** Characters ([characterController]) *)

(** Nothing refers to the key the next character will get. *)
Lemma next_character_unreferenced st :
  keys_ok st -> references_ok st ->
  (forall p, In p (participants st) ->
     eq_opt (SessionParticipants.characterId p) (character_seq st) = false)
  /\ (forall d, In d (diceRolls st) ->
        eq_opt (DiceRoll.characterId d) (character_seq st) = false).
Proof.
  intros [_ [Hc _]] Hr. apply references_ok_forall in Hr.
  destruct Hr as [_ [_ [Hp Hd]]]. unfold has_character in *.
  split.
  - intros p Hin. destruct (Hp p Hin) as [_ [_ H]].
    destruct (fk_opt_below Character.id _ _ _ Hc H) as [Hne _].
    destruct (eq_opt _ _) eqn:E; [|reflexivity].
    apply eq_opt_true in E. contradiction.
  - intros d Hin. destruct (Hd d Hin) as [_ [_ H]].
    destruct (fk_opt_below Character.id _ _ _ Hc H) as [Hne _].
    destruct (eq_opt _ _) eqn:E; [|reflexivity].
    apply eq_opt_true in E. contradiction.
Qed.

(** X10.  [POST /characters] answers 400 without a name, a
    race, a class or a level, and takes the level 0 for a missing one.
    Otherwise, for values the database takes (a level of 32 bits, texts
    without a zero byte, no plain [null] for a [Json] column), the new
    character belongs to the user who asked, is alive and is attached to
    no session, whatever the request says about [isAlive] and
    [sessionId]; its owner can view it at once, with no roll and no
    participant row attached. *)
Theorem createCharacter_then_view st token u body :
  keys_ok st -> references_ok st ->
  authenticated st token u ->
  let complete :=
    truthy (cb_name body) && truthy (cb_race body) && truthy (cb_class body)
    && truthy (cb_level body) in
  let c := Character.mk (character_seq st) (str (cb_name body))
             (str (cb_race body)) (str (cb_class body)) (num (cb_level body))
             (nullable (cb_background body)) (nullable (cb_inventory body))
             (nullable (cb_stats body)) true (User.id u) None in
  let r := router token (POST_characters body) st in
  truthy (Val 0) = false
  /\ (complete = false ->
      r = (fail 400 "Les champs name, race, class et level sont obligatoires",
           st))
  /\ (complete = true -> character_body_ok body = true ->
      r = (mkResponse 201 true "Personnage créé avec succès" (PCharacter c),
           set_characters (characters st ++ [c]) (next_character_seq st))
      /\ fst (characterController.getCharacterById (Some u)
                (Some (character_seq st)) (snd r))
         = Found (mkCharacterView c (Some (select_contact u)) None [] [])).
Proof.
  intros Hk Hr Hauth. cbv zeta. split; [reflexivity|].
  destruct (authenticated_row _ _ _ Hauth) as [_ Huser].
  destruct (authenticated_find _ _ _ Hauth) as [_ Hfind].
  destruct (next_character_unreferenced st Hk Hr) as [Hp Hd].
  enter_route Hauth. unfold characterController.createCharacter.
  run_monad. split.
  - intros Hmissing.
    assert (negb (truthy (cb_name body)) || negb (truthy (cb_race body))
            || negb (truthy (cb_class body)) || negb (truthy (cb_level body))
            = true) as ->; [|reflexivity].
    destruct (truthy (cb_name body)), (truthy (cb_race body)),
      (truthy (cb_class body)), (truthy (cb_level body));
      try discriminate Hmissing; reflexivity.
  - intros Hcomplete _. bool_facts.
    repeat match goal with H : truthy _ = true |- _ => rewrite H; clear H end.
    cbn [negb orb]. cbv beta iota. unfold has_user in Huser.
    store_simpl_goal. rewrite Huser. cbv beta iota. split; [reflexivity|].
    cbn [fst snd]. unfold characterController.getCharacterById.
    unfold try_catch_read. run_monad. store_simpl_goal.
    destruct Hk as [_ [Hkc _]].
    rewrite (find_new Character.id _ _ _ Hkc) by reflexivity.
    cbv beta iota. unfold character_view, session_of. store_simpl_goal.
    cbn [Character.sessionId Character.userId Character.id cv_session].
    rewrite Z.eqb_refl. cbn [negb andb]. cbv beta iota.
    cbn [fst]. rewrite Hfind. cbn [option_map].
    rewrite (filter_none _ _ Hp), (filter_none _ _ Hd). reflexivity.
Qed.

Lemma createCharacter_then_view_witness :
  let body :=
    mkCharacterBody (Val "Boromir") (Val "human") (Val "fighter") (Val (-4))
      Undefined Undefined Undefined (Val false) (Val 1) in
  let c := Character.mk 1 "Boromir" "human" "fighter" (-4) None None None
             true 3 None in
  let r := router carol (POST_characters body) with_bob in
  fst r = mkResponse 201 true "Personnage créé avec succès" (PCharacter c)
  /\ fst (characterController.getCharacterById (Some carol_row) (Some 1)
            (snd r))
     = Found (mkCharacterView c
                (Some (mkUserContact 3 "carol" "carol@example.org")) None []
                []).
Proof.
  cbv zeta.
  assert (keys_ok with_bob) as Hk by check_store.
  assert (references_ok with_bob) as Hr by check_store.
  destruct (proj2 (proj2 (createCharacter_then_view with_bob carol carol_row
              (mkCharacterBody (Val "Boromir") (Val "human") (Val "fighter")
                 (Val (-4)) Undefined Undefined Undefined (Val false) (Val 1))
              Hk Hr eq_refl)) eq_refl eq_refl) as [H1 H2].
  split; [rewrite H1; reflexivity|exact H2].
Defined.

Lemma character_row_has st id c :
  character_row st id c ->
  has_character st id = true /\ Character.id c = id /\ In c (characters st).
Proof.
  intros H. pose proof (find_In _ _ _ H) as [Hin Hid]. bool_facts.
  split; [|auto]. unfold has_character. rewrite existsb_find.
  unfold character_row in H. rewrite H. reflexivity.
Qed.

(** Rows that do not name the character are not touched when it goes. *)
Lemma detach_nothing {A} (ref : A -> option Z) (detach : list Z -> A -> A)
  (l : list A) (chars : list Character.t) id :
  (forall gone x, mem_opt (ref x) gone = false -> detach gone x = x) ->
  map (detach (map Character.id
                 (filter (fun c => Character.id c =? id) chars)))
    (filter (fun x => negb (eq_opt (ref x) id)) l)
  = filter (fun x => negb (eq_opt (ref x) id)) l.
Proof.
  intros Hdetach. apply map_id_in. intros x Hin. apply Hdetach.
  apply filter_In in Hin. destruct Hin as [_ Hne].
  destruct (ref x) as [z|] eqn:E; [|reflexivity]. cbn in *.
  destruct (mem z _) eqn:Hm; [|reflexivity].
  apply mem_map_filter_key in Hm. subst z. rewrite Z.eqb_refl in Hne.
  discriminate.
Qed.

Lemma participant_detach_nothing gone p :
  mem_opt (SessionParticipants.characterId p) gone = false ->
  participant_detach gone p = p.
Proof. unfold participant_detach. intros ->. reflexivity. Qed.

Lemma diceRoll_detach_nothing gone d :
  mem_opt (DiceRoll.characterId d) gone = false -> diceRoll_detach gone d = d.
Proof. unfold diceRoll_detach. intros ->. reflexivity. Qed.

(** X11.  [DELETE /characters/:id] on an existing character is
    answered 403, with nothing changed, to a principal who neither owns it
    nor holds an "admin" row in some session.  For the owner and for such
    an admin it is answered 200: the character is gone, and so is every
    participant row and every roll that named it (a user who sat in a
    session with that character is no longer a participant of it); the
    other rows are as they were. *)
Theorem deleteCharacter_outcome st token u id c :
  authenticated st token u ->
  character_row st id c ->
  let r := router token (DELETE_characters_id (Some id)) st in
  (Character.userId c <> User.id u -> ~ isSystemAdmin st u ->
   r = (fail 403 "Vous n'êtes pas autorisé à supprimer ce personnage", st))
  /\ (Character.userId c = User.id u \/ isSystemAdmin st u ->
      r = (mkResponse 200 true "Personnage supprimé avec succès" NoPayload,
           set_characters
             (filter (fun x => negb (Character.id x =? id)) (characters st))
             (set_participants
                (filter (fun p => negb (eq_opt
                                          (SessionParticipants.characterId p)
                                          id)) (participants st))
                (set_diceRolls
                   (filter (fun d => negb (eq_opt (DiceRoll.characterId d) id))
                      (diceRolls st)) st)))).
Proof.
  intros Hauth Hc. cbv zeta.
  destruct (character_row_has _ _ _ Hc) as [Hhas _].
  unfold character_row in Hc. unfold has_character in Hhas.
  enter_route Hauth. unfold characterController.deleteCharacter.
  run_monad. rewrite Hc. cbv beta iota. split.
  - intros Hother Hno.
    assert ((Character.userId c =? User.id u) = false) as ->
      by (apply Z.eqb_neq; exact Hother).
    assert (truthy (find (is_admin_row (User.id u)) (participants st)) = false)
      as ->.
    { destruct (truthy _) eqn:E; [|reflexivity].
      apply is_admin_row_iff in E. contradiction. }
    reflexivity.
  - intros Hallowed.
    assert (negb (Character.userId c =? User.id u)
            && negb (truthy (find (is_admin_row (User.id u))
                               (participants st))) = false) as ->.
    { destruct Hallowed as [->|Hadmin].
      - rewrite Z.eqb_refl. reflexivity.
      - apply is_admin_row_iff in Hadmin. rewrite Hadmin.
        apply andb_false_r. }
    cbv beta iota. unfold has_character. store_simpl_goal. rewrite Hhas.
    cbv beta iota. store_simpl_goal.
    rewrite (detach_nothing SessionParticipants.characterId participant_detach)
      by apply participant_detach_nothing.
    rewrite (detach_nothing DiceRoll.characterId diceRoll_detach)
      by apply diceRoll_detach_nothing.
    reflexivity.
Qed.

Lemma deleteCharacter_outcome_witness :
  let r := router bob (DELETE_characters_id (Some 1)) with_roll in
  isParticipant with_roll 1 2
  /\ status (fst (router carol (DELETE_characters_id (Some 1)) with_roll)) = 403
  /\ status (fst r) = 200
  /\ participants (snd r) = [SessionParticipants.mk 1 1 1 None "mj"]
  /\ diceRolls (snd r) = [].
Proof.
  cbv zeta. split.
  { exists (SessionParticipants.mk 2 1 2 (Some 1) "joueur").
    split; [vm_compute; tauto|split; reflexivity]. }
  pose proof (deleteCharacter_outcome with_roll bob bob_row 1
                (Character.mk 1 "Legolas" "elf" "ranger" 1 None None None true
                   2 (Some 1)) eq_refl eq_refl) as [_ H].
  cbv zeta in H. rewrite (H (or_introl eq_refl)).
  split; [reflexivity|]. split; [reflexivity|]. split; reflexivity.
Defined.

Lemma find_owned st cid c uid :
  character_row st cid c -> Character.userId c = uid ->
  find (owned_character cid uid) (characters st) = Some c.
Proof.
  unfold character_row, owned_character. intros Hc Hu.
  induction (characters st) as [|a l IH]; cbn in *; [discriminate|].
  destruct (Character.id a =? cid); cbn.
  - injection Hc as ->. rewrite Hu, Z.eqb_refl. reflexivity.
  - apply IH. exact Hc.
Qed.

Lemma is_participant_of st sid uid :
  existsb (fun p => SessionParticipants.userId p =? uid)
    (participants_of st sid) = true
  <-> isParticipant st sid uid.
Proof.
  unfold participants_of, isParticipant. rewrite existsb_exists. split.
  - intros [p [Hin Hu]]. apply filter_In in Hin. destruct Hin as [Hin Hs].
    bool_facts. exists p. auto.
  - intros [p [Hin [Hs Hu]]]. exists p. split.
    + apply filter_In. split; [exact Hin|]. apply Z.eqb_eq. exact Hs.
    + apply Z.eqb_eq. exact Hu.
Qed.

(** X12.  The owner of a character who is the game master or a
    participant of an existing session can attach the character to it:
    the answer is 200, the character names the session, and the owner has
    a participant row of the session that names the character.  If they
    had a row its role is kept; if they had none (a game master who left)
    they get a new row with the role "joueur". *)
Theorem associateWithSession_attaches st token u cid c sid s :
  authenticated st token u ->
  character_row st cid c -> Character.userId c = User.id u ->
  sid <> 0 -> session_row st sid s ->
  isGM s u \/ isParticipant st sid (User.id u) ->
  let r := router token
             (PUT_characters_id_assign_session (Some cid) (Val sid)) st in
  fst r = mkResponse 200 true "Personnage associé à la session avec succès"
            (PCharacter (to_session (Some sid) c))
  /\ characters (snd r)
     = replace Character.id cid (to_session (Some sid)) (characters st)
  /\ character_row (snd r) cid (to_session (Some sid) c)
  /\ (exists seat,
        In seat (participants (snd r))
        /\ SessionParticipants.sessionId seat = sid
        /\ SessionParticipants.userId seat = User.id u
        /\ SessionParticipants.characterId seat = Some cid)
  /\ (isParticipant st sid (User.id u) ->
      map SessionParticipants.role (participants (snd r))
      = map SessionParticipants.role (participants st))
  /\ (~ isParticipant st sid (User.id u) ->
      participants (snd r)
      = (participants st ++
         [SessionParticipants.mk (participant_seq st) sid (User.id u)
            (Some cid) "joueur"])%list).
Proof.
  intros Hauth Hc Hown Hsid Hs Hmember. cbv zeta.
  destruct (authenticated_row _ _ _ Hauth) as [_ Huser].
  destruct (character_row_has _ _ _ Hc) as [Hhas [Hcid _]].
  pose proof (session_row_has _ _ _ Hs) as Hsession.
  pose proof (find_owned st cid c (User.id u) Hc Hown) as Hfound.
  assert ((negb (existsb (fun p => SessionParticipants.userId p =? User.id u)
                   (participants_of st sid))
           && negb (Session.gmId s =? User.id u)) = false) as Hallowed.
  { destruct Hmember as [Hgm|Hp].
    - unfold isGM in Hgm. rewrite Hgm, Z.eqb_refl. apply andb_false_r.
    - apply is_participant_of in Hp. rewrite Hp. reflexivity. }
  assert (has_character
            (set_characters
               (replace Character.id cid (to_session (Some sid))
                  (characters st)) st) cid = true) as Hhas'.
  { unfold has_character, to_session. store_simpl_goal.
    rewrite (has_replace Character.id) by reflexivity. exact Hhas. }
  unfold character_row in Hc. unfold session_row in Hs.
  unfold has_user in Huser. unfold has_session in Hsession.
  unfold has_character in Hhas, Hhas'. store_simpl.
  unfold to_session, with_character in *.
  enter_route Hauth. unfold characterController.associateWithSession.
  run_monad. cbn [defined negb if_truthy].
  assert (truthy sid = true) as ->
    by (unfold truthy, truthy_Z; apply negb_true_iff, Z.eqb_neq; exact Hsid).
  cbv beta iota. rewrite Hfound. cbn [truthy truthy_option negb].
  cbv beta iota. rewrite Hs. cbv beta iota. rewrite Hallowed.
  cbv beta iota. rewrite Hc. cbn [fk_set fk_opt cd_sessionId].
  unfold has_session. rewrite Hsession. cbv beta iota. store_simpl_goal.
  destruct (find (member_of sid (User.id u)) (participants st))
    as [seat|] eqn:Hseat.
  - pose proof (find_In _ _ _ Hseat) as [Hin Hm]. unfold member_of in Hm.
    bool_facts.
    destruct (find (fun p => SessionParticipants.id p
                             =? SessionParticipants.id seat) (participants st))
      as [seat0|] eqn:Hseat0.
    2:{ exfalso. revert Hseat0. apply find_exists. exists seat.
        split; [exact Hin|apply Z.eqb_refl]. }
    cbv beta iota. store_simpl_goal. rewrite Hseat0.
    cbn [fk_set fk_opt pd_characterId].
    unfold has_character. store_simpl_goal. rewrite Hhas'.
    cbv beta iota. store_simpl_goal.
    split; [reflexivity|]. split; [reflexivity|]. split.
    { unfold character_row. store_simpl_goal.
      apply find_replace; [reflexivity|exact Hc]. }
    split.
    { eexists. split.
      - unfold replace. apply in_map_iff. exists seat.
        rewrite Z.eqb_refl. split; [reflexivity|exact Hin].
      - cbn. auto. }
    split.
    + intros _. unfold replace. rewrite map_map. apply map_ext.
      intros p.
      destruct (SessionParticipants.id p =? SessionParticipants.id seat);
        reflexivity.
    + intros Hno. exfalso. apply Hno. exists seat. auto.
  - cbv beta iota. store_simpl_goal. rewrite Hsession, Huser, Hhas'.
    cbn [andb fk_opt]. cbv beta iota. store_simpl_goal.
    split; [reflexivity|]. split; [reflexivity|]. split.
    { unfold character_row. store_simpl_goal.
      apply find_replace; [reflexivity|exact Hc]. }
    split.
    { eexists. split; [apply in_app_iff; right; left; reflexivity|].
      cbn. auto. }
    split.
    + intros Hp. apply member_of_iff in Hp. rewrite Hseat in Hp.
      discriminate.
    + intros _. reflexivity.
Qed.

Lemma associateWithSession_attaches_witness :
  let st := snd (router bob (POST_characters (new_character "Legolas"))
                   with_bob) in
  let r := router bob (PUT_characters_id_assign_session (Some 1) (Val 1)) st in
  participants st = [SessionParticipants.mk 1 1 1 None "mj"; bob_seat]
  /\ status (fst r) = 200
  /\ map SessionParticipants.role (participants (snd r)) = ["mj"; "joueur"]
  /\ map SessionParticipants.characterId (participants (snd r))
     = [None; Some 1].
Proof.
  cbv zeta. split; [reflexivity|].
  assert (isParticipant
            (snd (router bob (POST_characters (new_character "Legolas"))
                    with_bob)) 1 2) as Hp.
  { exists bob_seat. split; [vm_compute; tauto|split; reflexivity]. }
  pose proof (associateWithSession_attaches
                (snd (router bob (POST_characters (new_character "Legolas"))
                        with_bob))
                bob bob_row 1
                (Character.mk 1 "Legolas" "elf" "ranger" 1 None None None true
                   2 None)
                1 hunt_row eq_refl eq_refl eq_refl ltac:(discriminate) eq_refl
                (or_intror Hp)) as [H1 [_ [_ [_ [H5 _]]]]].
  cbv zeta in H1, H5. split; [rewrite H1; reflexivity|].
  split; [rewrite (H5 Hp); reflexivity|reflexivity].
Defined.

(** X13.  With [sessionId: null] (or 0) the owner detaches the
    character: the answer is 200 and the character names no session any
    more.  The participant rows are left as they are: a row that named the
    character still names it. *)
Theorem associateWithSession_detaches st token u cid c sessionId :
  authenticated st token u ->
  character_row st cid c -> Character.userId c = User.id u ->
  sessionId = Null \/ sessionId = Val 0 ->
  let r := router token
             (PUT_characters_id_assign_session (Some cid) sessionId) st in
  r = (mkResponse 200 true "Personnage dissocié de la session avec succès"
         (PCharacter (to_session None c)),
       set_characters
         (replace Character.id cid (to_session None) (characters st)) st)
  /\ participants (snd r) = participants st
  /\ character_row (snd r) cid (to_session None c).
Proof.
  intros Hauth Hc Hown Hnone. cbv zeta.
  pose proof (find_owned st cid c (User.id u) Hc Hown) as Hfound.
  assert (router token
            (PUT_characters_id_assign_session (Some cid) sessionId) st
          = (mkResponse 200 true
               "Personnage dissocié de la session avec succès"
               (PCharacter (to_session None c)),
             set_characters
               (replace Character.id cid (to_session None) (characters st))
               st)) as ->.
  { unfold character_row in Hc. unfold to_session.
    enter_route Hauth. unfold characterController.associateWithSession.
    run_monad.
    assert (defined sessionId = true /\ if_truthy sessionId = None)
      as [-> ->] by (destruct Hnone as [-> | ->]; split; reflexivity).
    cbn [negb]. cbv beta iota. rewrite Hfound.
    cbn [truthy truthy_option negb]. cbv beta iota. rewrite Hc.
    cbn [fk_set fk_opt cd_sessionId]. reflexivity. }
  cbn [snd]. split; [reflexivity|]. split; [reflexivity|].
  unfold character_row. store_simpl_goal.
  apply find_replace; [reflexivity|exact Hc].
Qed.

Lemma associateWithSession_detaches_witness :
  let r := router bob (PUT_characters_id_assign_session (Some 1) Null)
             with_legolas in
  status (fst r) = 200
  /\ map Character.sessionId (characters with_legolas) = [Some 1]
  /\ map Character.sessionId (characters (snd r)) = [None]
  /\ map SessionParticipants.characterId (participants (snd r))
     = [None; Some 1].
Proof.
  cbv zeta.
  pose proof (associateWithSession_detaches with_legolas bob bob_row 1
                (Character.mk 1 "Legolas" "elf" "ranger" 1 None None None true
                   2 (Some 1))
                Null eq_refl eq_refl eq_refl (or_introl eq_refl))
    as [H1 [H2 _]].
  cbv zeta in H1, H2. rewrite H2, H1.
  split; [reflexivity|]. split; [reflexivity|]. split; reflexivity.
Defined.

(** ** Participant rows and the characters they name *)

Lemma participant_detach_kept gone p c :
  SessionParticipants.characterId (participant_detach gone p) = Some c ->
  SessionParticipants.characterId p = Some c /\ mem c gone = false.
Proof.
  rewrite participant_detach_ref.
  destruct (mem_opt _ _) eqn:E; [discriminate|]. intros H.
  rewrite H in E. auto.
Qed.

Lemma owned_by_not_gone (w : Character.t -> bool) l c uid :
  owned_by l c uid ->
  mem c (map Character.id (filter w l)) = false ->
  owned_by (filter (fun x => negb (w x)) l) c uid.
Proof.
  intros [ch [Hin [Hid Hu]]] Hgone. exists ch. split; [|auto].
  apply filter_In. split; [exact Hin|].
  destruct (w ch) eqn:Hw; [|reflexivity]. exfalso.
  assert (mem c (map Character.id (filter w l)) = true) as H; [|congruence].
  apply mem_In, in_map_iff. exists ch. split; [exact Hid|].
  apply filter_In. auto.
Qed.

(** Where a participant row of the new table comes from. *)
Ltac seat_origin Hc :=
  repeat match goal with
  | H : In _ (_ ++ _) |- _ => apply in_app_iff in H; destruct H as [H|H]
  | H : In _ (filter _ _) |- _ =>
    let Hf := fresh "Hkept" in
    apply filter_In in H; destruct H as [H Hf]
  | H : In _ (map (participant_detach _) _) |- _ =>
    let y := fresh "y" in
    let Hn := fresh "Hnotgone" in
    apply in_map_iff in H; destruct H as [y [<- H]];
    apply participant_detach_kept in Hc; destruct Hc as [Hc Hn];
    rewrite ?participant_detach_userId
  | H : In _ (replace _ _ _ _) |- _ => unfold replace in H
  | H : In _ (map _ _) |- _ =>
    let y := fresh "y" in
    apply in_map_iff in H; destruct H as [y [<- H]]
  | H : In _ [_] |- _ => destruct H as [<-|[]]
  end.

Ltac owner_kept :=
  let x := fresh "x" in
  intros x; split; split_ifs; rewrite ?character_detach_id,
    ?character_detach_userId; reflexivity.

(** The character is still there, with its owner. *)
Ltac character_stays Hown :=
  repeat first
    [ exact Hown
    | apply owned_by_app
    | apply owned_by_not_gone; [|assumption]
    | apply owned_by_replace; [owner_kept|]
    | apply owned_by_map; [owner_kept|] ].

Lemma router_keeps_seats token req st :
  keys_ok st -> seats_with_own_characters st ->
  seats_with_own_characters (snd (router token req st)).
Proof.
  intros Hk Ho.
  pose proof (serial_no_zero Character.id _ _ (proj1 (proj2 Hk))) as Hzero.
  pose proof (proj1 (proj2 (proj2 (proj2 Hk)))) as Hkp.
  unfold router, sessionParticipantsRoutes_guard,
    middleware.isAuthenticated. cbv zeta.
  destruct (middleware.extractUserFromToken token st) as [u|];
    destruct req; try assumption.
  all: unfold_handlers; run_handler.
  all: try assumption.
  all: unfold seats_with_own_characters in *; store_simpl.
  all: intros p c Hin Hc; seat_origin Hc.
  all: try match goal with
       | H : In ?y (participants _),
         Hc : SessionParticipants.characterId ?y = Some ?c |- _ =>
         let Hown := fresh "Hown" in
         pose proof (Ho y c H Hc) as Hown; character_stays Hown
       end.
  (* the rows the request wrote *)
  all: try match type of Hc with
       | context [if ?b then _ else _] => destruct b eqn:Esame
       end.
  all: cbn [SessionParticipants.characterId SessionParticipants.userId
            apply_ParticipantData upd pd_characterId pd_role if_defined
            Session.id] in *.
  all: try discriminate Hc.
  all: try match goal with
       | H : In ?y (participants _),
         Hc : SessionParticipants.characterId ?y = Some ?c |- _ =>
         let Hown := fresh "Hown" in
         pose proof (Ho y c H Hc) as Hown; character_stays Hown
       end.
  all: try match type of Hc with
       | nullable ?f = _ => destruct f as [| |cid]; try discriminate Hc
       end.
  all: cbn [nullable num] in *.
  all: injection Hc as <-.
  all: repeat match goal with
       | Hf : find _ (participants _) = Some _ |- _ =>
         apply find_In in Hf; destruct Hf as [? Hf]; try unfold member_of in Hf
       end.
  all: bool_facts.
  all: repeat match goal with
       | Hy : In ?y (participants ?s), Ht : In ?t (participants ?s) |- _ =>
         lazymatch y with t => fail | _ => idtac end;
         assert (y = t) as ->
           by (eapply (serial_same_key SessionParticipants.id);
               [exact Hkp|assumption|assumption|congruence])
       end.
  all: repeat match goal with
       | H : @Some SessionParticipants.t ?a = Some ?b |- _ =>
         injection H as H; try subst a; try subst b
       end.
  all: try match goal with
       | H : SessionParticipants.userId _ = User.id _ |- _ => rewrite H
       end.
  all: first
         [ match goal with
           | H : truthy (find (owned_character ?c ?uid) _) = true
             |- owned_by _ ?c ?uid =>
             apply owned_by_found in H; character_stays H
           end
         | exfalso;
           match goal with
           | H : truthy (Val ?z) = false |- _ =>
             cbn in H; unfold truthy_Z in H; apply negb_false_iff in H;
             apply Z.eqb_eq in H; subst z
           end;
           cbn [fk_opt] in *; congruence ].
Qed.

(** X14.  A participant row never names somebody else's character:
    whatever requests are served one after the other, the character a row
    names belongs to the user of the row.  (The database has its serial
    keys in order; in particular no character has the key 0, for which
    the handlers skip their check.) *)
Theorem seats_keep_own_characters reqs st :
  keys_ok st ->
  seats_with_own_characters st ->
  seats_with_own_characters (serve reqs st).
Proof.
  revert st. induction reqs as [|[token req] reqs IH]; intros st Hk Ho.
  - exact Ho.
  - cbn [serve]. apply IH.
    + apply router_keeps_keys. exact Hk.
    + apply router_keeps_seats; assumption.
Qed.

Lemma seats_keep_own_characters_witness :
  let with_bobs :=
    mkParticipantBody Undefined (Val 3) (Val 1) (Val "joueur") in
  let with_her_own :=
    mkParticipantBody Undefined (Val 3) (Val 2) (Val "joueur") in
  let reqs :=
    [(carol, POST_characters (new_character "Arwen"));
     (alice, POST_sessions_id_participants (Some 1) with_bobs);
     (alice, POST_sessions_id_participants (Some 1) with_her_own)] in
  status (fst (router alice (POST_sessions_id_participants (Some 1) with_bobs)
                 (serve [(carol, POST_characters (new_character "Arwen"))]
                    with_legolas))) = 404
  /\ In (SessionParticipants.mk 3 1 3 (Some 2) "joueur")
       (participants (serve reqs with_legolas))
  /\ owned_by (characters (serve reqs with_legolas)) 2 3.
Proof.
  cbv zeta. split; [reflexivity|].
  set (reqs :=
         [(carol, POST_characters (new_character "Arwen"));
          (alice, POST_sessions_id_participants (Some 1)
                    (mkParticipantBody Undefined (Val 3) (Val 1)
                       (Val "joueur")));
          (alice, POST_sessions_id_participants (Some 1)
                    (mkParticipantBody Undefined (Val 3) (Val 2)
                       (Val "joueur")))]).
  assert (In (SessionParticipants.mk 3 1 3 (Some 2) "joueur")
            (participants (serve reqs with_legolas))) as Hin
    by (vm_compute; tauto).
  split; [exact Hin|].
  assert (keys_ok with_legolas) as Hk by check_store.
  assert (seats_with_own_characters with_legolas) as Ho.
  { intros p c Hp Hc. vm_compute in Hp.
    destruct Hp as [<-|[<-|[]]]; [discriminate Hc|].
    injection Hc as <-.
    exists (Character.mk 1 "Legolas" "elf" "ranger" 1 None None None true 2
              (Some 1)).
    split; [vm_compute; left; reflexivity|split; reflexivity]. }
  exact (seats_keep_own_characters reqs with_legolas Hk Ho
           (SessionParticipants.mk 3 1 3 (Some 2) "joueur") 2 Hin eq_refl).
Defined.

(** ** Accounts, continued *)

(** [PUT /users/:id] on one's own account. *)
Lemma updateUser_self st token u body :
  authenticated st token u ->
  let data :=
    mkUserData (if_truthy (ub_username body)) (if_truthy (ub_email body))
      (option_map Hashed (if_truthy (ub_password body))) in
  router token (PUT_users_id (Some (User.id u)) body) st
  = if existsb (fun v => negb (User.id v =? User.id u)
                         && (taken (ud_username data) (User.username v)
                             || taken (ud_email data) (User.email v)))
         (users st)
    then (mkResponse 500 false "Erreur lors de la mise à jour de l'utilisateur"
            (PError P2002), st)
    else (mkResponse 200 true "Utilisateur mis à jour avec succès"
            (PUser (apply_UserData data u)),
          set_users (replace User.id (User.id u) (apply_UserData data)
                       (users st)) st).
Proof.
  intros Hauth. cbv zeta.
  destruct (authenticated_find _ _ _ Hauth) as [_ Hfind].
  enter_route Hauth. unfold userController.updateUser. run_monad.
  rewrite Hfind. cbn [truthy truthy_option negb]. cbv beta iota.
  rewrite Z.eqb_refl. cbn [negb]. cbv beta iota. rewrite Hfind.
  destruct (existsb _ (users st)); reflexivity.
Qed.



Lemma find_filter_key_gone {A} (key : A -> Z) (l : list A) id :
  find (fun x => key x =? id) (filter (fun x => negb (key x =? id)) l) = None.
Proof.
  destruct (find _ _) as [x|] eqn:E; [|reflexivity].
  apply find_In in E. destruct E as [Hin Hk]. apply filter_In in Hin.
  destruct Hin as [_ Hne]. rewrite Hk in Hne. discriminate.
Qed.

(** [DELETE /users/:id] answered 200 took the user row away. *)
Lemma deleteUser_ok st u id :
  status (fst (userController.deleteUser (Some u) (Some id) st)) = 200 ->
  users (snd (userController.deleteUser (Some u) (Some id) st))
  = filter (fun x => negb (User.id x =? id)) (users st).
Proof.
  unfold userController.deleteUser. run_handler.
  all: intros Hok; try discriminate Hok; reflexivity.
Qed.

Lemma truthy_string_nonempty (s : string) : truthy s = true <-> s <> "".
Proof. destruct s; cbn; split; intros H; congruence. Qed.

Lemma if_truthy_nonempty (f : field string) s :
  if_truthy f = Some s -> s <> "".
Proof.
  destruct f as [| |a]; cbn; try discriminate.
  destruct (truthy a) eqn:E; [|discriminate]. intros [= <-].
  apply truthy_string_nonempty. exact E.
Qed.



(** X17.  Once [DELETE /users/:id] has been answered 200, a token
    of the deleted user opens no route behind [isAuthenticated] any more
    (each one answers 401 and changes nothing), and no login with the
    email of the account succeeds, whatever the password. *)
Theorem deleted_account_is_locked_out st token id u :
  unique_accounts st -> user_row st id u ->
  let r := router token (DELETE_users_id (Some id)) st in
  status (fst r) = 200 ->
  (forall req,
     behind_isAuthenticated req ->
     router (Some id) req (snd r)
     = (fail 401 "Accès non autorisé. Veuillez vous connecter.", snd r))
  /\ (forall password,
        status (fst (userController.login (Val (User.email u)) password
                       (snd r))) <> 200).
Proof.
  intros [_ Hemails] Hrow. cbv zeta. intros Hok.
  assert (users (snd (router token (DELETE_users_id (Some id)) st))
          = filter (fun x => negb (User.id x =? id)) (users st)) as Husers.
  { revert Hok. unfold router, middleware.isAuthenticated. cbv zeta.
    destruct (middleware.extractUserFromToken token st) as [me|];
      [|discriminate]. apply deleteUser_ok. }
  set (st' := snd (router token (DELETE_users_id (Some id)) st)) in *.
  clearbody st'. split.
  - intros req Hreq. unfold router, sessionParticipantsRoutes_guard,
      middleware.isAuthenticated, middleware.extractUserFromToken. cbv zeta.
    rewrite Husers, find_filter_key_gone.
    destruct req; first [contradiction | reflexivity].
  - intros password.
    assert (find (fun x => (User.email x =? User.email u)%string) (users st')
            = None) as Hnone.
    { destruct (find _ (users st')) as [x|] eqn:E; [|reflexivity]. exfalso.
      apply find_In in E. destruct E as [Hx He]. rewrite Husers in Hx.
      apply filter_In in Hx. destruct Hx as [Hx Hne].
      apply String.eqb_eq in He. apply find_In in Hrow.
      destruct Hrow as [Hu Hid]. apply Z.eqb_eq in Hid.
      rewrite (NoDup_map_eq _ _ _ _ Hemails Hx Hu He), Hid, Z.eqb_refl in Hne.
      discriminate. }
    unfold userController.login. run_monad. store_simpl_goal.
    cbn [str]. destruct (negb _ || negb _); cbv beta iota;
      [discriminate|]. store_simpl_goal. rewrite Hnone. discriminate.
Qed.

Lemma deleted_account_is_locked_out_witness :
  let r := router carol (DELETE_users_id (Some 3)) dragon_hunt in
  status (fst r) = 200
  /\ status (fst (router carol (POST_characters (new_character "Gimli"))
                    (snd r))) = 401
  /\ status (fst (userController.login (Val "carol@example.org")
                    (Val "secret") (snd r))) <> 200.
Proof.
  cbv zeta. split; [reflexivity|].
  assert (unique_accounts dragon_hunt) as Hu by check_store.
  pose proof (deleted_account_is_locked_out dragon_hunt carol 3 carol_row
                Hu eq_refl eq_refl) as [H1 H2].
  split.
  - exact (f_equal (fun r => status (fst r))
             (H1 (POST_characters (new_character "Gimli")) I)).
  - exact (H2 (Val "secret")).
Defined.

(** ** The handlers that only read *)

Ltac run_read :=
  unfold try_catch_read, prisma.user.findMany, prisma.character.findMany,
    prisma.diceRoll.findUnique;
  run_monad; store_simpl_goal.

Lemma listing_count {A} (l : list A) :
  count (listing l) = Z.of_nat (List.length (rows (listing l))).
Proof. reflexivity. Qed.

(** X18.  [getAllUsers] answers 403 unless the caller holds a
    participant row with the role "admin" in some session, whichever it
    is; to such a caller it lists every user once, with the id, the
    username, the email and the three relation counts, and [count] is the
    number of users.  Nothing is written. *)
Theorem getAllUsers_admin_only st u :
  (isSystemAdmin st u ->
   exists l,
     userController.getAllUsers (Some u) st = (Found l, st)
     /\ count l = Z.of_nat (List.length (users st))
     /\ Permutation (rows l) (map (user_count st) (users st)))
  /\ (~ isSystemAdmin st u ->
      userController.getAllUsers (Some u) st
      = (Refused
           (fail 403 "Vous n'êtes pas autorisé à accéder à cette ressource"),
         st)).
Proof.
  unfold userController.getAllUsers. run_read.
  destruct (truthy (find (is_admin_row (User.id u)) (participants st)))
    eqn:E; cbn [negb]; cbv beta iota; split.
  - intros _. eexists. split; [reflexivity|]. unfold listing.
    cbn [count rows]. rewrite length_map. split; [reflexivity|].
    apply Permutation_refl.
  - intros Hno. exfalso. apply Hno. apply is_admin_row_iff. exact E.
  - intros Hadmin. apply is_admin_row_iff in Hadmin. congruence.
  - intros _. reflexivity.
Qed.

(** X19.  [getCharacters] lists the caller's own characters
    when the query names no user, the user 0 or the caller; it lists the
    characters of another user, named by a key of 32 bits, to a caller
    with an "admin" row in some session, and answers 403 to everybody
    else.  A [userId] that is not a number is answered 400. *)
Theorem getCharacters_outcome st u userId :
  let target :=
    match userId with
    | Some (Some n) => if n =? 0 then User.id u else n
    | _ => User.id u
    end in
  let reply := characterController.getCharacters (Some u) userId st in
  (userId = Some None ->
   reply = (Refused (fail 400 "ID d'utilisateur invalide"), st))
  /\ (userId <> Some None ->
      target = User.id u \/ (isSystemAdmin st u /\ int32 target = true) ->
      exists l,
        reply = (Found l, st)
        /\ Permutation l
             (map (character_in_session st)
                (filter (fun c => Character.userId c =? target)
                   (characters st))))
  /\ (userId <> Some None ->
      target <> User.id u -> ~ isSystemAdmin st u ->
      reply
      = (Refused
           (fail 403
              "Vous n'êtes pas autorisé à voir les personnages de cet utilisateur"),
         st)).
Proof.
  cbv zeta. unfold characterController.getCharacters.
  destruct userId as [[n|]|]; run_read.
  - change (truthy n) with (negb (n =? 0)).
    destruct (Z.eqb_spec n 0) as [Hz|Hz]; cbn [negb]; cbv beta iota.
    + split; [discriminate|]. split.
      * intros _ _. eexists. split; [reflexivity|apply Permutation_refl].
      * intros _ Hne. contradiction.
    + split; [discriminate|].
      destruct (Z.eqb_spec n (User.id u)) as [Hme|Hme]; cbn [negb];
        cbv beta iota.
      * split; [|intros _ Hne; contradiction].
        intros _ _. eexists. split; [reflexivity|apply Permutation_refl].
      * store_simpl_goal.
        destruct (truthy (find (is_admin_row (User.id u)) (participants st)))
          eqn:E; cbn [negb]; cbv beta iota; split.
        -- intros _ _. eexists. split; [reflexivity|apply Permutation_refl].
        -- intros _ _ Hno. exfalso. apply Hno. apply is_admin_row_iff.
           exact E.
        -- intros _ [Hsame|[Hadmin _]]; [contradiction|].
           apply is_admin_row_iff in Hadmin. congruence.
        -- intros _ _ _. reflexivity.
  - split; [reflexivity|]. split; intros H; exfalso; apply H; reflexivity.
  - split; [discriminate|]. split.
    + intros _ _. eexists. split; [reflexivity|apply Permutation_refl].
    + intros _ Hne. exfalso. apply Hne. reflexivity.
Qed.

Lemma getCharacters_outcome_witness :
  characterController.getCharacters (Some carol_row) (Some (Some 2))
    with_legolas
  = (Refused
       (fail 403
          "Vous n'êtes pas autorisé à voir les personnages de cet utilisateur"),
     with_legolas)
  /\ exists l,
       characterController.getCharacters (Some bob_row) (Some (Some 2))
         with_legolas = (Found l, with_legolas)
       /\ List.length l = 1%nat.
Proof.
  split.
  - assert (Some (Some 2) <> Some (@None Z)) as Hnum by discriminate.
    assert (2 <> User.id carol_row) as Hother by discriminate.
    assert (~ isSystemAdmin with_legolas carol_row) as Hplain.
    { intros [p [Hin [Hu _]]]. vm_compute in Hin.
      repeat (destruct Hin as [<-|Hin]; [discriminate Hu|]). exact Hin. }
    exact (proj2 (proj2 (getCharacters_outcome with_legolas carol_row
                           (Some (Some 2)))) Hnum Hother Hplain).
  - eexists. split; reflexivity.
Defined.

Lemma member_found st sid uid :
  isParticipant st sid uid ->
  truthy (find (fun p => SessionParticipants.userId p =? uid)
            (participants_of st sid)) = true.
Proof.
  intros H. rewrite <- existsb_find. apply is_participant_of. exact H.
Qed.

Lemma member_not_found st sid uid :
  ~ isParticipant st sid uid ->
  find (fun p => SessionParticipants.userId p =? uid) (participants_of st sid)
  = None.
Proof.
  intros H.
  destruct (find _ (participants_of st sid)) as [p|] eqn:E; [|reflexivity].
  exfalso. apply H. apply is_participant_of. rewrite existsb_find, E.
  reflexivity.
Qed.

(** X20.  A participant of a session is given every
    character attached to it by [getCharactersBySession], with all the
    columns of the character and the id and username of its owner.  The
    same participant is refused the same character by [getCharacterById]
    (403) unless they own it, run the session or hold the role "admin" in
    it. *)
Theorem session_members_read_characters st u sid s c :
  session_row st sid s ->
  character_row st (Character.id c) c ->
  Character.sessionId c = Some sid ->
  isParticipant st sid (User.id u) ->
  (exists l,
     characterController.getCharactersBySession (Some u) (Some sid) st
     = (Found l, st)
     /\ In (character_of_user st c) (rows l)
     /\ count l = Z.of_nat (List.length (rows l)))
  /\ (Character.userId c <> User.id u ->
      ~ isGM s u -> ~ isSessionAdmin st s u ->
      characterController.getCharacterById (Some u) (Some (Character.id c)) st
      = (Refused
           (fail 403 "Vous n'êtes pas autorisé à accéder à ce personnage"),
         st)).
Proof.
  intros Hs Hc Hsid Hmember. split.
  - unfold characterController.getCharactersBySession. run_read.
    unfold session_row in Hs. rewrite Hs. cbv beta iota.
    rewrite (member_found st sid (User.id u) Hmember).
    cbn [negb andb]. rewrite andb_false_r. cbv beta iota.
    eexists. split; [reflexivity|]. split; [|apply listing_count].
    unfold listing. cbn [rows]. apply in_map. apply filter_In.
    apply find_In in Hc. destruct Hc as [Hin _]. split; [exact Hin|].
    rewrite Hsid. cbn [eq_opt]. apply Z.eqb_refl.
  - intros Howner Hgm Hadmin.
    unfold characterController.getCharacterById. run_read.
    unfold character_row in Hc. rewrite Hc. cbv beta iota.
    unfold character_view, session_of. cbn [cv_session]. rewrite Hsid.
    unfold session_row in Hs. rewrite Hs. cbv beta iota.
    pose proof (find_In _ _ _ Hs) as [_ Hkey]. apply Z.eqb_eq in Hkey.
    assert (truthy (find (admin_in (Session.id s) (User.id u))
                      (participants st)) = false) as ->.
    { destruct (truthy _) eqn:E; [|reflexivity].
      apply admin_in_iff in E. contradiction. }
    apply Z.eqb_neq in Howner. rewrite Howner.
    assert ((Session.gmId s =? User.id u) = false) as ->.
    { apply Z.eqb_neq. intros H. apply Hgm. unfold isGM. congruence. }
    reflexivity.
Qed.

Lemma session_members_read_characters_witness :
  let st :=
    serve [(alice, POST_sessions_id_participants (Some 1) (join 3 "joueur"))]
      with_legolas in
  (exists l,
     characterController.getCharactersBySession (Some carol_row) (Some 1) st
     = (Found l, st)
     /\ map (fun x => Character.name (cu_character x)) (rows l) = ["Legolas"])
  /\ characterController.getCharacterById (Some carol_row) (Some 1) st
     = (Refused
          (fail 403 "Vous n'êtes pas autorisé à accéder à ce personnage"),
        st).
Proof.
  cbv zeta.
  set (legolas :=
         Character.mk 1 "Legolas" "elf" "ranger" 1 None None None true 2
           (Some 1)).
  split.
  { exists (listing [mkCharacterOfUser legolas (Some (mkUserName 2 "bob"))]).
    split; vm_compute; reflexivity. }
  set (st := serve _ with_legolas).
  assert (session_row st 1 hunt_row) as Hs by reflexivity.
  assert (character_row st (Character.id legolas) legolas) as Hc
    by reflexivity.
  assert (isParticipant st 1 (User.id carol_row)) as Hmember.
  { exists (SessionParticipants.mk 3 1 3 None "joueur").
    split; [vm_compute; tauto|split; reflexivity]. }
  assert (Character.userId legolas <> User.id carol_row) as Howner
    by discriminate.
  assert (~ isGM hunt_row carol_row) as Hgm by discriminate.
  assert (~ isSessionAdmin st hunt_row carol_row) as Hadmin.
  { intros [p [Hin [_ [Hu Hr]]]]. vm_compute in Hin.
    repeat (destruct Hin as [<-|Hin]; [discriminate|]). exact Hin. }
  exact (proj2 (session_members_read_characters st carol_row 1 hunt_row
                  legolas Hs Hc eq_refl Hmember) Howner Hgm Hadmin).
Defined.

(** [orderBy: { id: 'asc' }] gives the same rows, by increasing key. *)
Lemma insert_by_id_perm p l : Permutation (insert_by_id p l) (p :: l).
Proof.
  induction l as [|q l IH]; cbn [insert_by_id]; [apply Permutation_refl|].
  destruct (SessionParticipants.id p <=? SessionParticipants.id q).
  - apply Permutation_refl.
  - apply perm_trans with (q :: p :: l); [|apply perm_swap].
    apply perm_skip. exact IH.
Qed.

Lemma order_by_id_perm l : Permutation (order_by_id l) l.
Proof.
  unfold order_by_id. induction l as [|p l IH]; cbn [fold_right];
    [apply perm_nil|].
  apply perm_trans with (p :: fold_right insert_by_id [] l);
    [apply insert_by_id_perm|]. apply perm_skip. exact IH.
Qed.

Lemma insert_by_id_sorted p l :
  StronglySorted by_id l -> StronglySorted by_id (insert_by_id p l).
Proof.
  induction 1 as [|q l Hl IH Hq]; cbn [insert_by_id].
  - constructor; constructor.
  - destruct (Z.leb_spec (SessionParticipants.id p) (SessionParticipants.id q))
      as [Hle|Hgt].
    + constructor; [constructor; assumption|]. constructor; [exact Hle|].
      rewrite Forall_forall in *. intros x Hx. specialize (Hq x Hx).
      unfold by_id in *. lia.
    + constructor; [exact IH|]. rewrite Forall_forall in *. intros x Hx.
      apply (Permutation_in _ (insert_by_id_perm p l)) in Hx.
      destruct Hx as [<-|Hx]; [unfold by_id; lia|exact (Hq x Hx)].
Qed.

Lemma order_by_id_sorted l : StronglySorted by_id (order_by_id l).
Proof.
  unfold order_by_id. induction l as [|p l IH]; cbn [fold_right];
    [constructor|]. apply insert_by_id_sorted. exact IH.
Qed.

(** X21.  [getParticipants] lists the participant rows
    of a session to its game-master and to its participants: each row of
    the session once, by increasing id, with the contact columns of its
    user and the sheet columns of its character; [count] is their number.
    Every other caller is answered 403. *)
Theorem getParticipants_outcome st u sid s :
  session_row st sid s ->
  (isGM s u \/ isParticipant st sid (User.id u) ->
   exists l,
     sessionParticipantsController.getParticipants (Some u) (Some (Some sid))
       st = (Found l, st)
     /\ count l = Z.of_nat (List.length (rows l))
     /\ Permutation (map pv_participant (rows l)) (participants_of st sid)
     /\ StronglySorted by_id (map pv_participant (rows l))
     /\ Forall (fun v => v = participant_view st (pv_participant v))
          (rows l))
  /\ (~ isGM s u -> ~ isParticipant st sid (User.id u) ->
      sessionParticipantsController.getParticipants (Some u)
        (Some (Some sid)) st
      = (Refused
           (fail 403
              "Vous n'êtes pas autorisé à voir les participants de cette session"),
         st)).
Proof.
  intros Hs. unfold sessionParticipantsController.getParticipants.
  run_read. unfold session_row in Hs. rewrite Hs. cbv beta iota. split.
  - intros Hallowed.
    assert (negb (Session.gmId s =? User.id u)
            && negb (truthy (find (fun p => SessionParticipants.userId p
                                            =? User.id u)
                               (participants_of st sid))) = false) as Hpass.
    { destruct Hallowed as [Hgm|Hmember].
      - unfold isGM in Hgm. rewrite Hgm, Z.eqb_refl. reflexivity.
      - rewrite (member_found st sid (User.id u) Hmember).
        apply andb_false_r. }
    rewrite Hpass. cbn [andb]. cbv beta iota.
    eexists. split; [reflexivity|]. split; [apply listing_count|].
    unfold listing. cbn [rows]. rewrite map_map. cbn [participant_view
      pv_participant]. rewrite map_id.
    split; [apply order_by_id_perm|]. split; [apply order_by_id_sorted|].
    apply Forall_forall. intros v Hv. apply in_map_iff in Hv.
    destruct Hv as [p [<- _]]. reflexivity.
  - intros Hgm Hmember.
    rewrite (member_not_found st sid (User.id u) Hmember).
    assert ((Session.gmId s =? User.id u) = false) as ->.
    { apply Z.eqb_neq. intros H. apply Hgm. unfold isGM. congruence. }
    reflexivity.
Qed.

Lemma getParticipants_outcome_witness :
  (exists l,
     sessionParticipantsController.getParticipants (Some bob_row)
       (Some (Some 1)) with_bob = (Found l, with_bob)
     /\ StronglySorted by_id (map pv_participant (rows l))
     /\ count l = 2)
  /\ sessionParticipantsController.getParticipants (Some carol_row)
       (Some (Some 1)) with_bob
     = (Refused
          (fail 403
             "Vous n'êtes pas autorisé à voir les participants de cette session"),
        with_bob).
Proof.
  assert (session_row with_bob 1 hunt_row) as Hs by reflexivity.
  split.
  - assert (isParticipant with_bob 1 (User.id bob_row)) as Hmember.
    { exists bob_seat. split; [vm_compute; tauto|split; reflexivity]. }
    destruct (proj1 (getParticipants_outcome with_bob bob_row 1 hunt_row Hs)
                (or_intror Hmember))
      as [l [Heq [Hcount [Hperm [Hsorted _]]]]].
    exists l. split; [exact Heq|]. split; [exact Hsorted|].
    rewrite Hcount, <- (length_map pv_participant), (Permutation_length Hperm).
    reflexivity.
  - assert (~ isGM hunt_row carol_row) as Hgm by discriminate.
    assert (~ isParticipant with_bob 1 (User.id carol_row)) as Hout.
    { intros [p [Hin [_ Hu]]]. vm_compute in Hin.
      repeat (destruct Hin as [<-|Hin]; [discriminate|]). exact Hin. }
    exact (proj2 (getParticipants_outcome with_bob carol_row 1 hunt_row Hs)
             Hgm Hout).
Defined.

(** ** A roll and its reading *)

Lemma calculateDiceRoll_cases rnd e st :
  (exists a, calculateDiceRoll rnd e st = (Next a, st))
  \/ (exists x, calculateDiceRoll rnd e st = (Thrown x, st)).
Proof.
  unfold calculateDiceRoll.
  destruct (match_anywhere e) as [g|]; [|right; eexists; reflexivity].
  destruct ((parseInt (g1 g) <=? 0) || (parseInt (g2 g) <=? 0));
    [right; eexists; reflexivity|].
  destruct (roll_loop rnd (parseInt (g2 g)) (Z.to_nat (parseInt (g1 g))) 0 []
              0).
  left. eexists. reflexivity.
Qed.

(** What [rollDice] has done when it answers 201. *)
Lemma rollDice_created st u rnd body d :
  fst (diceRollController.rollDice rnd (Some u) body st)
  = mkResponse 201 true "Jet de dés effectué avec succès" (PDiceRoll d) ->
  exists s,
    session_row st (num (rb_sessionId body)) s
    /\ DiceRoll.id d = diceRoll_seq st
    /\ DiceRoll.userId d = User.id u
    /\ DiceRoll.sessionId d = num (rb_sessionId body)
    /\ snd (diceRollController.rollDice rnd (Some u) body st)
       = set_diceRolls (diceRolls st ++ [d])%list (next_diceRoll_seq st).
Proof.
  unfold diceRollController.rollDice. run_monad. store_simpl_goal.
  repeat (case_step; store_simpl_goal).
  all: intros H; try discriminate H.
  all: match goal with
       | Hp : calculateDiceRoll ?r ?e ?x = _ |- _ =>
         destruct (calculateDiceRoll_cases r e x) as [[? Hc]|[? Hc]];
         rewrite Hc in Hp; try discriminate Hp; injection Hp as ? ?; subst
       end.
  all: try discriminate.
  all: injection H as <-; eexists; unfold session_row.
  all: repeat match goal with |- _ /\ _ => split end.
  all: first [eassumption | reflexivity].
Qed.

(** X22.  The user who made a roll (201) reads it back through
    [getDiceRollById], as stored and with their own id and username beside
    it.  A user who is neither the roller, nor the game-master, nor a
    participant of the session of the roll is answered 403.  Keys are
    taken to be unique and below their sequences. *)
Theorem rollDice_then_getDiceRollById st token u rnd body d :
  keys_ok st -> authenticated st token u ->
  let r := router token (POST_dice_rolls rnd body) st in
  fst r = mkResponse 201 true "Jet de dés effectué avec succès"
            (PDiceRoll d) ->
  (exists v,
     diceRollController.getDiceRollById (Some u) (Some (DiceRoll.id d))
       (snd r) = (Found v, snd r)
     /\ dv_diceRoll v = d
     /\ dv_user v = Some (select_name u))
  /\ (forall w s,
        session_row st (DiceRoll.sessionId d) s ->
        User.id w <> User.id u -> ~ isGM s w ->
        ~ isParticipant st (DiceRoll.sessionId d) (User.id w) ->
        diceRollController.getDiceRollById (Some w) (Some (DiceRoll.id d))
          (snd r)
        = (Refused (fail 403 "Vous n'êtes pas autorisé à voir ce jet de dés"),
           snd r)).
Proof.
  intros Hk Hauth. cbv zeta.
  destruct (authenticated_find _ _ _ Hauth) as [_ Hu].
  enter_route Hauth. intros Hok.
  destruct (rollDice_created st u rnd body d Hok)
    as [s [Hs [Hid [Huser [Hsid ->]]]]].
  assert (find (fun x => DiceRoll.id x =? DiceRoll.id d)
            (diceRolls st ++ [d])%list = Some d) as Hfound.
  { rewrite Hid. apply find_new; [|exact Hid].
    destruct Hk as [_ [_ [_ [_ Hd]]]]. exact Hd. }
  unfold session_row in Hs. rewrite <- Hsid in Hs.
  unfold diceRollController.getDiceRollById. split.
  - run_read. rewrite Hfound. cbv beta iota.
    unfold diceRoll_view at 1. cbn [dv_session]. store_simpl_goal.
    rewrite Hs. cbn [option_map]. cbv beta iota.
    rewrite Huser, Z.eqb_refl. cbn [negb]. rewrite !andb_false_r.
    cbv beta iota. eexists. split; [reflexivity|].
    unfold diceRoll_view. cbn [dv_diceRoll dv_user]. store_simpl_goal.
    rewrite Huser, Hu. split; reflexivity.
  - intros w s' Hs' Hother Hgm Hout. unfold session_row in Hs'.
    rewrite Hs in Hs'. injection Hs' as <-.
    run_read. rewrite Hfound. cbv beta iota.
    unfold diceRoll_view at 1. cbn [dv_session]. store_simpl_goal.
    rewrite Hs. cbn [option_map select_gm sg_gmId]. cbv beta iota.
    store_simpl_goal.
    assert (find (member_of (DiceRoll.sessionId d) (User.id w))
              (participants st) = None) as ->.
    { destruct (find _ (participants st)) as [p|] eqn:E; [|reflexivity].
      exfalso. apply Hout. apply member_of_iff. rewrite E. reflexivity. }
    assert ((Session.gmId s =? User.id w) = false) as ->.
    { apply Z.eqb_neq. intros H. apply Hgm. unfold isGM. congruence. }
    assert ((DiceRoll.userId d =? User.id w) = false) as ->.
    { apply Z.eqb_neq. congruence. }
    reflexivity.
Qed.

Lemma rollDice_then_getDiceRollById_witness :
  let r :=
    router bob (POST_dice_rolls half (mkRollBody (Val "2d6+3") (Val 1) Null))
      with_bob in
  (exists v,
     diceRollController.getDiceRollById (Some bob_row) (Some 1) (snd r)
     = (Found v, snd r)
     /\ DiceRoll.result (dv_diceRoll v) = 11)
  /\ diceRollController.getDiceRollById (Some carol_row) (Some 1) (snd r)
     = (Refused (fail 403 "Vous n'êtes pas autorisé à voir ce jet de dés"),
        snd r).
Proof.
  cbv zeta.
  set (body := mkRollBody (Val "2d6+3") (Val 1) Null).
  set (d := DiceRoll.mk 1 "2d6+3" 11 2 None 1
              (Some (Details.mk "2d6+3" [4; 4] 3 11))).
  assert (keys_ok with_bob) as Hk by check_store.
  assert (fst (router bob (POST_dice_rolls half body) with_bob)
          = mkResponse 201 true "Jet de dés effectué avec succès"
              (PDiceRoll d)) as Hok by (vm_compute; reflexivity).
  destruct (rollDice_then_getDiceRollById with_bob bob bob_row half body d
              Hk eq_refl Hok) as [[v [Hv [Hd _]]] Hrefused].
  split.
  - exists v. split; [exact Hv|]. rewrite Hd. reflexivity.
  - assert (session_row with_bob (DiceRoll.sessionId d) hunt_row) as Hs
      by reflexivity.
    assert (User.id carol_row <> User.id bob_row) as Hother by discriminate.
    assert (~ isGM hunt_row carol_row) as Hgm by discriminate.
    assert (~ isParticipant with_bob (DiceRoll.sessionId d)
              (User.id carol_row)) as Hout.
    { intros [p [Hin [_ Hu]]]. vm_compute in Hin.
      repeat (destruct Hin as [<-|Hin]; [discriminate|]). exact Hin. }
    exact (Hrefused carol_row hunt_row Hs Hother Hgm Hout).
Defined.
